(** * serverCamp: the workflow polling engine

    A shallow embedding of [pollWorkflow], the polling loop of the SSE relay
    server, and of its two local helpers [getPollingInterval] and
    [analyzeN8NResponse], followed by the properties of the engine.

    - JavaScript values are a tree type ([JsValue]); numbers are integers
      ([Z]), strings are byte strings, an object is the list of its
      properties.
    - The engine runs in a small monad ([M]) that threads the mutable locals
      of [pollWorkflow], collects what the run does to the outside world
      (events sent, GET requests, waits) and propagates exceptions, so that
      [try]/[catch] and an exception that leaves the handler are part of
      the model.
    - The remote engine and the clock are functions of the number of the
      request and of the reading.
    - [sendEvent], the logger and the timer are taken not to throw; of a
      logger call only the property reads in its arguments are kept, since
      they can throw.

    Around the engine the development embeds what uses it and what it
    uses: the event sink of [createSSEResponse], the handlers of
    [/webhook/enrichir/contacte] and [/webhook/generer/messages] that launch
    a workflow and poll it, the counters of the request middleware with the
    loop of [/debug/cleanup], and the poller and a handler of the first
    version of the server, [webhook_server.js]. *)

From Stdlib Require Import ZArith List String Ascii Bool Lia DecimalString.
Import ListNotations.
Open Scope string_scope.
Open Scope Z_scope.
Set Warnings "-register-all".

(** ** JavaScript values *)

(** A decoded response body, an event payload, a property value.  An object
    is the list of its own enumerable properties in enumeration order (the
    order [JSON.stringify] and the spread operator visit them). *)
Inductive JsValue : Type :=
| JUndefined
| JNull
| JBool (b : bool)
| JNum (n : Z)
| JStr (s : string)
| JArr (items : list JsValue)
| JObj (props : list (string * JsValue)).

(** What a [throw] carries: the [message] and the [code] of the error
    object, the two properties the handler of the loop reads. *)
Inductive JsError : Type :=
| AxiosError (message : string) (code : JsValue)
| TypeError (message : string).

Definition error_message (e : JsError) : string :=
  match e with
  | AxiosError m _ => m
  | TypeError m => m
  end.

Definition error_code (e : JsError) : JsValue :=
  match e with
  | AxiosError _ c => c
  | TypeError _ => JUndefined
  end.

(** The outcome of evaluating an expression or a statement. *)
Inductive Completion (A : Type) : Type :=
| Normal (a : A)
| Throw (e : JsError).
Arguments Normal {A} a.
Arguments Throw {A} e.

(** [ToBoolean]. *)
Definition truthy (v : JsValue) : bool :=
  match v with
  | JUndefined | JNull => false
  | JBool b => b
  | JNum n => negb (n =? 0)
  | JStr s => negb (s =? "")%string
  | JArr _ | JObj _ => true
  end.

(** The [typeof] operator. *)
Definition typeof (v : JsValue) : string :=
  match v with
  | JUndefined => "undefined"
  | JNull => "object"
  | JBool _ => "boolean"
  | JNum _ => "number"
  | JStr _ => "string"
  | JArr _ | JObj _ => "object"
  end.

(** Strict equality with [true]: [v === true]. *)
Definition is_true_value (v : JsValue) : bool :=
  match v with
  | JBool true => true
  | _ => false
  end.

(** The three properties the engine reads from a status document. *)
Inductive Field : Type := executionUrl | finished | data_field.

Definition field_name (f : Field) : string :=
  match f with
  | executionUrl => "executionUrl"
  | finished => "finished"
  | data_field => "data"
  end.

Fixpoint lookup (k : string) (props : list (string * JsValue)) : JsValue :=
  match props with
  | [] => JUndefined
  | (k', v) :: rest => if (k =? k')%string then v else lookup k rest
  end.

(** [v.f]: reading a property of [null] or [undefined] throws a [TypeError];
    on an object it is the own property or [undefined]; arrays, strings,
    numbers and booleans have no property of these three names. *)
Definition get (f : Field) (v : JsValue) : Completion JsValue :=
  match v with
  | JUndefined =>
      Throw (TypeError ("Cannot read properties of undefined (reading '"
                          ++ field_name f ++ "')"))
  | JNull =>
      Throw (TypeError ("Cannot read properties of null (reading '"
                          ++ field_name f ++ "')"))
  | JObj props => Normal (lookup (field_name f) props)
  | _ => Normal JUndefined
  end.

(** ** Strings *)

(** Decimal text of an integer, as a template literal and [JSON.stringify]
    print a number (one below 10^21 in absolute value). *)
Definition show (n : Z) : string := NilZero.string_of_int (Z.to_int n).

Fixpoint join (sep : string) (l : list string) : string :=
  match l with
  | [] => ""
  | [s] => s
  | s :: rest => s ++ sep ++ join sep rest
  end.

(** [s.split('/')], with the segment being read in [cur]. *)
Fixpoint split_from (cur s : string) : list string :=
  match s with
  | EmptyString => [cur]
  | String c rest =>
      if (c =? "/")%char then cur :: split_from "" rest
      else split_from (cur ++ String c "") rest
  end.

Definition split_slash (s : string) : list string := split_from "" s.

(** [s.includes(needle)]. *)
Fixpoint includes (needle s : string) : bool :=
  if prefix needle s then true
  else match s with
       | EmptyString => false
       | String _ rest => includes needle rest
       end.

Definition lower_char (c : ascii) : ascii :=
  let n := nat_of_ascii c in
  if ((65 <=? n) && (n <=? 90))%nat then ascii_of_nat (n + 32) else c.

(** [s.toLowerCase()] on the ASCII letters; other bytes are kept. *)
Fixpoint toLowerCase (s : string) : string :=
  match s with
  | EmptyString => EmptyString
  | String c rest => String (lower_char c) (toLowerCase rest)
  end.

Definition hex_digit (n : nat) : ascii :=
  if (n <? 10)%nat then ascii_of_nat (48 + n) else ascii_of_nat (87 + n).

Definition dquote : ascii := ascii_of_nat 34.
Definition backslash : ascii := ascii_of_nat 92.

(** One character of a JSON string literal. *)
Definition quote_char (c : ascii) : string :=
  let n := nat_of_ascii c in
  if (n =? 34)%nat then String backslash (String dquote "")
  else if (n =? 92)%nat then "\\"
  else if (n =? 8)%nat then "\b"
  else if (n =? 9)%nat then "\t"
  else if (n =? 10)%nat then "\n"
  else if (n =? 12)%nat then "\f"
  else if (n =? 13)%nat then "\r"
  else if (n <? 32)%nat then
    "\u00" ++ String (hex_digit (n / 16)) (String (hex_digit (n mod 16)) "")
  else String c "".

Fixpoint quote_chars (s : string) : string :=
  match s with
  | EmptyString => EmptyString
  | String c rest => quote_char c ++ quote_chars rest
  end.

(** [QuoteJSONString]. *)
Definition quote (s : string) : string :=
  String dquote (quote_chars s ++ String dquote "").

(** [JSON.stringify(v)] without indentation.  [None] is the JavaScript
    [undefined] that [JSON.stringify(undefined)] returns; a property whose
    value is [undefined] is left out of an object and printed as [null] in
    an array. *)
Fixpoint JSON_stringify (v : JsValue) : option string :=
  match v with
  | JUndefined => None
  | JNull => Some "null"
  | JBool true => Some "true"
  | JBool false => Some "false"
  | JNum n => Some (show n)
  | JStr s => Some (quote s)
  | JArr items =>
      Some ("[" ++ join ","
                  (map (fun x => match JSON_stringify x with
                                 | Some s => s
                                 | None => "null"
                                 end) items)
                ++ "]")
  | JObj props =>
      Some ("{" ++ join ","
                  (flat_map (fun kv => match JSON_stringify (snd kv) with
                                       | Some s => [quote (fst kv) ++ ":" ++ s]
                                       | None => []
                                       end) props)
                ++ "}")
  end.

(** ** The poll scheduler *)

(** [getPollingInterval(pollCount, hasError)], in milliseconds. *)
Definition getPollingInterval (pollCount : Z) (hasError : bool) : Z :=
  if hasError then 15000
  else if pollCount <? 5 then 3000
  else if pollCount <? 20 then 5000
  else if pollCount <? 60 then 10000
  else if pollCount <? 120 then 15000
  else 20000.

(** ** The response classifier *)

(** The object [analyzeN8NResponse] returns; [null] fields are [JNull]. *)
Record ErrorAnalysis : Type := mkAnalysis {
  isError : bool;
  errorType : JsValue;
  message : JsValue;
  severity : JsValue
}.

Definition no_error : ErrorAnalysis := mkAnalysis false JNull JNull JNull.

(** The marker scan on [dataStr], the lowercased serialization. *)
Definition scan_markers (dataStr : string) : ErrorAnalysis :=
  if includes "exit code: 1" dataStr then
    mkAnalysis true (JStr "workflow_error")
      (JStr "Le workflow N8N a échoué (exit code: 1)") (JStr "critical")
  else if includes "process finished with an error" dataStr then
    mkAnalysis true (JStr "process_error")
      (JStr "Le processus N8N s'est terminé avec une erreur") (JStr "critical")
  else if includes "timeout" dataStr || includes "timed out" dataStr then
    mkAnalysis true (JStr "n8n_timeout") (JStr "Timeout côté N8N")
      (JStr "warning")
  else no_error.

(** [analyzeN8NResponse(data)].  Calling [toLowerCase] on the [undefined]
    that [JSON.stringify] may return would throw. *)
Definition analyzeN8NResponse (data : JsValue) : Completion ErrorAnalysis :=
  if negb (truthy data) || negb (typeof data =? "object")%string then
    Normal no_error
  else
    match JSON_stringify data with
    | None =>
        Throw (TypeError
                 "Cannot read properties of undefined (reading 'toLowerCase')")
    | Some s => Normal (scan_markers (toLowerCase s))
    end.

(** ** The outside world and the monad of the engine *)

(** What the remote engine answers to one GET: a decoded HTTP response, or
    no response at all (network failure, reset, undecodable body) with the
    [message] and [code] of the error axios raises. *)
Inductive FetchResult : Type :=
| Response (status : Z) (body : JsValue)
| Failure (message : string) (code : JsValue).

(** What a run does to the outside world, in order. *)
Inductive Obs : Type :=
| Sent (eventType : string) (payload : JsValue)
| Fetched (url : string) (answer : FetchResult)
| Slept (ms : Z).

(** The mutable locals of [pollWorkflow], and how many GET requests and
    clock readings the run has made so far. *)
Record PollState : Type := mkState {
  data : JsValue;
  pollCount : Z;
  consecutiveErrors : Z;
  workflowFailed : bool;
  requests : nat;
  readings : nat
}.

Definition set_data (v : JsValue) (s : PollState) : PollState :=
  mkState v (pollCount s) (consecutiveErrors s) (workflowFailed s)
          (requests s) (readings s).
Definition set_pollCount (n : Z) (s : PollState) : PollState :=
  mkState (data s) n (consecutiveErrors s) (workflowFailed s)
          (requests s) (readings s).
Definition set_consecutiveErrors (n : Z) (s : PollState) : PollState :=
  mkState (data s) (pollCount s) n (workflowFailed s)
          (requests s) (readings s).
Definition set_workflowFailed (b : bool) (s : PollState) : PollState :=
  mkState (data s) (pollCount s) (consecutiveErrors s) b
          (requests s) (readings s).
Definition set_requests (n : nat) (s : PollState) : PollState :=
  mkState (data s) (pollCount s) (consecutiveErrors s) (workflowFailed s)
          n (readings s).
Definition set_readings (n : nat) (s : PollState) : PollState :=
  mkState (data s) (pollCount s) (consecutiveErrors s) (workflowFailed s)
          (requests s) n.

(** A piece of a run: what it did, how it completed, the locals after it. *)
Record Run (A : Type) : Type := mkRun {
  out : list Obs;
  completion : Completion A;
  state : PollState
}.
Arguments mkRun {A} out completion state.
Arguments out {A} r.
Arguments completion {A} r.
Arguments state {A} r.

Definition M (A : Type) : Type := PollState -> Run A.

Definition ret {A} (a : A) : M A := fun s => mkRun [] (Normal a) s.

Definition throw {A} (e : JsError) : M A := fun s => mkRun [] (Throw e) s.

Definition lift {A} (c : Completion A) : M A := fun s => mkRun [] c s.

Definition bind {A B} (m : M A) (k : A -> M B) : M B :=
  fun s =>
    match m s with
    | mkRun o (Normal a) s1 =>
        match k a s1 with
        | mkRun o' c s2 => mkRun (o ++ o') c s2
        end
    | mkRun o (Throw e) s1 => mkRun o (Throw e) s1
    end.

(** [try { m } catch (error) { handler error }]. *)
Definition try_catch {A} (m : M A) (handler : JsError -> M A) : M A :=
  fun s =>
    match m s with
    | mkRun o (Normal a) s1 => mkRun o (Normal a) s1
    | mkRun o (Throw e) s1 =>
        match handler e s1 with
        | mkRun o' c s2 => mkRun (o ++ o') c s2
        end
    end.

Definition read {A} (f : PollState -> A) : M A :=
  fun s => mkRun [] (Normal (f s)) s.

Definition update (f : PollState -> PollState) : M unit :=
  fun s => mkRun [] (Normal tt) (f s).

Notation "x <- m ;; k" := (bind m (fun x => k))
  (at level 61, m at next level, right associativity).
Notation "m ;; k" := (bind m (fun _ => k))
  (at level 61, right associativity).

(** [sendEvent(eventType, payload)]: the sink is handed the payload. *)
Definition sendEvent (eventType : string) (payload : JsValue) : M unit :=
  fun s => mkRun [Sent eventType payload] (Normal tt) s.

(** [await new Promise(resolve => setTimeout(resolve, ms))]. *)
Definition sleep (ms : Z) : M unit :=
  fun s => mkRun [Slept ms] (Normal tt) s.

(** [Math.round(x / d)] for an integer [x] and a positive integer [d]:
    the nearest integer, a half rounded up. *)
Definition round_div (x d : Z) : Z := (2 * x + d) / (2 * d).

Definition N8N_WEBHOOK_URL : string := "https://n8n.srv903010.hstgr.cloud/".
Definition maxPolls : Z := 1000.
Definition maxConsecutiveErrors : Z := 10.

(** [u.split('/').slice(3).join('/')]: only a string has [split]. *)
Definition url_path (u : JsValue) : Completion string :=
  match u with
  | JStr s => Normal (join "/" (skipn 3 (split_slash s)))
  | JUndefined =>
      Throw (TypeError "Cannot read properties of undefined (reading 'split')")
  | JNull =>
      Throw (TypeError "Cannot read properties of null (reading 'split')")
  | _ => Throw (TypeError "data.executionUrl.split is not a function")
  end.

(** [JSON.stringify(d).length], of which only the evaluation matters. *)
Definition stringify_length (d : JsValue) : Completion unit :=
  match JSON_stringify d with
  | Some _ => Normal tt
  | None =>
      Throw (TypeError "Cannot read properties of undefined (reading 'length')")
  end.

(** The [validateStatus] of the request configuration. *)
Definition validateStatus (status : Z) : bool := status <? 600.

(** How axios settles the promise of a request: a response whose status
    [validateStatus] rejects, like a failure of the transport, is thrown. *)
Definition settle (answer : FetchResult) : Completion (Z * JsValue) :=
  match answer with
  | Response status body =>
      if validateStatus status then Normal (status, body)
      else Throw (AxiosError
                    ("Request failed with status code " ++ show status)
                    JUndefined)
  | Failure m c => Throw (AxiosError m c)
  end.

(** ** Event payloads *)

Definition seconds (ms : Z) : string := show (round_div ms 1000) ++ "s".
Definition minutes (ms : Z) : string := show (round_div ms 60000) ++ "min".

Definition too_many_errors_payload (consecutiveErrors pollCount : Z) : JsValue :=
  JObj [("message",
         JStr ("Trop d'erreurs consécutives (" ++ show consecutiveErrors ++ ")"));
        ("pollCount", JNum pollCount)].

Definition step_payload (fullUrl : string) (pollCount elapsedTime
    consecutiveErrors : Z) (workflowFailed : bool) : JsValue :=
  JObj [("message",
         JStr ("Vérification " ++ show pollCount ++ "/" ++ show maxPolls
                 ++ " (" ++ seconds elapsedTime ++ ")"));
        ("executionUrl", JStr fullUrl);
        ("pollCount", JNum pollCount);
        ("elapsedTime", JStr (seconds elapsedTime));
        ("consecutiveErrors", JNum consecutiveErrors);
        ("status", JStr (if workflowFailed then "post-error" else "normal"));
        ("note", JStr "AUCUN TIMEOUT - Polling illimité")].

Definition error_detected_payload (a : ErrorAnalysis) (pollCount : Z)
    (data : JsValue) : JsValue :=
  JObj [("errorType", errorType a);
        ("message", message a);
        ("severity", severity a);
        ("pollCount", JNum pollCount);
        ("data", data);
        ("willContinue", JBool true);
        ("note", JStr "Erreur détectée mais polling continue")].

Definition error_persisting_payload (a : ErrorAnalysis) (pollCount : Z)
    (data : JsValue) : JsValue :=
  JObj [("errorType", errorType a);
        ("message", message a);
        ("pollCount", JNum pollCount);
        ("data", data);
        ("note", JStr "Erreur toujours présente, polling continue")].

Definition update_payload (donnee : JsValue) (pollCount pollDuration
    elapsed : Z) (a : ErrorAnalysis) (serverStatus : Z)
    (workflowFailed : bool) (fin : JsValue) : JsValue :=
  JObj [("donnee", donnee);
        ("pollCount", JNum pollCount);
        ("pollDuration", JStr (show pollDuration ++ "ms"));
        ("elapsedTime", JStr (seconds elapsed));
        ("nextPollIn",
         JStr (show (getPollingInterval pollCount (isError a) / 1000) ++ "s"));
        ("serverStatus", JNum serverStatus);
        ("stability", JStr "no-timeout");
        ("hasError", JBool (isError a));
        ("workflowStatus",
         JStr (if workflowFailed then "error-but-continuing"
               else if truthy fin then "completed" else "running"));
        ("workflowFailed", JBool workflowFailed);
        ("note", JStr "")].

Definition workflow_completed_payload (pollCount totalTime : Z)
    (workflowFailed : bool) (data : JsValue) : JsValue :=
  JObj [("message",
         JStr (if workflowFailed
               then "Workflow terminé (avec erreurs détectées mais polling complet)"
               else "Workflow terminé avec succès"));
        ("totalPolls", JNum pollCount);
        ("totalTime", JStr (seconds totalTime));
        ("finalStatus",
         JStr (if workflowFailed then "completed-with-errors"
               else "completed-successfully"));
        ("hadErrors", JBool workflowFailed);
        ("finalData", data);
        ("note", JStr "Aucun timeout appliqué")].

Definition polling_error_payload (error : JsError) (pollCount
    consecutiveErrors : Z) : JsValue :=
  JObj [("error", JStr (error_message error));
        ("errorCode", error_code error);
        ("pollCount", JNum pollCount);
        ("consecutiveErrors", JNum consecutiveErrors);
        ("maxErrorsAllowed", JNum maxConsecutiveErrors);
        ("willRetry", JBool (consecutiveErrors <? maxConsecutiveErrors));
        ("nextAction", JStr "retry_with_delay");
        ("note", JStr "Erreur réseau - Retry automatique")].

Definition polling_ended_payload (pollCount totalElapsedTime : Z)
    (fin : JsValue) (workflowFailed : bool) (endReason : string)
    (consecutiveErrors : Z) (data : JsValue) (finalStatus : string) : JsValue :=
  JObj [("totalPolls", JNum pollCount);
        ("totalTime", JStr (seconds totalElapsedTime));
        ("totalMinutes", JStr (minutes totalElapsedTime));
        ("finished", fin);
        ("workflowFailed", JBool workflowFailed);
        ("reason", JStr endReason);
        ("consecutiveErrors", JNum consecutiveErrors);
        ("success", JBool (is_true_value fin));
        ("finalData", data);
        ("finalStatus", JStr finalStatus);
        ("note", JStr "Polling terminé naturellement - Aucun timeout")].

Definition meta_block (fin : JsValue) (workflowFailed : bool)
    (endReason : string) (pollCount totalElapsedTime : Z) : JsValue :=
  JObj [("success", JBool (is_true_value fin));
        ("failed", JBool workflowFailed);
        ("reason", JStr endReason);
        ("totalPolls", JNum pollCount);
        ("totalTime", JNum (round_div totalElapsedTime 1000));
        ("totalMinutes", JNum (round_div totalElapsedTime 60000));
        ("noTimeoutApplied", JBool true)].

(** The value [pollWorkflow] returns, [{...data, _meta: {...}}]: the own
    properties of [spread] with the property [_meta] set to [meta]. *)
Record PollResult : Type := mkResult {
  spread : JsValue;
  meta : JsValue
}.

(** How one pass through the body of the [while] ends. *)
Inductive LoopCtl : Type := Next | Break.

(** ** The polling engine *)

Section Engine.

(** The answer of the remote engine to the [k]-th GET of the run, and the
    value of the [k]-th reading of [Date.now()], both counted from 0. *)
Variable remote : nat -> FetchResult.
Variable clock : nat -> Z.

(** [Date.now()]. *)
Definition now : M Z :=
  fun s => mkRun [] (Normal (clock (readings s)))
                 (set_readings (S (readings s)) s).

(** [await axios.get(url, axiosConfig)]: the pair of [statusRes.status]
    and [statusRes.data], or the exception. *)
Definition axios_get (url : string) : M (Z * JsValue) :=
  fun s =>
    let answer := remote (requests s) in
    mkRun [Fetched url answer] (settle answer)
          (set_requests (S (requests s)) s).

(** [data.executionUrl && !data.finished && pollCount < config.maxPolls]. *)
Definition loop_condition : M bool :=
  d <- read data ;;
  u <- lift (get executionUrl d) ;;
  if truthy u then
    f <- lift (get finished d) ;;
    if negb (truthy f) then
      pc <- read pollCount ;;
      ret (pc <? maxPolls)
    else ret false
  else ret false.

(** The body of the [try]. *)
Definition try_block (startTime elapsedTime : Z) : M unit :=
  d <- read data ;;
  u <- lift (get executionUrl d) ;;
  path <- lift (url_path u) ;;
  let fullUrl := N8N_WEBHOOK_URL ++ path in
  pc <- read pollCount ;;
  ce <- read consecutiveErrors ;;
  wf <- read workflowFailed ;;
  sendEvent "step" (step_payload fullUrl pc elapsedTime ce wf) ;;
  startPoll <- now ;;
  statusRes <- axios_get fullUrl ;;
  t <- now ;;
  let pollDuration := t - startPoll in
  update (set_consecutiveErrors 0) ;;
  update (set_data (snd statusRes)) ;;
  d <- read data ;;
  errorAnalysis <- lift (analyzeN8NResponse d) ;;
  (* the arguments of logger.debug *)
  _ <- lift (get finished d) ;;
  _ <- lift (stringify_length d) ;;
  (if isError errorAnalysis then
     wf <- read workflowFailed ;;
     if negb wf then
       update (set_workflowFailed true) ;;
       sendEvent "n8n_error_detected" (error_detected_payload errorAnalysis pc d)
     else
       sendEvent "error_persisting" (error_persisting_payload errorAnalysis pc d)
   else ret tt) ;;
  donnee <- lift (get data_field d) ;;
  t' <- now ;;
  wf <- read workflowFailed ;;
  fin <- lift (get finished d) ;;
  sendEvent "update"
    (update_payload donnee pc pollDuration (t' - startTime) errorAnalysis
                    (fst statusRes) wf fin) ;;
  if negb (truthy fin) then
    sleep (getPollingInterval pc (isError errorAnalysis))
  else
    t'' <- now ;;
    sendEvent "workflow_completed"
      (workflow_completed_payload pc (t'' - startTime) wf d).

(** The body of the [catch]. *)
Definition catch_block (error : JsError) : M unit :=
  ce <- read consecutiveErrors ;;
  update (set_consecutiveErrors (ce + 1)) ;;
  (* the arguments of logger.error *)
  d <- read data ;;
  _ <- lift (get executionUrl d) ;;
  pc <- read pollCount ;;
  ce <- read consecutiveErrors ;;
  sendEvent "polling_error" (polling_error_payload error pc ce) ;;
  sleep 15000.

(** The body of the [while]. *)
Definition loop_body (startTime : Z) : M LoopCtl :=
  pc <- read pollCount ;;
  update (set_pollCount (pc + 1)) ;;
  t <- now ;;
  let elapsedTime := t - startTime in
  ce <- read consecutiveErrors ;;
  if maxConsecutiveErrors <=? ce then
    pc <- read pollCount ;;
    sendEvent "too_many_errors" (too_many_errors_payload ce pc) ;;
    ret Break
  else
    try_catch (try_block startTime elapsedTime) catch_block ;;
    ret Next.

(** Sequencing a finished piece of a run with what follows it. *)
Definition and_then {A B} (r : Run A) (k : A -> PollState -> option (Run B))
  : option (Run B) :=
  match r with
  | mkRun o (Normal a) s1 =>
      match k a s1 with
      | Some (mkRun o' c s2) => Some (mkRun (o ++ o') c s2)
      | None => None
      end
  | mkRun o (Throw e) s1 => Some (mkRun o (Throw e) s1)
  end.

(** The [while] loop.  [None] when [fuel] passes do not reach its end. *)
Fixpoint while_loop (fuel : nat) (startTime : Z) (s : PollState)
  : option (Run unit) :=
  match fuel with
  | O => None
  | S fuel' =>
      and_then (loop_condition s) (fun go s1 =>
        if go then
          and_then (loop_body startTime s1) (fun ctl s2 =>
            match ctl with
            | Next => while_loop fuel' startTime s2
            | Break => Some (ret tt s2)
            end)
        else Some (ret tt s1))
  end.

(** The reason and the final status the code after the loop settles on. *)
Definition end_reason (fin : JsValue) (workflowFailed : bool)
    (pollCount consecutiveErrors : Z) : string * string :=
  if truthy fin && negb workflowFailed then ("completed", "success")
  else if truthy fin && workflowFailed
       then ("completed_with_errors", "partial_success")
  else if maxPolls <=? pollCount then ("max_polls_reached", "max_attempts")
  else if maxConsecutiveErrors <=? consecutiveErrors
       then ("too_many_network_errors", "network_failure")
  else ("interrupted", "interrupted").

(** The code after the loop. *)
Definition finish (startTime : Z) : M PollResult :=
  t <- now ;;
  let totalElapsedTime := t - startTime in
  d <- read data ;;
  wf <- read workflowFailed ;;
  pc <- read pollCount ;;
  ce <- read consecutiveErrors ;;
  fin <- lift (get finished d) ;;
  let ends := end_reason fin wf pc ce in
  sendEvent "polling_ended"
    (polling_ended_payload pc totalElapsedTime fin wf (fst ends) ce d
                           (snd ends)) ;;
  ret (mkResult d (meta_block fin wf (fst ends) pc totalElapsedTime)).

Definition initial_state (url : JsValue) : PollState :=
  mkState (JObj [("executionUrl", url); ("finished", JBool false)])
          0 0 false O O.

(** [pollWorkflow(executionUrl, sendEvent, requestId)] with as many passes
    as [fuel] allows; a [Throw] is the rejection of the promise. *)
Definition pollWorkflow_fuel (fuel : nat) (url : JsValue)
  : option (Run PollResult) :=
  and_then (now (initial_state url)) (fun startTime s =>
    match while_loop fuel startTime s with
    | None => None
    | Some r => and_then r (fun _ s' => Some (finish startTime s'))
    end).

(** The loop makes at most [maxPolls] passes, and one more test of its
    condition. *)
Definition pollWorkflow (url : JsValue) : option (Run PollResult) :=
  pollWorkflow_fuel (S (Z.to_nat maxPolls)) url.

End Engine.


(** ** Reading a run *)

Definition nullish (v : JsValue) : bool :=
  match v with
  | JUndefined | JNull => true
  | _ => false
  end.

(** The value of [v.f] when [v] is neither [null] nor [undefined]. *)
Definition prop (f : Field) (v : JsValue) : JsValue :=
  match v with
  | JObj props => lookup (field_name f) props
  | _ => JUndefined
  end.

(** A property of an event payload or of the metadata block. *)
Definition field (k : string) (v : JsValue) : JsValue :=
  match v with
  | JObj props => lookup k props
  | _ => JUndefined
  end.

(** The value of the loop condition on locals that hold a document. *)
Definition continues (s : PollState) : bool :=
  truthy (prop executionUrl (data s))
  && negb (truthy (prop finished (data s)))
  && (pollCount s <? maxPolls).

(** The locals a run starts the loop with, the clock read once. *)
Definition start_state (url : JsValue) : PollState :=
  set_readings 1 (initial_state url).

(** What the code after the loop does from locals that hold a document. *)
Definition summary (clock : nat -> Z) (startTime : Z) (s : PollState)
  : Run PollResult :=
  let total := clock (readings s) - startTime in
  let fin := prop finished (data s) in
  let ends := end_reason fin (workflowFailed s) (pollCount s)
                         (consecutiveErrors s) in
  mkRun [Sent "polling_ended"
           (polling_ended_payload (pollCount s) total fin (workflowFailed s)
              (fst ends) (consecutiveErrors s) (data s) (snd ends))]
        (Normal (mkResult (data s)
                   (meta_block fin (workflowFailed s) (fst ends) (pollCount s)
                               total)))
        (set_readings (S (readings s)) s).

(** The classification of a body, [analyzeN8NResponse] never throwing. *)
Definition analysis_of (d : JsValue) : ErrorAnalysis :=
  match analyzeN8NResponse d with
  | Normal a => a
  | Throw _ => no_error
  end.

(** The answer is a delivered response that the classifier flags. *)
Definition classified (answer : FetchResult) : bool :=
  match settle answer with
  | Normal (_, body) => isError (analysis_of body)
  | Throw _ => false
  end.

(** The request failed: no response, or a status that is rejected. *)
Definition rejected (answer : FetchResult) : bool :=
  match settle answer with
  | Normal _ => false
  | Throw _ => true
  end.

Definition is_sent (eventType : string) (o : Obs) : bool :=
  match o with
  | Sent ty _ => (ty =? eventType)%string
  | _ => false
  end.

Definition is_fetch (o : Obs) : bool :=
  match o with
  | Fetched _ _ => true
  | _ => false
  end.

(** How many events of a type a run sent, how many requests it made. *)
Definition count_sent (eventType : string) (t : list Obs) : nat :=
  List.length (filter (is_sent eventType) t).

Definition count_fetches (t : list Obs) : nat :=
  List.length (filter is_fetch t).

(** The requests of a trace whose response the classifier flags. *)
Definition flagged (o : Obs) : bool :=
  match o with
  | Fetched _ answer => classified answer
  | _ => false
  end.

Definition count_flagged (t : list Obs) : nat :=
  List.length (filter flagged t).

(** The answers to the requests of a trace, in order. *)
Fixpoint answers (t : list Obs) : list FetchResult :=
  match t with
  | [] => []
  | Fetched _ answer :: rest => answer :: answers rest
  | _ :: rest => answers rest
  end.

(** The answer to the first request of a piece of a run. *)
Fixpoint fetched (t : list Obs) : option FetchResult :=
  match t with
  | [] => None
  | Fetched _ answer :: _ => Some answer
  | _ :: rest => fetched rest
  end.

(** The event that reports the classification of a flagged body: the first
    one of a run, then the following ones. *)
Definition error_event (workflowFailed : bool) (pollCount : Z)
    (body : JsValue) : list Obs :=
  if isError (analysis_of body) then
    if workflowFailed
    then [Sent "error_persisting"
            (error_persisting_payload (analysis_of body) pollCount body)]
    else [Sent "n8n_error_detected"
            (error_detected_payload (analysis_of body) pollCount body)]
  else [].

(** Every flagged response of a trace is followed at once by its event,
    [n8n_error_detected] while none was [seen] and [error_persisting] from
    then on, and neither event is sent anywhere else. *)
Fixpoint error_events_ok (seen : bool) (t : list Obs) : bool :=
  match t with
  | [] => true
  | Fetched _ answer :: rest =>
      if classified answer then
        match rest with
        | Sent ty _ :: rest' =>
            (ty =? (if seen then "error_persisting" else "n8n_error_detected"))%string
            && error_events_ok true rest'
        | _ => false
        end
      else error_events_ok seen rest
  | Sent ty _ :: rest =>
      negb (ty =? "n8n_error_detected")%string
      && negb (ty =? "error_persisting")%string
      && error_events_ok seen rest
  | Slept _ :: rest => error_events_ok seen rest
  end.

Section Passes.

Variable remote : nat -> FetchResult.
Variable clock : nat -> Z.

(** The paths through the body of the loop, from the locals [s]: what the
    pass does and how it leaves the locals. *)
Inductive Pass (startTime : Z) (s : PollState) : Run LoopCtl -> Prop :=
| pass_guard :
    maxConsecutiveErrors <= consecutiveErrors s ->
    Pass startTime s
      (mkRun [Sent "too_many_errors"
                (too_many_errors_payload (consecutiveErrors s) (pollCount s + 1))]
             (Normal Break)
             (mkState (data s) (pollCount s + 1) (consecutiveErrors s)
                      (workflowFailed s) (requests s) (S (readings s))))
| pass_no_document e :
    consecutiveErrors s < maxConsecutiveErrors ->
    get executionUrl (data s) = Throw e ->
    Pass startTime s
      (mkRun [] (Throw e)
             (mkState (data s) (pollCount s + 1) (consecutiveErrors s + 1)
                      (workflowFailed s) (requests s) (S (readings s))))
| pass_no_request u e :
    consecutiveErrors s < maxConsecutiveErrors ->
    get executionUrl (data s) = Normal u ->
    url_path u = Throw e ->
    Pass startTime s
      (mkRun [Sent "polling_error"
                (polling_error_payload e (pollCount s + 1) (consecutiveErrors s + 1));
              Slept 15000]
             (Normal Next)
             (mkState (data s) (pollCount s + 1) (consecutiveErrors s + 1)
                      (workflowFailed s) (requests s) (S (readings s))))
| pass_rejected u path e :
    consecutiveErrors s < maxConsecutiveErrors ->
    get executionUrl (data s) = Normal u ->
    url_path u = Normal path ->
    settle (remote (requests s)) = Throw e ->
    Pass startTime s
      (mkRun [Sent "step"
                (step_payload (N8N_WEBHOOK_URL ++ path) (pollCount s + 1)
                   (clock (readings s) - startTime) (consecutiveErrors s)
                   (workflowFailed s));
              Fetched (N8N_WEBHOOK_URL ++ path) (remote (requests s));
              Sent "polling_error"
                (polling_error_payload e (pollCount s + 1) (consecutiveErrors s + 1));
              Slept 15000]
             (Normal Next)
             (mkState (data s) (pollCount s + 1) (consecutiveErrors s + 1)
                      (workflowFailed s) (S (requests s)) (S (S (readings s)))))
| pass_no_body u path status body e :
    consecutiveErrors s < maxConsecutiveErrors ->
    get executionUrl (data s) = Normal u ->
    url_path u = Normal path ->
    settle (remote (requests s)) = Normal (status, body) ->
    get executionUrl body = Throw e ->
    Pass startTime s
      (mkRun [Sent "step"
                (step_payload (N8N_WEBHOOK_URL ++ path) (pollCount s + 1)
                   (clock (readings s) - startTime) (consecutiveErrors s)
                   (workflowFailed s));
              Fetched (N8N_WEBHOOK_URL ++ path) (remote (requests s))]
             (Throw e)
             (mkState body (pollCount s + 1) 1 (workflowFailed s)
                      (S (requests s)) (S (S (S (readings s))))))
| pass_pending u path status body :
    consecutiveErrors s < maxConsecutiveErrors ->
    get executionUrl (data s) = Normal u ->
    url_path u = Normal path ->
    settle (remote (requests s)) = Normal (status, body) ->
    nullish body = false ->
    truthy (prop finished body) = false ->
    Pass startTime s
      (mkRun ([Sent "step"
                 (step_payload (N8N_WEBHOOK_URL ++ path) (pollCount s + 1)
                    (clock (readings s) - startTime) (consecutiveErrors s)
                    (workflowFailed s));
               Fetched (N8N_WEBHOOK_URL ++ path) (remote (requests s))]
              ++ error_event (workflowFailed s) (pollCount s + 1) body
              ++ [Sent "update"
                    (update_payload (prop data_field body) (pollCount s + 1)
                       (clock (S (S (readings s))) - clock (S (readings s)))
                       (clock (S (S (S (readings s)))) - startTime)
                       (analysis_of body) status
                       (workflowFailed s || isError (analysis_of body))
                       (prop finished body));
                  Slept (getPollingInterval (pollCount s + 1)
                           (isError (analysis_of body)))])
             (Normal Next)
             (mkState body (pollCount s + 1) 0
                      (workflowFailed s || isError (analysis_of body))
                      (S (requests s)) (S (S (S (S (readings s)))))))
| pass_finished u path status body :
    consecutiveErrors s < maxConsecutiveErrors ->
    get executionUrl (data s) = Normal u ->
    url_path u = Normal path ->
    settle (remote (requests s)) = Normal (status, body) ->
    nullish body = false ->
    truthy (prop finished body) = true ->
    Pass startTime s
      (mkRun ([Sent "step"
                 (step_payload (N8N_WEBHOOK_URL ++ path) (pollCount s + 1)
                    (clock (readings s) - startTime) (consecutiveErrors s)
                    (workflowFailed s));
               Fetched (N8N_WEBHOOK_URL ++ path) (remote (requests s))]
              ++ error_event (workflowFailed s) (pollCount s + 1) body
              ++ [Sent "update"
                    (update_payload (prop data_field body) (pollCount s + 1)
                       (clock (S (S (readings s))) - clock (S (readings s)))
                       (clock (S (S (S (readings s)))) - startTime)
                       (analysis_of body) status
                       (workflowFailed s || isError (analysis_of body))
                       (prop finished body));
                  Sent "workflow_completed"
                    (workflow_completed_payload (pollCount s + 1)
                       (clock (S (S (S (S (readings s))))) - startTime)
                       (workflowFailed s || isError (analysis_of body)) body)])
             (Normal Next)
             (mkState body (pollCount s + 1) 0
                      (workflowFailed s || isError (analysis_of body))
                      (S (requests s)) (S (S (S (S (S (readings s)))))))).

(** The executions of the loop from the locals [s]: the trace, how the
    loop completes, the locals it leaves. *)
Inductive loop_run (startTime : Z) : PollState -> list Obs ->
    Completion unit -> PollState -> Prop :=
| loop_no_document s e :
    completion (loop_condition s) = Throw e ->
    loop_run startTime s [] (Throw e) s
| loop_exit s :
    completion (loop_condition s) = Normal false ->
    loop_run startTime s [] (Normal tt) s
| loop_break s :
    completion (loop_condition s) = Normal true ->
    completion (loop_body remote clock startTime s) = Normal Break ->
    loop_run startTime s (out (loop_body remote clock startTime s)) (Normal tt)
             (state (loop_body remote clock startTime s))
| loop_throw s e :
    completion (loop_condition s) = Normal true ->
    completion (loop_body remote clock startTime s) = Throw e ->
    loop_run startTime s (out (loop_body remote clock startTime s)) (Throw e)
             (state (loop_body remote clock startTime s))
| loop_next s t c s' :
    completion (loop_condition s) = Normal true ->
    completion (loop_body remote clock startTime s) = Normal Next ->
    loop_run startTime (state (loop_body remote clock startTime s)) t c s' ->
    loop_run startTime s (out (loop_body remote clock startTime s) ++ t) c s'.

(** The locals after [n] more passes through the body of the loop. *)
Fixpoint passes (startTime : Z) (n : nat) (s : PollState) : PollState :=
  match n with
  | O => s
  | S n' => passes startTime n' (state (loop_body remote clock startTime s))
  end.

End Passes.

(** ** Sample inputs *)

(** A remote engine that answers a running document, then fails once, then
    answers the finished document; a clock that advances by a second at
    every reading. *)
Definition w_running : JsValue :=
  JObj [("executionUrl", JStr "https://n8n.example/api/webhook/run/7");
        ("finished", JBool false)].
Definition w_done : JsValue :=
  JObj [("finished", JBool true); ("data", JObj [("ok", JBool true)])].
Definition w_remote (k : nat) : FetchResult :=
  match k with
  | O => Response 200 w_running
  | 1%nat => Failure "socket hang up" (JStr "ECONNRESET")
  | _ => Response 200 w_done
  end.
Definition w_clock (k : nat) : Z := 1000 * Z.of_nat k.
Definition w_url : JsValue := JStr "https://n8n.example/api/webhook/run/7".

(** Locals at the head of the loop, the flag set by an earlier pass. *)
Definition w_flagged : PollState :=
  mkState w_running 3 0 true 0 4.

(** Locals at the head of the loop, one request made so far. *)
Definition w_failing : PollState :=
  mkState w_running 1 0 false 1 5.

(** A remote engine whose first two documents report a failed step. *)
Definition w_failed_step : JsValue :=
  JObj [("executionUrl", JStr "https://n8n.example/api/webhook/run/7");
        ("finished", JBool false);
        ("data", JObj [("log", JStr "Process exited: Exit Code: 1")])].
Definition w_remote_errors (k : nat) : FetchResult :=
  match k with
  | O | 1%nat => Response 200 w_failed_step
  | _ => Response 200 w_done
  end.

(** A remote engine that answers 990 running documents and then fails. *)
Definition c3_remote (k : nat) : FetchResult :=
  if (k <? 990)%nat then Response 200 w_running
  else Failure "connect ETIMEDOUT" (JStr "ETIMEDOUT").

(** A remote engine that fails ten times after one running document. *)
Definition w_remote_down (k : nat) : FetchResult :=
  match k with
  | O => Response 200 w_running
  | _ => Failure "connect ECONNREFUSED" (JStr "ECONNREFUSED")
  end.

(** A document that is not finished and names no status URL; a remote
    engine that answers it to the request of a given number and running
    documents before. *)
Definition w_no_url : JsValue :=
  JObj [("finished", JBool false); ("data", JObj [("step", JNum 2)])].
Definition remote_no_url (n k : nat) : FetchResult :=
  if (k <? n)%nat then Response 200 w_running else Response 200 w_no_url.

(** A document that carries two markers. *)
Definition c9_document : JsValue :=
  JObj [("finished", JBool false);
        ("data", JObj [("stderr", JStr "Timeout after 30s, exit code: 1")])].

(** ** Reading a run: where and when the requests go *)

(** The URLs of the requests of a trace, in order. *)
Fixpoint urls (t : list Obs) : list string :=
  match t with
  | [] => []
  | Fetched u _ :: rest => u :: urls rest
  | _ :: rest => urls rest
  end.

(** Every request of the trace but the first comes after a wait of 3000 ms
    at least that follows the request before it; [ready] tells whether a
    request may be made now. *)
Fixpoint paced (ready : bool) (t : list Obs) : bool :=
  match t with
  | [] => true
  | Fetched _ _ :: rest => ready && paced false rest
  | Slept ms :: rest => paced (ready || (3000 <=? ms)) rest
  | Sent _ _ :: rest => paced ready rest
  end.

(** The time a trace spends waiting, in milliseconds. *)
Fixpoint slept (t : list Obs) : Z :=
  match t with
  | [] => 0
  | Slept ms :: rest => ms + slept rest
  | _ :: rest => slept rest
  end.

(** Every request of the trace comes right after a [step] event that
    names its URL, and every [step] event is followed at once by the
    request. *)
Fixpoint announced (t : list Obs) : bool :=
  match t with
  | [] => true
  | Sent ty p :: rest =>
      if (ty =? "step")%string then
        match rest with
        | Fetched u _ :: rest' =>
            match field "executionUrl" p with
            | JStr u' => (u' =? u)%string
            | _ => false
            end && announced rest'
        | _ => false
        end
      else announced rest
  | Fetched _ _ :: _ => false
  | Slept _ :: rest => announced rest
  end.

(** ** The event sink *)

(** The own enumerable properties of a value, which [{...v}] copies: those
    of an object, the elements of an array under their indices and the
    characters of a string under theirs; the other values have none. *)
Fixpoint indexed (i : nat) (items : list JsValue) : list (string * JsValue) :=
  match items with
  | [] => []
  | x :: rest => (show (Z.of_nat i), x) :: indexed (S i) rest
  end.

Definition own_props (v : JsValue) : list (string * JsValue) :=
  match v with
  | JObj props => props
  | JArr items => indexed 0 items
  | JStr s =>
      indexed 0 (map (fun c => JStr (String c "")) (list_ascii_of_string s))
  | _ => []
  end.

(** A property [k: v] written after the properties [props] in an object
    literal: it replaces the value of [k] where [k] stands, or it is added
    at the end. *)
Fixpoint set_prop (k : string) (v : JsValue) (props : list (string * JsValue))
  : list (string * JsValue) :=
  match props with
  | [] => [(k, v)]
  | (k', v') :: rest =>
      if (k =? k')%string then (k, v) :: rest
      else (k', v') :: set_prop k v rest
  end.

(** [{...data, timestamp: new Date().toISOString(), requestId}], the time
    of the event being [timestamp]. *)
Definition event_data (requestId : JsValue) (timestamp : string)
    (data : JsValue) : JsValue :=
  JObj (set_prop "requestId" requestId
          (set_prop "timestamp" (JStr timestamp) (own_props data))).

Definition LF : ascii := ascii_of_nat 10.
Definition CR : ascii := ascii_of_nat 13.

(** A value in a template literal, for the result of [JSON.stringify]. *)
Definition interpolate (text : option string) : string :=
  match text with
  | Some s => s
  | None => "undefined"
  end.

(** The [sendEvent] that [createSSEResponse(res, requestId)] returns: the
    two chunks it writes to the response. *)
Definition sse_writes (requestId : JsValue) (timestamp eventType : string)
    (data : JsValue) : list string :=
  ["event: " ++ eventType ++ String LF "";
   "data: "
     ++ interpolate (JSON_stringify (event_data requestId timestamp data))
     ++ String LF (String LF "")].

(** The chunks of the events of a trace, in order, the [k]-th event being
    sent at the time [stamps k]. *)
Fixpoint sse_stream (requestId : JsValue) (stamps : nat -> string) (k : nat)
    (t : list Obs) : list string :=
  match t with
  | [] => []
  | Sent eventType data :: rest =>
      (sse_writes requestId (stamps k) eventType data
         ++ sse_stream requestId stamps (S k) rest)%list
  | _ :: rest => sse_stream requestId stamps k rest
  end.

(** The byte is none of the control characters U+0000 to U+001F, the
    ones [JSON.stringify] escapes, the line feed and the carriage return
    among them.  The character U+007F and the bytes of the characters from
    U+0080 on, which [JSON.stringify] leaves as they are, pass. *)
Definition not_c0 (c : ascii) : bool := (32 <=? nat_of_ascii c)%nat.

(** No byte of the string is below 32. *)
Fixpoint no_c0 (s : string) : bool :=
  match s with
  | EmptyString => true
  | String c rest => not_c0 c && no_c0 rest
  end.

(** The string is made of decimal digits and minus signs, as the name of
    an index is. *)
Definition digit_or_minus (c : ascii) : bool :=
  let n := nat_of_ascii c in
  ((48 <=? n) && (n <=? 57) || (n =? 45))%nat.

Fixpoint numeric (s : string) : bool :=
  match s with
  | EmptyString => true
  | String c rest => digit_or_minus c && numeric rest
  end.

(** How many times a character occurs in a string. *)
Fixpoint occurrences (c : ascii) (s : string) : nat :=
  match s with
  | EmptyString => O
  | String x rest => ((if (x =? c)%char then 1 else 0) + occurrences c rest)%nat
  end.

(** The types of the events of a trace, in order. *)
Fixpoint event_types (t : list Obs) : list string :=
  match t with
  | [] => []
  | Sent eventType _ :: rest => eventType :: event_types rest
  | _ :: rest => event_types rest
  end.

(** The types of the events [pollWorkflow] sends. *)
Definition polling_events : list string :=
  ["step"; "n8n_error_detected"; "error_persisting"; "update";
   "workflow_completed"; "polling_error"; "too_many_errors"; "polling_ended"].

Definition known_event (eventType : string) : bool :=
  existsb (String.eqb eventType) polling_events.

(** ** The job launchers *)

(** Sequencing two evaluations that can throw. *)
Definition and_also {A B} (c : Completion A) (k : A -> Completion B)
  : Completion B :=
  match c with
  | Normal a => k a
  | Throw e => Throw e
  end.

(** [v.k] for a property name [k] that no string, array, number or
    boolean has. *)
Definition member (k : string) (v : JsValue) : Completion JsValue :=
  match v with
  | JUndefined =>
      Throw (TypeError ("Cannot read properties of undefined (reading '"
                          ++ k ++ "')"))
  | JNull =>
      Throw (TypeError ("Cannot read properties of null (reading '"
                          ++ k ++ "')"))
  | JObj props => Normal (lookup k props)
  | _ => Normal JUndefined
  end.

(** [v?.k]. *)
Definition opt_member (k : string) (v : JsValue) : JsValue :=
  match v with
  | JObj props => lookup k props
  | _ => JUndefined
  end.

(** [a || b], the evaluation of [b] being [b]. *)
Definition or_else (a : JsValue) (b : Completion JsValue)
  : Completion JsValue :=
  if truthy a then Normal a else b.

Fixpoint has_key (k : string) (props : list (string * JsValue)) : bool :=
  match props with
  | [] => false
  | (k', _) :: rest => (k =? k')%string || has_key k rest
  end.

(** A value in a template literal.  An array is the text of its elements
    joined by commas, [null] and [undefined] giving the empty text; an
    object is [[object Object]], unless it has a property [toString] of its
    own: a decoded JSON value is no function, and the conversion throws. *)
Fixpoint to_string (v : JsValue) : Completion string :=
  match v with
  | JUndefined => Normal "undefined"
  | JNull => Normal "null"
  | JBool true => Normal "true"
  | JBool false => Normal "false"
  | JNum n => Normal (show n)
  | JStr s => Normal s
  | JArr items =>
      and_also
        ((fix texts (l : list JsValue) : Completion (list string) :=
            match l with
            | [] => Normal []
            | x :: rest =>
                and_also (match x with
                          | JUndefined | JNull => Normal ""
                          | _ => to_string x
                          end)
                  (fun s => and_also (texts rest)
                                     (fun ss => Normal (s :: ss)))
            end) items)
        (fun ss => Normal (join "," ss))
  | JObj props =>
      if has_key "toString" props
      then Throw (TypeError "Cannot convert object to primitive value")
      else Normal "[object Object]"
  end.

(** The value [{...data, _meta: {...}}] that [pollWorkflow] returns. *)
Definition result_value (res : PollResult) : JsValue :=
  JObj (set_prop "_meta" (meta res) (own_props (spread res))).

(** What a launcher does to the outside world: what the engine does while
    it polls and what the launcher sends itself, its POST request with the
    way the request completes, and the end of the response. *)
Inductive Act : Type :=
| Did (o : Obs)
| Posted (url : string) (body : JsValue) (answer : Completion (Z * JsValue))
| Ended.

(** The acts of a request, and what it adds to [stats.totalErrors]. *)
Record Handled : Type := mkHandled {
  acts : list Act;
  errors : Z
}.

(** [`${data._meta?.totalTime}s (${data._meta?.totalMinutes}min)`]. *)
Definition total_time (m : JsValue) : Completion string :=
  and_also (to_string (opt_member "totalTime" m)) (fun t =>
  and_also (to_string (opt_member "totalMinutes" m)) (fun mn =>
  Normal (t ++ "s (" ++ mn ++ "min)"))).

(** The final event of [/webhook/enrichir/contacte], from the document
    the launcher ends with. *)
Definition final_event (data : JsValue) : Completion Obs :=
  and_also (member "_meta" data) (fun m =>
  and_also (or_else (opt_member "success" m) (member "finished" data))
    (fun success =>
  let failed :=
    if truthy (opt_member "failed" m) then opt_member "failed" m
    else JBool false in
  if truthy success && negb (truthy failed) then
    and_also (total_time m) (fun total =>
    Normal (Sent "completed"
      (JObj [("message",
              JStr "Enrichissement terminé avec succès (sans aucun timeout)");
             ("result", data);
             ("success", JBool true);
             ("totalTime", JStr total);
             ("note", JStr "Terminé naturellement")])))
  else if truthy success && truthy failed then
    and_also (total_time m) (fun total =>
    Normal (Sent "completed_with_errors"
      (JObj [("message",
              JStr "Enrichissement terminé avec des erreurs détectées");
             ("result", data);
             ("success", JBool true);
             ("hadErrors", JBool true);
             ("reason", opt_member "reason" m);
             ("totalTime", JStr total);
             ("note", JStr "Processus complet malgré les erreurs")])))
  else
    and_also (if truthy (opt_member "totalTime" m) then total_time m
              else Normal "N/A") (fun total =>
    Normal (Sent "interrupted"
      (JObj [("message", JStr "L'enrichissement a été interrompu");
             ("result", data);
             ("success", JBool false);
             ("reason", opt_member "reason" m);
             ("totalTime", JStr total);
             ("note",
              JStr "Arrêt pour cause technique (pas de timeout)")]))))).

(** The [catch] of [/webhook/enrichir/contacte], after the acts [before]. *)
Definition enrichir_failed (before : list Act) (error : JsError) : Handled :=
  mkHandled
    (before
       ++ [Did (Sent "error"
                  (JObj [("error", JStr (error_message error));
                         ("errorCode", error_code error);
                         ("message", JStr "Erreur lors de l'enrichissement");
                         ("success", JBool false);
                         ("note",
                          JStr "Erreur réseau ou serveur (pas de timeout)")]));
           Ended])
    1.

(** The [catch] of [/webhook/generer/messages]. *)
Definition generer_failed (before : list Act) (error : JsError) : Handled :=
  mkHandled
    (before
       ++ [Did (Sent "error"
                  (JObj [("error", JStr (error_message error));
                         ("message",
                          JStr "Erreur lors de la génération des messages")]));
           Ended])
    1.

Section Launchers.

(** How the POST request that triggers the workflow completes: with the
    status and the body of the response, or with the error axios throws. *)
Variable trigger : Completion (Z * JsValue).
Variable remote : nat -> FetchResult.
Variable clock : nat -> Z.

(** The clock of the engine when the launcher has read it twice. *)
Definition later (k : nat) : Z := clock (2 + k)%nat.

(** The handler of [POST /webhook/enrichir/contacte], the body of the
    request holding [id]. *)
Definition enrichir_contacte (id : JsValue) : option Handled :=
  let started :=
    [Did (Sent "start"
            (JObj [("message",
                    JStr "Enrichissement des contacts en cours (patience illimitée)...");
                   ("note",
                    JStr "Aucun timeout - Le processus prendra le temps nécessaire")]));
     Posted "https://n8n.srv903010.hstgr.cloud/webhook/enrichir/contacte"
            (JObj [("id", id)]) trigger] in
  match trigger with
  | Throw e => Some (enrichir_failed started e)
  | Normal (_, data) =>
      let requestDuration := clock 1 - clock 0 in
      let progressed :=
        (started
           ++ [Did (Sent "progress"
                      (JObj [("data", data);
                             ("requestDuration",
                              JStr (show requestDuration ++ "ms"));
                             ("note",
                              JStr "Réponse initiale reçue - Début du polling illimité")]))])%list in
      let conclude before data :=
        match final_event data with
        | Normal ev => mkHandled (before ++ [Did ev; Ended]) 0
        | Throw e => enrichir_failed before e
        end in
      match get executionUrl data with
      | Throw e => Some (enrichir_failed progressed e)
      | Normal u =>
          if truthy u then
            match pollWorkflow remote later u with
            | None => None
            | Some (mkRun o (Throw e) _) =>
                Some (enrichir_failed (progressed ++ map Did o) e)
            | Some (mkRun o (Normal res) _) =>
                Some (conclude (progressed ++ map Did o)%list
                               (result_value res))
            end
          else Some (conclude progressed data)
      end
  end.

(** The handler of [POST /webhook/generer/messages], the body of the
    request holding [id] and [mode]. *)
Definition generer_messages (id mode : JsValue) : option Handled :=
  let mode := match mode with JUndefined => JStr "generate" | _ => mode end in
  let started :=
    [Did (Sent "start"
            (JObj [("message", JStr "Génération des messages personnalisés...")]));
     Posted "https://n8n.srv903010.hstgr.cloud/webhook/generer/messages"
            (JObj [("id", id); ("mode", mode)]) trigger] in
  match trigger with
  | Throw e => Some (generer_failed started e)
  | Normal (_, data) =>
      let requestDuration := clock 1 - clock 0 in
      (* the arguments of logger.info *)
      match stringify_length data with
      | Throw e => Some (generer_failed started e)
      | Normal _ =>
          let progressed :=
            (started
               ++ [Did (Sent "progress"
                          (JObj [("data", data);
                                 ("requestDuration",
                                  JStr (show requestDuration ++ "ms"))]))])%list in
          let conclude before data :=
            mkHandled
              (before
                 ++ [Did (Sent "completed"
                            (JObj [("message",
                                    JStr "Messages générés avec succès");
                                   ("result", data)]));
                     Ended])
              0 in
          match get executionUrl data with
          | Throw e => Some (generer_failed progressed e)
          | Normal u =>
              if truthy u then
                match pollWorkflow remote later u with
                | None => None
                | Some (mkRun o (Throw e) _) =>
                    Some (generer_failed (progressed ++ map Did o) e)
                | Some (mkRun o (Normal res) _) =>
                    Some (conclude (progressed ++ map Did o)%list
                                   (result_value res))
                end
              else Some (conclude progressed data)
          end
      end
  end.

End Launchers.

(** The last event of a request and what precedes it. *)
Definition is_final (eventType : string) (a : Act) : bool :=
  match a with
  | Did (Sent ty _) => (ty =? eventType)%string
  | _ => false
  end.

Definition is_end (a : Act) : bool :=
  match a with
  | Ended => true
  | _ => false
  end.

(** The types of the final events of [/webhook/enrichir/contacte]. *)
Definition final_events : list string :=
  ["completed"; "completed_with_errors"; "interrupted"; "error"].

(** The act is neither the end of the response nor a final event. *)
Definition in_progress (a : Act) : bool :=
  match a with
  | Did (Sent ty _) => negb (existsb (String.eqb ty) final_events)
  | Ended => false
  | _ => true
  end.

(** ** The monitoring counters *)

(** The object [stats].  The [Map] of the start times is the list of its
    entries in the order of insertion, [requestsByEndpoint] the list of its
    properties. *)
Record Stats : Type := mkStats {
  activeConnections : Z;
  totalRequests : Z;
  totalErrors : Z;
  requestsByEndpoint : list (string * Z);
  connectionStartTimes : list (string * Z)
}.

Definition initial_stats : Stats := mkStats 0 0 0 [] [].

(** [map.set(k, v)]: the entry of [k] keeps its place, a new one is added
    at the end. *)
Fixpoint map_set (k : string) (v : Z) (m : list (string * Z))
  : list (string * Z) :=
  match m with
  | [] => [(k, v)]
  | (k', v') :: rest =>
      if (k =? k')%string then (k, v) :: rest
      else (k', v') :: map_set k v rest
  end.

(** [map.delete(k)]. *)
Fixpoint map_delete (k : string) (m : list (string * Z)) : list (string * Z) :=
  match m with
  | [] => []
  | (k', v') :: rest =>
      if (k =? k')%string then rest else (k', v') :: map_delete k rest
  end.

Fixpoint map_has (k : string) (m : list (string * Z)) : bool :=
  match m with
  | [] => false
  | (k', _) :: rest => (k =? k')%string || map_has k rest
  end.

(** [if (!counts[path]) counts[path] = 0; counts[path]++], for the path of
    a request, which starts with a slash. *)
Fixpoint bump (path : string) (counts : list (string * Z))
  : list (string * Z) :=
  match counts with
  | [] => [(path, 0 + 1)]
  | (p, n) :: rest =>
      if (path =? p)%string then (p, (if n =? 0 then 0 else n) + 1) :: rest
      else (p, n) :: bump path rest
  end.

(** The request middleware, for a request of identifier [requestId] to
    [path] that comes in at [startTime]. *)
Definition request_start (requestId path : string) (startTime : Z)
    (st : Stats) : Stats :=
  mkStats (activeConnections st + 1)
          (totalRequests st + 1)
          (totalErrors st)
          (bump path (requestsByEndpoint st))
          (map_set requestId startTime (connectionStartTimes st)).

(** The [res.end] that the middleware installs. *)
Definition request_end (requestId : string) (st : Stats) : Stats :=
  mkStats (activeConnections st - 1)
          (totalRequests st)
          (totalErrors st)
          (requestsByEndpoint st)
          (map_delete requestId (connectionStartTimes st)).

(** [stats.totalErrors++] in the [catch] of a handler. *)
Definition request_failed (st : Stats) : Stats :=
  mkStats (activeConnections st) (totalRequests st) (totalErrors st + 1)
          (requestsByEndpoint st) (connectionStartTimes st).

Definition maxAge : Z := 5 * 60 * 1000.

(** The loop of [/debug/cleanup] over the [entries] of the map that are
    still to visit. *)
Fixpoint cleanup_loop (now : Z) (entries : list (string * Z)) (st : Stats)
    (cleanedCount : Z) : Stats * Z :=
  match entries with
  | [] => (st, cleanedCount)
  | (requestId, startTime) :: rest =>
      if maxAge <? now - startTime then
        cleanup_loop now rest
          (mkStats (Z.max 0 (activeConnections st - 1))
                   (totalRequests st)
                   (totalErrors st)
                   (requestsByEndpoint st)
                   (map_delete requestId (connectionStartTimes st)))
          (cleanedCount + 1)
      else cleanup_loop now rest st cleanedCount
  end.

(** The cleaning of [/debug/cleanup] at the time [now]: the counters it
    leaves and the number of connections it reports cleaned. *)
Definition cleanup (now : Z) (st : Stats) : Stats * Z :=
  cleanup_loop now (connectionStartTimes st) st 0.

(** What happens to the counters, one thing at a time. *)
Inductive Op : Type :=
| Start (requestId path : string) (startTime : Z)
| End_ (requestId : string)
| Failed
| Cleanup (now : Z).

Definition apply_op (st : Stats) (op : Op) : Stats :=
  match op with
  | Start requestId path startTime => request_start requestId path startTime st
  | End_ requestId => request_end requestId st
  | Failed => request_failed st
  | Cleanup now => fst (cleanup now st)
  end.

Definition run_ops (ops : list Op) : Stats := fold_left apply_op ops initial_stats.

(** The sum of the counts by endpoint, and the number of requests that
    came in. *)
Definition sum_counts (counts : list (string * Z)) : Z :=
  fold_right (fun e acc => snd e + acc) 0 counts.

Definition is_start (op : Op) : bool :=
  match op with
  | Start _ _ _ => true
  | _ => false
  end.

(** Every request has an identifier of its own and ends once, while it is
    tracked. *)
Fixpoint orderly (st : Stats) (ops : list Op) : bool :=
  match ops with
  | [] => true
  | op :: rest =>
      match op with
      | Start requestId _ _ => negb (map_has requestId (connectionStartTimes st))
      | End_ requestId => map_has requestId (connectionStartTimes st)
      | _ => true
      end && orderly (apply_op st op) rest
  end.

(** The entry is not older than [maxAge] at the time [now]. *)
Definition young (now : Z) (entry : string * Z) : bool :=
  negb (maxAge <? now - snd entry).

(** ** The first version of the server: [webhook_server.js] *)

(** What its poller and its handlers do to the outside world: an event
    sent, a request made with the way it completes (the status and the body
    of the response, or the error axios throws), a wait, the end of the
    response. *)
Inductive Out : Type :=
| Emitted (eventType : string) (payload : JsValue)
| Got (url : string) (answer : Completion (Z * JsValue))
| PostedTo (url : string) (body : JsValue) (answer : Completion (Z * JsValue))
| Waited (ms : Z)
| Closed.

(** [data.executionUrl = v] on an object. *)
Definition assign_executionUrl (v : JsValue) (data : JsValue) : JsValue :=
  match data with
  | JObj props => JObj (set_prop "executionUrl" v props)
  | _ => data
  end.

(** How a pass through the loop leaves it. *)
Record Passed : Type := mkPassed {
  performed : list Out;
  held : JsValue;
  again : bool;
  asked : nat
}.

Section FirstVersion.

(** How the [k]-th GET request of the poller completes. *)
Variable replies : nat -> Completion (Z * JsValue).

(** The [catch] of the loop, the variable [data] holding [data]. *)
Definition simple_catch (before : list Out) (data : JsValue) (asked : nat)
    (error : JsError) : Passed :=
  mkPassed (before ++ [Emitted "error"
                         (JObj [("error", JStr (error_message error))])])
           data false asked.

(** One pass through the body of the [while], the [k]-th request being
    the next one. *)
Definition simple_pass (data : JsValue) (k : nat) : Passed :=
  match and_also (get executionUrl data) url_path with
  | Throw e => simple_catch [] data k e
  | Normal path =>
      let fullUrl := N8N_WEBHOOK_URL ++ path in
      let data1 := assign_executionUrl (JStr fullUrl) data in
      let stepped :=
        [Emitted "step"
           (JObj [("message", JStr "Vérification de l'état...");
                  ("executionUrl", JStr fullUrl)]);
         Got fullUrl (replies k)] in
      match replies k with
      | Throw e => simple_catch stepped data1 (S k) e
      | Normal (_, body) =>
          let updated :=
            (stepped ++ [Emitted "update" (JObj [("data", body)])])%list in
          match get finished body with
          | Throw e => simple_catch updated body (S k) e
          | Normal f =>
              if negb (truthy f)
              then mkPassed (updated ++ [Waited 1000]) body true (S k)
              else mkPassed updated body true (S k)
          end
      end
  end.

(** The [while] loop and the [return]; [None] when [fuel] passes do not
    reach the end of the loop. *)
Fixpoint simple_loop (fuel : nat) (data : JsValue) (k : nat)
  : option (list Out * Completion JsValue) :=
  match fuel with
  | O => None
  | S fuel' =>
      match get executionUrl data with
      | Throw e => Some ([], Throw e)
      | Normal u =>
          if truthy u then
            match get finished data with
            | Throw e => Some ([], Throw e)
            | Normal f =>
                if negb (truthy f) then
                  let p := simple_pass data k in
                  if again p then
                    match simple_loop fuel' (held p) (asked p) with
                    | Some (o, c) => Some ((performed p ++ o)%list, c)
                    | None => None
                    end
                  else Some (performed p, Normal (held p))
                else Some ([], Normal data)
            end
          else Some ([], Normal data)
      end
  end.

(** [pollWorkflow(executionUrl, sendEvent)] of [webhook_server.js]. *)
Definition simple_pollWorkflow (fuel : nat) (executionUrl : JsValue)
  : option (list Out * Completion JsValue) :=
  simple_loop fuel
    (JObj [("executionUrl", executionUrl); ("finished", JBool false)]) O.

(** The handler of [POST /webhook/generer/messages] of
    [webhook_server.js], the trigger request completing as [trigger]. *)
Definition simple_generer_messages (fuel : nat)
    (trigger : Completion (Z * JsValue)) (id mode : JsValue)
  : option (list Out) :=
  let mode := match mode with JUndefined => JStr "generate" | _ => mode end in
  let started :=
    [Emitted "start"
       (JObj [("message", JStr "Génération des messages personnalisés...")]);
     PostedTo "https://n8n.srv903010.hstgr.cloud/webhook/generer/messages"
              (JObj [("id", id); ("mode", mode)]) trigger] in
  let failed before error :=
    (before
       ++ [Emitted "error"
             (JObj [("error", JStr (error_message error));
                    ("message",
                     JStr "Erreur lors de la génération des messages")]);
           Closed])%list in
  let conclude before data :=
    (before
       ++ [Emitted "completed"
             (JObj [("message", JStr "Messages générés avec succès");
                    ("result", data)]);
           Closed])%list in
  match trigger with
  | Throw e => Some (failed started e)
  | Normal (_, data) =>
      let progressed :=
        (started ++ [Emitted "progress" (JObj [("data", data)])])%list in
      match get executionUrl data with
      | Throw e => Some (failed progressed e)
      | Normal u =>
          if truthy u then
            match simple_pollWorkflow fuel u with
            | None => None
            | Some (o, Throw e) => Some (failed (progressed ++ o)%list e)
            | Some (o, Normal data') =>
                Some (conclude (progressed ++ o)%list data')
            end
          else Some (conclude progressed data)
      end
  end.

End FirstVersion.

(** The events of a type among what was done, and the requests. *)
Definition is_emitted (eventType : string) (o : Out) : bool :=
  match o with
  | Emitted ty _ => (ty =? eventType)%string
  | _ => false
  end.

Definition is_got (o : Out) : bool :=
  match o with
  | Got _ _ => true
  | _ => false
  end.

Definition count_emitted (eventType : string) (o : list Out) : nat :=
  List.length (filter (is_emitted eventType) o).

(** The document is not finished and names, in a string, the URL to
    poll next. *)
Definition pending (doc : JsValue) : bool :=
  negb (nullish doc)
  && truthy (prop executionUrl doc)
  && (typeof (prop executionUrl doc) =? "string")%string
  && negb (truthy (prop finished doc)).

(** Symbolic execution of a piece of the engine. *)
Ltac exec :=
  cbv beta iota zeta delta [bind read update ret lift throw try_catch sendEvent sleep now axios_get
       out completion state app fst snd
       set_data set_pollCount set_consecutiveErrors set_workflowFailed
       set_requests set_readings
       data pollCount consecutiveErrors workflowFailed requests readings
       negb].

(** * Properties *)

Lemma get_defined (f : Field) (v : JsValue) :
  nullish v = false -> get f v = Normal (prop f v).
Proof. destruct v; simpl; intros H; try discriminate; reflexivity. Qed.

Lemma get_nullish (f : Field) (v : JsValue) :
  nullish v = true -> exists e, get f v = Throw e.
Proof. destruct v; simpl; intros H; try discriminate; eexists; reflexivity. Qed.

Lemma get_normal_defined (f : Field) (v x : JsValue) :
  get f v = Normal x -> nullish v = false /\ x = prop f v.
Proof.
  destruct v; simpl; intros H; try discriminate;
    injection H as <-; split; reflexivity.
Qed.

Lemma get_throw_nullish (f : Field) (v : JsValue) (e : JsError) :
  get f v = Throw e -> nullish v = true.
Proof. destruct v; simpl; intros H; try discriminate; reflexivity. Qed.

Lemma stringify_object (v : JsValue) :
  typeof v = "object" -> truthy v = true -> exists s, JSON_stringify v = Some s.
Proof.
  destruct v; simpl; intros T H; try discriminate; eexists; reflexivity.
Qed.

Lemma stringify_length_defined (v : JsValue) :
  nullish v = false -> stringify_length v = Normal tt.
Proof.
  unfold stringify_length.
  destruct v as [| |[|]| | | |]; simpl; intros H; try discriminate; reflexivity.
Qed.

Lemma analyze_total (d : JsValue) :
  analyzeN8NResponse d = Normal (analysis_of d).
Proof.
  unfold analysis_of, analyzeN8NResponse.
  destruct (negb (truthy d) || negb (typeof d =? "object")%string) eqn:E.
  - reflexivity.
  - apply orb_false_elim in E as [E1 E2].
    apply negb_false_iff in E1. apply negb_false_iff in E2.
    apply String.eqb_eq in E2.
    destruct (stringify_object d E2 E1) as [s ->]. reflexivity.
Qed.

Section EngineFacts.

Variable remote : nat -> FetchResult.
Variable clock : nat -> Z.

Lemma loop_body_pass (startTime : Z) (s : PollState) :
  Pass remote clock startTime s (loop_body remote clock startTime s).
Proof.
  destruct s as [d pc ce wf rq rd].
  unfold loop_body. exec.
  destruct (Z.leb_spec maxConsecutiveErrors ce) as [Hce|Hce].
  - exec. apply (pass_guard _ _ _ (mkState d pc ce wf rq rd)). exact Hce.
  - unfold try_block, catch_block. exec.
    destruct (get executionUrl d) as [u|e] eqn:Hu; exec.
    2:{ rewrite Hu. exec. apply (pass_no_document _ _ _ (mkState d pc ce wf rq rd)); assumption. }
    destruct (url_path u) as [path|e] eqn:Hp; exec.
    2:{ rewrite Hu. exec. eapply (pass_no_request _ _ _ (mkState d pc ce wf rq rd)); eassumption. }
    destruct (settle (remote rq)) as [[status body]|e] eqn:Hs; exec.
    2:{ rewrite Hu. exec. eapply (pass_rejected _ _ _ (mkState d pc ce wf rq rd)); eassumption. }
    rewrite analyze_total. exec.
    destruct (nullish body) eqn:Hn.
    + destruct (get_nullish finished body Hn) as [e He].
      destruct (get_nullish executionUrl body Hn) as [e' He'].
      rewrite He. exec. rewrite He'. exec.
      eapply (pass_no_body _ _ _ (mkState d pc ce wf rq rd)); eassumption.
    + rewrite !(get_defined _ _ Hn), (stringify_length_defined _ Hn). exec.
      destruct (truthy (prop finished body)) eqn:Hf; exec.
      * generalize (pass_finished remote clock startTime (mkState d pc ce wf rq rd)
                       u path status body Hce Hu Hp Hs Hn Hf).
        unfold error_event. exec.
        destruct (isError (analysis_of body)); destruct wf; exec; intros P; exact P.
      * generalize (pass_pending remote clock startTime (mkState d pc ce wf rq rd)
                       u path status body Hce Hu Hp Hs Hn Hf).
        unfold error_event. exec.
        destruct (isError (analysis_of body)); destruct wf; exec; intros P; exact P.
Qed.

Lemma loop_condition_defined (s : PollState) :
  nullish (data s) = false ->
  loop_condition s = mkRun [] (Normal (continues s)) s.
Proof.
  destruct s as [d pc ce wf rq rd]. simpl. intros Hn.
  unfold loop_condition, continues. exec.
  rewrite !(get_defined _ _ Hn). exec.
  destruct (truthy (prop executionUrl d)); exec;
    [rewrite ?(get_defined _ _ Hn); exec;
     destruct (truthy (prop finished d)) |]; reflexivity.
Qed.

Lemma loop_condition_nullish (s : PollState) :
  nullish (data s) = true ->
  exists e, loop_condition s = mkRun [] (Throw e) s.
Proof.
  destruct s as [d pc ce wf rq rd]. simpl. intros Hn.
  unfold loop_condition. exec.
  destruct (get_nullish executionUrl _ Hn) as [e ->]. exec.
  exists e. reflexivity.
Qed.

Lemma loop_condition_pure (s : PollState) :
  loop_condition s = mkRun [] (completion (loop_condition s)) s.
Proof.
  destruct (nullish (data s)) eqn:Hn.
  - destruct (loop_condition_nullish s Hn) as [e ->]. reflexivity.
  - rewrite (loop_condition_defined s Hn). reflexivity.
Qed.

Lemma loop_condition_normal (s : PollState) (b : bool) :
  completion (loop_condition s) = Normal b ->
  nullish (data s) = false /\ b = continues s.
Proof.
  destruct (nullish (data s)) eqn:Hn.
  - destruct (loop_condition_nullish s Hn) as [e ->]. discriminate.
  - rewrite (loop_condition_defined s Hn). simpl.
    intros H. injection H as <-. split; reflexivity.
Qed.

Lemma continues_true (s : PollState) :
  continues s = true ->
  truthy (prop executionUrl (data s)) = true
  /\ truthy (prop finished (data s)) = false
  /\ pollCount s < maxPolls.
Proof.
  unfold continues. intros H.
  apply andb_prop in H as [H H3]. apply andb_prop in H as [H1 H2].
  apply negb_true_iff in H2. apply Z.ltb_lt in H3. auto.
Qed.

Lemma while_loop_step (fuel : nat) (startTime : Z) (s : PollState) :
  while_loop remote clock (S fuel) startTime s =
  match completion (loop_condition s) with
  | Throw e => Some (mkRun [] (Throw e) s)
  | Normal false => Some (mkRun [] (Normal tt) s)
  | Normal true =>
      match loop_body remote clock startTime s with
      | mkRun o (Throw e) s1 => Some (mkRun o (Throw e) s1)
      | mkRun o (Normal Break) s1 => Some (mkRun o (Normal tt) s1)
      | mkRun o (Normal Next) s1 =>
          match while_loop remote clock fuel startTime s1 with
          | Some (mkRun o' c s2) => Some (mkRun (o ++ o') c s2)
          | None => None
          end
      end
  end.
Proof.
  simpl. rewrite (loop_condition_pure s) at 1.
  destruct (completion (loop_condition s)) as [[|]|e]; simpl; try reflexivity.
  destruct (loop_body remote clock startTime s) as [o [[|]|e] s1]; simpl;
    try reflexivity.
  - destruct (while_loop remote clock fuel startTime s1) as [[o' c s2]|];
      reflexivity.
  - rewrite app_nil_r. reflexivity.
Qed.

Lemma while_loop_run (fuel : nat) (startTime : Z) :
  forall s r,
    while_loop remote clock fuel startTime s = Some r ->
    loop_run remote clock startTime s (out r) (completion r) (state r).
Proof.
  induction fuel as [|fuel IH]; intros s r H; [discriminate|].
  rewrite while_loop_step in H.
  destruct (completion (loop_condition s)) as [[|]|e] eqn:Hc.
  - destruct (loop_body remote clock startTime s) as [o [[|]|e] s1] eqn:Hb.
    + destruct (while_loop remote clock fuel startTime s1) as [[o' c s2]|] eqn:Hw;
        [|discriminate].
      injection H as <-. simpl.
      apply IH in Hw. simpl in Hw.
      pose proof (loop_next remote clock startTime s o' c s2 Hc) as L.
      rewrite Hb in L. apply L; [reflexivity | exact Hw].
    + injection H as <-. simpl.
      pose proof (loop_break remote clock startTime s Hc) as L.
      rewrite Hb in L. apply L. reflexivity.
    + injection H as <-. simpl.
      pose proof (loop_throw remote clock startTime s e Hc) as L.
      rewrite Hb in L. apply L. reflexivity.
  - injection H as <-. apply loop_exit. exact Hc.
  - injection H as <-. apply loop_no_document. exact Hc.
Qed.

(** Every pass adds one to the attempt counter, however it ends. *)
Lemma loop_body_pollCount (startTime : Z) (s : PollState) :
  pollCount (state (loop_body remote clock startTime s)) = pollCount s + 1.
Proof. destruct (loop_body_pass startTime s); reflexivity. Qed.

(** The loop ends within its bound of passes. *)
Lemma while_loop_total (startTime : Z) :
  forall fuel s,
    (Z.to_nat (maxPolls - pollCount s) < fuel)%nat ->
    exists r, while_loop remote clock fuel startTime s = Some r.
Proof.
  induction fuel as [|fuel IH]; intros s Hf; [lia|].
  rewrite while_loop_step.
  destruct (completion (loop_condition s)) as [[|]|e] eqn:Hc;
    try (eexists; reflexivity).
  apply loop_condition_normal in Hc as [_ Hc]. symmetry in Hc.
  apply continues_true in Hc as (_ & _ & Hpc).
  pose proof (loop_body_pollCount startTime s) as Hp.
  destruct (loop_body remote clock startTime s) as [o [[|]|e] s1];
    try (eexists; reflexivity).
  simpl in Hp.
  destruct (IH s1) as [[o' c s2] ->]; [lia|].
  eexists; reflexivity.
Qed.

Lemma finish_defined (startTime : Z) (s : PollState) :
  nullish (data s) = false ->
  finish clock startTime s = summary clock startTime s.
Proof.
  destruct s as [d pc ce wf rq rd]. simpl. intros Hn.
  unfold finish, summary. exec. rewrite (get_defined _ _ Hn). exec. reflexivity.
Qed.

Lemma pollWorkflow_unfold (url : JsValue) :
  pollWorkflow remote clock url =
  match while_loop remote clock (S (Z.to_nat maxPolls)) (clock 0)
                   (start_state url) with
  | Some (mkRun t (Normal _) s') =>
      match finish clock (clock 0) s' with
      | mkRun o' c' s2 => Some (mkRun (t ++ o') c' s2)
      end
  | Some (mkRun t (Throw e) s') => Some (mkRun t (Throw e) s')
  | None => None
  end.
Proof.
  unfold pollWorkflow, pollWorkflow_fuel.
  change (now clock (initial_state url))
    with (mkRun [] (Normal (clock 0)) (start_state url)).
  unfold and_then at 1.
  destruct (while_loop remote clock (S (Z.to_nat maxPolls)) (clock 0)
              (start_state url)) as [[t [[]|e] s']|]; try reflexivity.
  unfold and_then.
  destruct (finish clock (clock 0) s') as [o' c' s2]. reflexivity.
Qed.

(** A run of [pollWorkflow] is an execution of the loop followed, unless
    the loop threw, by the code after the loop. *)
Lemma pollWorkflow_run (url : JsValue) (r : Run PollResult) :
  pollWorkflow remote clock url = Some r ->
  exists t c s',
    loop_run remote clock (clock 0) (start_state url) t c s'
    /\ match c with
       | Normal _ =>
           r = mkRun (t ++ out (finish clock (clock 0) s'))
                     (completion (finish clock (clock 0) s'))
                     (state (finish clock (clock 0) s'))
       | Throw e => r = mkRun t (Throw e) s'
       end.
Proof.
  rewrite pollWorkflow_unfold.
  destruct (while_loop remote clock (S (Z.to_nat maxPolls)) (clock 0)
              (start_state url)) as [[t c s']|] eqn:Hw; [|discriminate].
  apply while_loop_run in Hw. simpl in Hw.
  intros H. exists t, c, s'. split; [exact Hw|].
  destruct c as [[]|e].
  - destruct (finish clock (clock 0) s') as [o' c' s2]. simpl.
    injection H as <-. reflexivity.
  - injection H as <-. reflexivity.
Qed.

(** [pollWorkflow] always ends: with a value or with an exception. *)
Lemma pollWorkflow_total (url : JsValue) :
  exists r, pollWorkflow remote clock url = Some r.
Proof.
  rewrite pollWorkflow_unfold.
  destruct (while_loop_total (clock 0) (S (Z.to_nat maxPolls)) (start_state url))
    as [[t c s'] ->]; [unfold maxPolls, start_state; cbn; lia|].
  destruct c as [[]|e].
  - destruct (finish clock (clock 0) s') as [o' c' s2]. eexists; reflexivity.
  - eexists; reflexivity.
Qed.

End EngineFacts.

(** The cases of a pass, with the pass replaced by what it does. *)
Ltac pass_cases remote clock startTime s :=
  let P := fresh "P" in
  let b := fresh "b" in
  let Eb := fresh "Eb" in
  pose proof (loop_body_pass remote clock startTime s) as P;
  remember (loop_body remote clock startTime s) as b eqn:Eb in *;
  clear Eb; destruct P.

(** ** Counting in traces *)

Lemma count_sent_app (ty : string) (a b : list Obs) :
  count_sent ty (a ++ b) = (count_sent ty a + count_sent ty b)%nat.
Proof. unfold count_sent. rewrite filter_app, length_app. reflexivity. Qed.

Lemma count_fetches_app (a b : list Obs) :
  count_fetches (a ++ b) = (count_fetches a + count_fetches b)%nat.
Proof. unfold count_fetches. rewrite filter_app, length_app. reflexivity. Qed.

Lemma no_fetch_in_error_event (wf : bool) (pc : Z) (body : JsValue) :
  filter is_fetch (error_event wf pc body) = [].
Proof.
  unfold error_event.
  destruct (isError (analysis_of body)); destruct wf; reflexivity.
Qed.

Lemma other_sent_in_error_event (ty : string) (wf : bool) (pc : Z)
    (body : JsValue) :
  ("error_persisting" =? ty)%string = false ->
  ("n8n_error_detected" =? ty)%string = false ->
  filter (is_sent ty) (error_event wf pc body) = [].
Proof.
  intros H1 H2. unfold error_event.
  destruct (isError (analysis_of body)); destruct wf;
    cbn [filter is_sent]; rewrite ?H1, ?H2; reflexivity.
Qed.

(** Counting the events and the requests of an explicit trace. *)
Ltac counts :=
  unfold count_sent, count_fetches in *; simpl;
  rewrite ?filter_app, ?length_app, ?no_fetch_in_error_event,
    ?other_sent_in_error_event by reflexivity;
  simpl; try lia.

Section RunFacts.

Variable remote : nat -> FetchResult.
Variable clock : nat -> Z.

(** The request counter counts the requests of the trace. *)
Lemma loop_run_requests (startTime : Z) (s s' : PollState) (t : list Obs)
    (c : Completion unit) :
  loop_run remote clock startTime s t c s' ->
  requests s' = (requests s + count_fetches t)%nat.
Proof.
  induction 1 as [s e Hc|s Hc|s Hc Hb|s e Hc Hb|s t c s' Hc Hb Hr IH].
  1,2: counts.
  1,2: pass_cases remote clock startTime s; simpl in *; try discriminate; counts.
  rewrite IH, count_fetches_app. clear IH Hr.
  pass_cases remote clock startTime s; simpl in *; try discriminate; counts.
Qed.

Lemma answers_app (a b : list Obs) :
  answers (a ++ b) = (answers a ++ answers b)%list.
Proof.
  induction a as [|[ty p|u x|ms] a IH]; simpl; rewrite ?IH; reflexivity.
Qed.

Lemma answers_error_event (wf : bool) (pc : Z) (body : JsValue) :
  answers (error_event wf pc body) = [].
Proof.
  unfold error_event.
  destruct (isError (analysis_of body)); destruct wf; reflexivity.
Qed.

(** The requests of the loop are answered by [remote], one after the
    other, from the number of requests made before. *)
Lemma loop_run_answers (startTime : Z) (s s' : PollState) (t : list Obs)
    (c : Completion unit) :
  loop_run remote clock startTime s t c s' ->
  answers t = map remote (seq (requests s) (count_fetches t)).
Proof.
  induction 1 as [s e Hc|s Hc|s Hc Hb|s e Hc Hb|s t c s' Hc Hb Hr IH].
  1,2: reflexivity.
  1,2: pass_cases remote clock startTime s; simpl in *; try discriminate;
       rewrite ?answers_app, ?answers_error_event; counts; reflexivity.
  rewrite answers_app, count_fetches_app, seq_app, map_app, IH. clear IH Hr.
  f_equal.
  - pass_cases remote clock startTime s; simpl in *; try discriminate;
      rewrite ?answers_app, ?answers_error_event; counts; reflexivity.
  - f_equal. f_equal.
    pass_cases remote clock startTime s; simpl in *; try discriminate;
      counts.
Qed.

(** Once the condition is false the loop does nothing more. *)
Lemma loop_run_stops (startTime : Z) (s s' : PollState) (t : list Obs)
    (c : Completion unit) :
  completion (loop_condition s) = Normal false ->
  loop_run remote clock startTime s t c s' ->
  t = [] /\ c = Normal tt /\ s' = s.
Proof.
  intros Hc Hr. inversion Hr; subst; try congruence. auto.
Qed.

Lemma finished_document_stops (s : PollState) :
  nullish (data s) = false ->
  truthy (prop finished (data s)) = true ->
  completion (loop_condition s) = Normal false.
Proof.
  intros Hn Hf. rewrite (loop_condition_defined s Hn). simpl.
  unfold continues. rewrite Hf, andb_false_r. reflexivity.
Qed.

Lemma settle_response (status : Z) (body : JsValue) :
  validateStatus status = true ->
  settle (Response status body) = Normal (status, body).
Proof. intros H. simpl. rewrite H. reflexivity. Qed.

Lemma settle_classified (answer : FetchResult) (status : Z) (body : JsValue) :
  settle answer = Normal (status, body) ->
  classified answer = isError (analysis_of body).
Proof. unfold classified. intros ->. reflexivity. Qed.

Lemma settle_not_classified (answer : FetchResult) (e : JsError) :
  settle answer = Throw e -> classified answer = false.
Proof. unfold classified. intros ->. reflexivity. Qed.

Lemma settle_rejected (answer : FetchResult) (e : JsError) :
  settle answer = Throw e -> rejected answer = true.
Proof. unfold rejected. intros ->. reflexivity. Qed.

Lemma settle_not_rejected (answer : FetchResult) (status : Z) (body : JsValue) :
  settle answer = Normal (status, body) -> rejected answer = false.
Proof. unfold rejected. intros ->. reflexivity. Qed.

(** The loop from locals that have made at most [k] requests, when the
    answer to request [k] is a finished document and the loop gets to it. *)
Lemma loop_run_finished (startTime : Z) (k : nat) (status : Z) (doc : JsValue) :
  remote k = Response status doc ->
  validateStatus status = true ->
  get finished doc = Normal (JBool true) ->
  forall s t c s',
    loop_run remote clock startTime s t c s' ->
    (requests s <= k)%nat ->
    (k < requests s')%nat ->
    requests s' = S k
    /\ count_sent "workflow_completed" t = 1%nat
    /\ c = Normal tt
    /\ data s' = doc.
Proof.
  intros Hk Hv Hf.
  pose proof (settle_response status doc Hv) as Hs. rewrite <- Hk in Hs.
  apply get_normal_defined in Hf as [Hn Hf].
  induction 1 as [s e Hc|s Hc|s Hc Hb|s e Hc Hb|s t c s' Hc Hb Hr IH];
    intros Hle Hlt.
  1,2: lia.
  - pass_cases remote clock startTime s; simpl in *; try discriminate; lia.
  - pass_cases remote clock startTime s; simpl in *; try discriminate; [lia|].
    assert (requests s = k) as Ek by lia. rewrite Ek in *.
    rewrite Hs in *.
    match goal with H : Normal _ = Normal _ |- _ => injection H as <- <- end.
    match goal with H : get executionUrl doc = Throw _ |- _ =>
      apply get_throw_nullish in H end.
    congruence.
  - rewrite count_sent_app.
    pass_cases remote clock startTime s; simpl in *; try discriminate.
    + (* no request *)
      destruct (IH Hle Hlt) as (A & B & C & D). repeat split; auto; counts.
    + (* rejected *)
      assert (requests s <> k) as Ne by (intros Ek; rewrite Ek in *; congruence).
      destruct IH as (A & B & C & D); [lia | lia |]. repeat split; auto; counts.
    + (* pending *)
      assert (requests s <> k) as Ne.
      { intros Ek; rewrite Ek in *.
        rewrite Hs in *.
        match goal with H : Normal _ = Normal _ |- _ => injection H as <- <- end.
        rewrite <- Hf in *. simpl in *. congruence. }
      destruct IH as (A & B & C & D); [lia | lia |]. repeat split; auto; counts.
    + (* finished *)
      apply loop_run_stops in Hr as (-> & -> & ->);
        [|apply finished_document_stops; assumption].
      simpl in *. assert (requests s = k) as Ek by lia. rewrite Ek in *.
      rewrite Hs in *.
      match goal with H : Normal _ = Normal _ |- _ => injection H as <- <- end.
      repeat split; auto; counts.
Qed.

(** A loop that completes leaves a document in [data]. *)
Lemma loop_run_document (startTime : Z) (s s' : PollState) (t : list Obs) :
  loop_run remote clock startTime s t (Normal tt) s' ->
  nullish (data s') = false.
Proof.
  intros H. remember (Normal tt) as c eqn:Ec.
  induction H as [s e Hc|s Hc|s Hc Hb|s e Hc Hb|s t c s' Hc Hb Hr IH];
    try discriminate; auto.
  - apply loop_condition_normal in Hc as [Hn _]. exact Hn.
  - apply loop_condition_normal in Hc as [Hn _].
    pass_cases remote clock startTime s; simpl in *; try discriminate. exact Hn.
Qed.

(** The two ways a run of [pollWorkflow] ends: the loop completes and the
    code after it sends the summary and returns, or an exception leaves the
    loop and the function. *)
Lemma pollWorkflow_cases (url : JsValue) (r : Run PollResult) :
  pollWorkflow remote clock url = Some r ->
  exists t c s',
    loop_run remote clock (clock 0) (start_state url) t c s'
    /\ ((c = Normal tt /\ nullish (data s') = false
         /\ r = mkRun (t ++ out (summary clock (clock 0) s'))
                      (completion (summary clock (clock 0) s'))
                      (state (summary clock (clock 0) s')))
        \/ (exists e, c = Throw e /\ r = mkRun t (Throw e) s')).
Proof.
  intros H. apply pollWorkflow_run in H as (t & c & s' & Hr & H).
  exists t, c, s'. split; [exact Hr|].
  destruct c as [[]|e].
  - left. pose proof (loop_run_document _ _ _ _ Hr) as Hn.
    rewrite (finish_defined _ _ _ Hn) in H. auto.
  - right. exists e. auto.
Qed.

(** The requests of a run are answered by [remote 0], [remote 1], ... in
    this order, whatever their URLs. *)
Lemma pollWorkflow_answers (url : JsValue) (r : Run PollResult) :
  pollWorkflow remote clock url = Some r ->
  answers (out r) = map remote (seq 0 (count_fetches (out r))).
Proof.
  intros H. apply pollWorkflow_cases in H as (t & c & s' & Hr & H).
  pose proof (loop_run_answers _ _ _ _ _ Hr) as Ha. simpl in Ha.
  destruct H as [(_ & _ & ->)|(e & _ & ->)]; cbn [out]; [|exact Ha].
  rewrite answers_app, count_fetches_app, Ha. unfold summary. counts.
  rewrite app_nil_r, Nat.add_0_r. reflexivity.
Qed.

Lemma answers_length (t : list Obs) :
  List.length (answers t) = count_fetches t.
Proof.
  unfold count_fetches.
  induction t as [|[ty p|u x|ms] t IH]; simpl; rewrite ?IH; reflexivity.
Qed.

(** The request of a run whose answer is the [k]-th of its trace was made,
    and was answered by [remote k]. *)
Lemma run_answer (url : JsValue) (r : Run PollResult) (k : nat)
    (a : FetchResult) :
  pollWorkflow remote clock url = Some r ->
  nth_error (answers (out r)) k = Some a ->
  (k < count_fetches (out r))%nat /\ remote k = a.
Proof.
  intros H Hk. rewrite (pollWorkflow_answers url r H) in Hk.
  rewrite nth_error_map, nth_error_seq in Hk.
  destruct (Nat.ltb_spec k (count_fetches (out r))) as [L|L];
    [|discriminate].
  simpl in Hk. injection Hk as Hk. auto.
Qed.

(** The finished document, by the number of its request. *)
Lemma finished_answer_ends_polling (url : JsValue) (r : Run PollResult)
    (k : nat) (status : Z) (doc : JsValue) :
  pollWorkflow remote clock url = Some r ->
  (k < count_fetches (out r))%nat ->
  remote k = Response status doc ->
  validateStatus status = true ->
  get finished doc = Normal (JBool true) ->
  count_fetches (out r) = S k
  /\ count_sent "workflow_completed" (out r) = 1%nat
  /\ exists t p res,
       out r = (t ++ [Sent "polling_ended" p])%list
       /\ completion r = Normal res
       /\ spread res = doc
       /\ field "reason" (meta res)
          = JStr (if workflowFailed (state r) then "completed_with_errors"
                  else "completed")
       /\ field "failed" (meta res) = JBool (workflowFailed (state r))
       /\ field "reason" p = field "reason" (meta res)
       /\ field "workflowFailed" p = JBool (workflowFailed (state r)).
Proof.
  intros H Hlt Hk Hv Hf.
  apply pollWorkflow_cases in H as (t & c & s' & Hr & H).
  pose proof (loop_run_requests _ _ _ _ _ Hr) as Hq. simpl in Hq.
  assert (out r = t \/ exists p, out r = (t ++ [Sent "polling_ended" p])%list) as Ho.
  { destruct H as [(_ & _ & ->)|(e & _ & ->)]; simpl; eauto. }
  assert (count_fetches (out r) = count_fetches t) as Hcf.
  { destruct Ho as [->|[p ->]]; [reflexivity|].
    rewrite count_fetches_app. counts. }
  rewrite Hcf in *.
  destruct (loop_run_finished _ k status doc Hk Hv Hf _ _ _ _ Hr)
    as (A & B & C & D); [simpl; lia | lia |].
  destruct H as [(_ & Hn & ->)|(e & -> & _)]; [|discriminate].
  pose proof Hf as Hf'. apply get_normal_defined in Hf' as [_ Hf'].
  unfold summary. rewrite D, <- Hf'.
  destruct s' as [d pc ce wf rq rd]. simpl in *. subst d.
  split; [lia|]. split; [rewrite count_sent_app; counts|].
  eexists _, _, _. split; [reflexivity|]. split; [reflexivity|].
  unfold end_reason. simpl. destruct wf; repeat split; reflexivity.
Qed.

(** C1 (finished document).  In every run of [pollWorkflow], if the answer
    to one of its requests is a delivered response whose document has
    [finished = true], then that request is the last one of the run, the
    run sends exactly one [workflow_completed] event, and it returns that
    document with the reason [completed] when the sticky flag
    [workflowFailed] is unset and [completed_with_errors] when it is set;
    the [polling_ended] event carries the same reason. *)
Theorem finished_document_ends_polling (url : JsValue) (r : Run PollResult)
    (k : nat) (status : Z) (doc : JsValue) :
  pollWorkflow remote clock url = Some r ->
  nth_error (answers (out r)) k = Some (Response status doc) ->
  validateStatus status = true ->
  get finished doc = Normal (JBool true) ->
  count_fetches (out r) = S k
  /\ count_sent "workflow_completed" (out r) = 1%nat
  /\ exists t p res,
       out r = (t ++ [Sent "polling_ended" p])%list
       /\ completion r = Normal res
       /\ spread res = doc
       /\ field "reason" (meta res)
          = JStr (if workflowFailed (state r) then "completed_with_errors"
                  else "completed")
       /\ field "failed" (meta res) = JBool (workflowFailed (state r))
       /\ field "reason" p = field "reason" (meta res)
       /\ field "workflowFailed" p = JBool (workflowFailed (state r)).
Proof.
  intros H Hk Hv Hf.
  destruct (run_answer url r k _ H Hk) as [Hlt Ha].
  exact (finished_answer_ends_polling url r k status doc H Hlt Ha Hv Hf).
Qed.

End RunFacts.

(** The finished document on the sample run: the third request is the last. *)
Lemma finished_document_ends_polling_witness :
  exists r,
    pollWorkflow w_remote w_clock w_url = Some r
    /\ nth_error (answers (out r)) 2 = Some (Response 200 w_done)
    /\ count_fetches (out r) = 3%nat
    /\ count_sent "workflow_completed" (out r) = 1%nat.
Proof.
  destruct (pollWorkflow_total w_remote w_clock w_url) as [r Hr].
  assert (option_map (fun r => nth_error (answers (out r)) 2)
            (pollWorkflow w_remote w_clock w_url)
          = Some (Some (Response 200 w_done))) as E
      by (vm_compute; reflexivity).
  rewrite Hr in E. cbn [option_map] in E. injection E as E.
  exists r. split; [exact Hr|]. split; [exact E|].
  destruct (finished_document_ends_polling w_remote w_clock w_url r 2 200 w_done
              Hr E eq_refl eq_refl) as (A & B & _).
  split; assumption.
Defined.

(** ** The poll scheduler *)

(** C4 (poll scheduler).  [getPollingInterval] returns 15000 ms whenever
    [hasError] is set; without an error it returns 3000 ms below 5 attempts,
    5000 ms from 5 to 19, 10000 ms from 20 to 59, 15000 ms from 60 to 119
    and 20000 ms from 120 on, and it never decreases as the attempt count
    grows. *)
Theorem polling_interval_steps (n : Z) :
  getPollingInterval n true = 15000
  /\ (n < 5 -> getPollingInterval n false = 3000)
  /\ (5 <= n < 20 -> getPollingInterval n false = 5000)
  /\ (20 <= n < 60 -> getPollingInterval n false = 10000)
  /\ (60 <= n < 120 -> getPollingInterval n false = 15000)
  /\ (120 <= n -> getPollingInterval n false = 20000)
  /\ (forall m, n <= m ->
        getPollingInterval n false <= getPollingInterval m false).
Proof.
  unfold getPollingInterval.
  repeat split; intros;
    repeat match goal with
           | |- context [?a <? ?b] => destruct (Z.ltb_spec a b)
           end; lia.
Qed.

(** The steps of the scheduler at their boundaries. *)
Lemma polling_interval_steps_witness :
  getPollingInterval 4 false = 3000
  /\ getPollingInterval 5 false = 5000
  /\ getPollingInterval 59 false = 10000
  /\ getPollingInterval 119 false = 15000
  /\ getPollingInterval 120 false = 20000
  /\ getPollingInterval 19 false <= getPollingInterval 20 false.
Proof.
  destruct (polling_interval_steps 4) as (_ & A & _).
  destruct (polling_interval_steps 5) as (_ & _ & B & _).
  destruct (polling_interval_steps 59) as (_ & _ & _ & C & _).
  destruct (polling_interval_steps 119) as (_ & _ & _ & _ & D & _).
  destruct (polling_interval_steps 120) as (_ & _ & _ & _ & _ & E & _).
  destruct (polling_interval_steps 19) as (_ & _ & _ & _ & _ & _ & F).
  split; [apply A; lia|]. split; [apply B; lia|]. split; [apply C; lia|].
  split; [apply D; lia|]. split; [apply E; lia|]. apply F; lia.
Defined.

(** ** The response classifier *)

Example stringify_sample :
  JSON_stringify (JObj [("finished", JBool false); ("n", JNum (-12));
                        ("data", JArr [JStr "a/b"; JNull; JUndefined]);
                        ("skip", JUndefined)])
  = Some ("{" ++ quote "finished" ++ ":false," ++ quote "n" ++ ":-12,"
              ++ quote "data" ++ ":[" ++ quote "a/b" ++ ",null,null]}").
Proof. reflexivity. Qed.

Example split_sample :
  split_slash "https://host/webhook/abc" = ["https:"; ""; "host"; "webhook"; "abc"].
Proof. reflexivity. Qed.

Example lower_sample : toLowerCase "Exit Code: 1 [Z@" = "exit code: 1 [z@".
Proof. reflexivity. Qed.

(** A value that is [null] or not an object is not classified. *)
Lemma analysis_of_non_object (d : JsValue) :
  truthy d = false \/ typeof d <> "object" ->
  analysis_of d = no_error.
Proof.
  intros H. unfold analysis_of, analyzeN8NResponse.
  destruct H as [H|H].
  - rewrite H. reflexivity.
  - apply String.eqb_neq in H. rewrite H, orb_true_r. reflexivity.
Qed.

Lemma analysis_of_nullish (d : JsValue) :
  nullish d = true -> isError (analysis_of d) = false.
Proof. destruct d; simpl; intros H; try discriminate; reflexivity. Qed.

(** An object or an array is classified by the markers of its text. *)
Lemma analysis_of_object (d : JsValue) (s : string) :
  truthy d = true -> typeof d = "object" ->
  JSON_stringify d = Some s ->
  analysis_of d = scan_markers (toLowerCase s).
Proof.
  intros Ht Ho Hs. unfold analysis_of, analyzeN8NResponse.
  rewrite Ht, Ho, Hs. reflexivity.
Qed.

(** C9, as the code has it.  [analyzeN8NResponse] never throws.  A value
    that is [null], falsy or not an object is not an error.  For an object
    or an array the markers are looked for, in this order, in the
    lowercased serialization: [exit code: 1] gives [workflow_error] with
    severity [critical]; otherwise [process finished with an error] gives
    [process_error] with severity [critical]; otherwise [timeout] or
    [timed out] gives [n8n_timeout] with severity [warning]; otherwise the
    value is not an error. *)
Theorem classifier_by_first_marker (d : JsValue) :
  exists a,
    analyzeN8NResponse d = Normal a
    /\ (truthy d = false \/ typeof d <> "object" ->
        isError a = false /\ errorType a = JNull /\ severity a = JNull)
    /\ (truthy d = true -> typeof d = "object" ->
        exists s,
          JSON_stringify d = Some s
          /\ (includes "exit code: 1" (toLowerCase s) = true ->
              isError a = true /\ errorType a = JStr "workflow_error"
              /\ severity a = JStr "critical")
          /\ (includes "exit code: 1" (toLowerCase s) = false ->
              includes "process finished with an error" (toLowerCase s) = true ->
              isError a = true /\ errorType a = JStr "process_error"
              /\ severity a = JStr "critical")
          /\ (includes "exit code: 1" (toLowerCase s) = false ->
              includes "process finished with an error" (toLowerCase s) = false ->
              includes "timeout" (toLowerCase s) = true
              \/ includes "timed out" (toLowerCase s) = true ->
              isError a = true /\ errorType a = JStr "n8n_timeout"
              /\ severity a = JStr "warning")
          /\ (includes "exit code: 1" (toLowerCase s) = false ->
              includes "process finished with an error" (toLowerCase s) = false ->
              includes "timeout" (toLowerCase s) = false ->
              includes "timed out" (toLowerCase s) = false ->
              isError a = false /\ errorType a = JNull /\ severity a = JNull)).
Proof.
  exists (analysis_of d). split; [apply analyze_total|]. split.
  - intros H. rewrite (analysis_of_non_object d H). repeat split.
  - intros Ht Ho. destruct (stringify_object d Ho Ht) as [s Hs].
    exists s. split; [exact Hs|].
    rewrite (analysis_of_object d s Ht Ho Hs). unfold scan_markers.
    repeat split; intros;
      repeat match goal with
             | H : includes _ _ = _ |- _ => rewrite H; clear H
             | H : _ \/ _ |- _ => destruct H
             end; simpl; rewrite ?orb_true_r; reflexivity.
Qed.

(** The first marker decides on the document with two markers. *)
Lemma classifier_by_first_marker_witness :
  exists a,
    analyzeN8NResponse c9_document = Normal a
    /\ errorType a = JStr "workflow_error"
    /\ severity a = JStr "critical".
Proof.
  destruct (classifier_by_first_marker c9_document) as (a & Ha & _ & H).
  exists a. split; [exact Ha|].
  destruct (H eq_refl eq_refl) as (s & Hs & H1 & _).
  injection Hs as <-.
  destruct (H1 eq_refl) as (_ & A & B). split; assumption.
Defined.

(** C9, as the claim states it, fails: the serialization of this document
    contains a timeout marker, and it is classified [workflow_error] with
    severity [critical], not as a timeout with severity [warning]. *)
Lemma classifier_timeout_marker_counterexample :
  exists s a,
    JSON_stringify c9_document = Some s
    /\ includes "timeout" (toLowerCase s) = true
    /\ analyzeN8NResponse c9_document = Normal a
    /\ errorType a = JStr "workflow_error"
    /\ errorType a <> JStr "n8n_timeout"
    /\ severity a <> JStr "warning".
Proof.
  eexists _, _. split; [reflexivity|]. split; [reflexivity|].
  split; [reflexivity|]. vm_compute. repeat split; discriminate.
Qed.

(** ** The summary event *)

Section SummaryFacts.

Variable remote : nat -> FetchResult.
Variable clock : nat -> Z.

(** An exception only leaves the loop when [data] holds no document. *)
Lemma loop_run_throw (startTime : Z) (s s' : PollState) (t : list Obs)
    (e : JsError) :
  loop_run remote clock startTime s t (Throw e) s' ->
  nullish (data s') = true.
Proof.
  intros H. remember (Throw e) as c eqn:Ec. revert e Ec.
  induction H as [s e' Hc|s Hc|s Hc Hb|s e' Hc Hb|s t c s' Hc Hb Hr IH];
    intros e0 Ec; try discriminate; eauto.
  - destruct (nullish (data s)) eqn:Hn; [reflexivity|].
    rewrite (loop_condition_defined s Hn) in Hc. discriminate.
  - pass_cases remote clock startTime s; simpl in *; try discriminate;
      eapply get_throw_nullish; eassumption.
Qed.

(** The loop completes unless a delivered body is [null] or [undefined]. *)
Lemma loop_run_completes (startTime : Z) (s s' : PollState) (t : list Obs)
    (c : Completion unit) :
  loop_run remote clock startTime s t c s' ->
  nullish (data s) = false ->
  (forall k status body,
      (requests s <= k < requests s')%nat ->
      settle (remote k) = Normal (status, body) -> nullish body = false) ->
  c = Normal tt.
Proof.
  induction 1 as [s e Hc|s Hc|s Hc Hb|s e Hc Hb|s t c s' Hc Hb Hr IH];
    intros Hn Hall; try reflexivity.
  - rewrite (loop_condition_defined s Hn) in Hc. discriminate.
  - pass_cases remote clock startTime s; simpl in *; try discriminate.
    + apply get_throw_nullish in H0. congruence.
    + apply get_throw_nullish in H3.
      rewrite (Hall (requests s) status body) in H3; [discriminate|lia|assumption].
  - pose proof (loop_run_requests _ _ _ _ _ _ _ Hr) as Hq.
    pass_cases remote clock startTime s; simpl in *; try discriminate;
      apply IH; auto; intros; eapply Hall; try eassumption; lia.
Qed.

(** Every run that returns sends the summary event exactly once, as the
    last thing it does, with the attempt count, the elapsed time, the reason
    and the sticky flag; it returns the last document with the metadata
    block. *)
Theorem summary_on_return (url : JsValue) (r : Run PollResult)
    (res : PollResult) :
  pollWorkflow remote clock url = Some r ->
  completion r = Normal res ->
  count_sent "polling_ended" (out r) = 1%nat
  /\ exists t p total,
       out r = (t ++ [Sent "polling_ended" p])%list
       /\ total = clock (Nat.pred (readings (state r))) - clock 0
       /\ field "totalPolls" p = JNum (pollCount (state r))
       /\ field "totalTime" p = JStr (seconds total)
       /\ field "workflowFailed" p = JBool (workflowFailed (state r))
       /\ field "reason" p = field "reason" (meta res)
       /\ spread res = data (state r)
       /\ field "success" (meta res)
          = JBool (is_true_value (prop finished (data (state r))))
       /\ field "failed" (meta res) = JBool (workflowFailed (state r))
       /\ field "reason" (meta res)
          = JStr (fst (end_reason (prop finished (data (state r)))
                         (workflowFailed (state r)) (pollCount (state r))
                         (consecutiveErrors (state r))))
       /\ field "totalPolls" (meta res) = JNum (pollCount (state r))
       /\ field "totalTime" (meta res) = JNum (round_div total 1000).
Proof.
  intros H Hres.
  apply pollWorkflow_cases in H as (t & c & s' & Hr & H).
  destruct H as [(_ & Hn & ->)|(e & _ & ->)]; [|discriminate].
  assert (count_sent "polling_ended" t = 0%nat) as Hz.
  { clear Hres Hn. induction Hr as [s e Hc|s Hc|s Hc Hb|s e Hc Hb|s t c s' Hc Hb Hr IH];
      try reflexivity.
    1,2: pass_cases remote clock (clock 0) s; simpl in *; try discriminate; counts.
    rewrite count_sent_app, IH.
    pass_cases remote clock (clock 0) s; simpl in *; try discriminate; counts. }
  destruct s' as [d pc ce wf rq rd]. unfold summary in *. simpl in *.
  injection Hres as <-.
  split; [rewrite count_sent_app, Hz; reflexivity|].
  eexists _, _, _. split; [reflexivity|]. repeat split.
Qed.

(** A run returns unless a request is answered with a body that is
    [null] or [undefined]. *)
Theorem returns_unless_no_body (url : JsValue) (r : Run PollResult) :
  pollWorkflow remote clock url = Some r ->
  (forall k status body,
      (k < count_fetches (out r))%nat ->
      settle (remote k) = Normal (status, body) -> nullish body = false) ->
  exists res, completion r = Normal res.
Proof.
  intros H Hall.
  apply pollWorkflow_cases in H as (t & c & s' & Hr & H).
  pose proof (loop_run_requests _ _ _ _ _ _ _ Hr) as Hq. simpl in Hq.
  destruct H as [(_ & Hn & ->)|(e & -> & ->)]; [eexists; reflexivity|].
  simpl in Hall.
  apply loop_run_completes in Hr; [discriminate|reflexivity|].
  intros k status body Hk. apply Hall. lia.
Qed.

End SummaryFacts.

(** The summary event of the sample run. *)
Lemma summary_on_return_witness :
  exists r res,
    pollWorkflow w_remote w_clock w_url = Some r
    /\ completion r = Normal res
    /\ count_sent "polling_ended" (out r) = 1%nat.
Proof.
  destruct (pollWorkflow_total w_remote w_clock w_url) as [r Hr].
  assert (exists res, completion r = Normal res) as [res Hres].
  { revert Hr. vm_compute. intros H. injection H as <-. eexists. reflexivity. }
  exists r, res. split; [exact Hr|]. split; [exact Hres|].
  apply (summary_on_return w_remote w_clock w_url r res Hr Hres).
Defined.

(** The sample run, all of whose bodies are documents, returns. *)
Lemma returns_unless_no_body_witness :
  exists r res,
    pollWorkflow w_remote w_clock w_url = Some r /\ completion r = Normal res.
Proof.
  destruct (pollWorkflow_total w_remote w_clock w_url) as [r Hr].
  exists r.
  destruct (returns_unless_no_body w_remote w_clock w_url r Hr) as [res Hres].
  - intros k status body _ H.
    destruct k as [|[|k]]; vm_compute in H;
      first [discriminate H | injection H as <- <-; reflexivity].
  - exists res. split; assumption.
Defined.

(** C5 at the input on which the code fails.  When the first request is
    answered with the JSON body [null], [pollWorkflow] ends with a
    [TypeError] thrown from inside its [catch] block: after the [step]
    event and the request nothing more is sent, the summary event
    included, and no value is returned. *)
Theorem null_body_skips_summary :
  exists r message,
    pollWorkflow (fun _ => Response 200 JNull) w_clock w_url = Some r
    /\ completion r = Throw (TypeError message)
    /\ count_sent "polling_ended" (out r) = 0%nat
    /\ count_fetches (out r) = 1%nat
    /\ List.length (out r) = 2%nat.
Proof.
  eexists _, _. split; [vm_compute; reflexivity|].
  repeat split.
Qed.

(** ** The two counters *)

Section Counters.

Variable remote : nat -> FetchResult.
Variable clock : nat -> Z.

(** The failure counter is zero when the [try] block is left, normally or
    by an exception, after a request that was answered. *)
Lemma try_block_resets (startTime elapsed : Z) (s : PollState) (status : Z)
    (body : JsValue) :
  fetched (out (try_block remote clock startTime elapsed s))
  = Some (Response status body) ->
  validateStatus status = true ->
  consecutiveErrors (state (try_block remote clock startTime elapsed s)) = 0.
Proof.
  destruct s as [d pc ce wf rq rd]. unfold try_block. exec.
  destruct (get executionUrl d) as [u|e]; exec; [|discriminate].
  destruct (url_path u) as [path|e]; exec; [|discriminate].
  destruct (settle (remote rq)) as [[status' body']|e] eqn:Hs; exec.
  - intros _ _. rewrite analyze_total. exec.
    destruct (get finished body') as [fin|e] eqn:Hfin; exec; [|reflexivity].
    apply get_normal_defined in Hfin as [Hn ->].
    rewrite (stringify_length_defined _ Hn), (get_defined _ _ Hn). exec.
    destruct (isError (analysis_of body')); exec;
      [destruct wf; exec|];
      destruct (truthy (prop finished body')); reflexivity.
  - intros Hf Hv. injection Hf as Hf.
    rewrite Hf, (settle_response _ _ Hv) in Hs. discriminate.
Qed.

Lemma loop_body_reset (startTime : Z) (s : PollState) (status : Z)
    (body : JsValue) :
  fetched (out (loop_body remote clock startTime s))
  = Some (Response status body) ->
  validateStatus status = true ->
  completion (loop_body remote clock startTime s) = Normal Next ->
  consecutiveErrors (state (loop_body remote clock startTime s)) = 0.
Proof.
  pass_cases remote clock startTime s; simpl; intros Hf Hv Hc;
    try discriminate; try reflexivity.
  injection Hf as Hf. rewrite Hf, (settle_response _ _ Hv) in H2. discriminate.
Qed.

Lemma loop_body_failure (startTime : Z) (s : PollState) (a : FetchResult) :
  fetched (out (loop_body remote clock startTime s)) = Some a ->
  rejected a = true ->
  consecutiveErrors (state (loop_body remote clock startTime s))
  = consecutiveErrors s + 1.
Proof.
  pass_cases remote clock startTime s; simpl; intros Hf Hr;
    try discriminate; try reflexivity; injection Hf as <-;
    rewrite (settle_not_rejected _ _ _ H2) in Hr; discriminate.
Qed.

Lemma passes_failures (startTime : Z) (n : nat) :
  forall s,
    (forall i, (i < n)%nat ->
       exists a,
         fetched (out (loop_body remote clock startTime
                         (passes remote clock startTime i s))) = Some a
         /\ rejected a = true) ->
    consecutiveErrors (passes remote clock startTime n s)
    = consecutiveErrors s + Z.of_nat n.
Proof.
  induction n as [|n IH]; intros s Hall.
  - simpl. lia.
  - simpl passes. rewrite IH.
    + destruct (Hall 0%nat) as (a & Ha & Hr); [lia|]. simpl in Ha.
      rewrite (loop_body_failure startTime s a Ha Hr). lia.
    + intros i Hi. destruct (Hall (S i)) as (a & Ha & Hr); [lia|].
      exists a. split; assumption.
Qed.

(** C7 (consecutive-failure counter).  After every request that is answered
    the counter is exactly 0 when the [try] block is left, and at the end of
    the pass when the pass completes; every request that fails adds exactly
    1 to it; so over successive passes whose requests all fail the counter
    grows by one per pass and is strictly increasing. *)
Theorem failure_counter_steps (startTime : Z) (s : PollState) :
  (forall elapsed status body,
      fetched (out (try_block remote clock startTime elapsed s))
      = Some (Response status body) ->
      validateStatus status = true ->
      consecutiveErrors (state (try_block remote clock startTime elapsed s)) = 0)
  /\ (forall status body,
         fetched (out (loop_body remote clock startTime s))
         = Some (Response status body) ->
         validateStatus status = true ->
         completion (loop_body remote clock startTime s) = Normal Next ->
         consecutiveErrors (state (loop_body remote clock startTime s)) = 0)
  /\ (forall a,
         fetched (out (loop_body remote clock startTime s)) = Some a ->
         rejected a = true ->
         consecutiveErrors (state (loop_body remote clock startTime s))
         = consecutiveErrors s + 1)
  /\ (forall n,
         (forall i, (i < n)%nat ->
            exists a,
              fetched (out (loop_body remote clock startTime
                              (passes remote clock startTime i s))) = Some a
              /\ rejected a = true) ->
         forall i j, (i < j <= n)%nat ->
           consecutiveErrors (passes remote clock startTime j s)
           = consecutiveErrors s + Z.of_nat j
           /\ consecutiveErrors (passes remote clock startTime i s)
              < consecutiveErrors (passes remote clock startTime j s)).
Proof.
  split; [intros; eapply try_block_resets; eassumption|].
  split; [intros; eapply loop_body_reset; eassumption|].
  split; [intros; eapply loop_body_failure; eassumption|].
  intros n Hall i j Hij.
  rewrite (passes_failures startTime j), (passes_failures startTime i).
  - split; lia.
  - intros i' Hi'. apply Hall. lia.
  - intros i' Hi'. apply Hall. lia.
Qed.

(** Every request of a pass follows a [step] event that carries the
    incremented attempt counter. *)
Lemma loop_body_counts_first (startTime : Z) (s : PollState) (a : FetchResult) :
  fetched (out (loop_body remote clock startTime s)) = Some a ->
  exists p u rest,
    out (loop_body remote clock startTime s) = Sent "step" p :: Fetched u a :: rest
    /\ field "pollCount" p = JNum (pollCount s + 1).
Proof.
  pass_cases remote clock startTime s; simpl; intros Hf;
    try discriminate; injection Hf as <-;
    eexists _, _, _; split; reflexivity.
Qed.

Lemma loop_condition_ceiling (s : PollState) :
  maxPolls <= pollCount s ->
  completion (loop_condition s) <> Normal true.
Proof.
  intros Hp Hc. apply loop_condition_normal in Hc as [_ Hc].
  symmetry in Hc. apply continues_true in Hc. lia.
Qed.

Lemma loop_run_ceiling (startTime : Z) (s s' : PollState) (t : list Obs)
    (c : Completion unit) :
  loop_run remote clock startTime s t c s' ->
  pollCount s <= maxPolls ->
  pollCount s' <= maxPolls.
Proof.
  induction 1 as [s e Hc|s Hc|s Hc Hb|s e Hc Hb|s t c s' Hc Hb Hr IH];
    intros Hp; auto.
  all: apply loop_condition_normal in Hc as [_ Hc]; symmetry in Hc;
    apply continues_true in Hc as (_ & _ & Hlt);
    pose proof (loop_body_pollCount remote clock startTime s) as Hs.
  1,2: lia.
  apply IH. lia.
Qed.

(** C8 (attempt counter).  Every pass through the body of the loop adds
    exactly 1 to [pollCount], however the pass ends, and it does so before
    the request: the [step] event that precedes the request already carries
    the new count.  With [pollCount] at the ceiling of 1000 the loop
    condition does not hold; no run takes the counter past the ceiling; and
    a run that ends with the counter at the ceiling and a document that is
    not finished returns with the reason [max_polls_reached] and the final
    status [max_attempts]. *)
Theorem attempt_counter_steps :
  (forall startTime s,
      pollCount (state (loop_body remote clock startTime s)) = pollCount s + 1
      /\ (forall a,
             fetched (out (loop_body remote clock startTime s)) = Some a ->
             exists p u rest,
               out (loop_body remote clock startTime s)
               = Sent "step" p :: Fetched u a :: rest
               /\ field "pollCount" p = JNum (pollCount s + 1))
      /\ (maxPolls <= pollCount s ->
          completion (loop_condition s) <> Normal true))
  /\ (forall url r,
         pollWorkflow remote clock url = Some r ->
         pollCount (state r) <= maxPolls
         /\ forall fin,
              pollCount (state r) = maxPolls ->
              get finished (data (state r)) = Normal fin ->
              truthy fin = false ->
              exists t p res,
                out r = (t ++ [Sent "polling_ended" p])%list
                /\ completion r = Normal res
                /\ field "reason" p = JStr "max_polls_reached"
                /\ field "finalStatus" p = JStr "max_attempts"
                /\ field "reason" (meta res) = JStr "max_polls_reached"
                /\ field "totalPolls" (meta res) = JNum maxPolls).
Proof.
  split.
  - intros startTime s. split; [apply loop_body_pollCount|].
    split; [apply loop_body_counts_first | apply loop_condition_ceiling].
  - intros url r H.
    apply pollWorkflow_cases in H as (t & c & s' & Hr & H).
    pose proof (loop_run_ceiling _ _ _ _ _ Hr) as Hle.
    assert (pollCount s' <= maxPolls) as Hp
        by (apply Hle; unfold maxPolls; simpl; lia).
    destruct H as [(_ & Hn & ->)|(e & -> & ->)].
    + destruct s' as [d pc ce wf rq rd]. unfold summary. simpl in *.
      split; [exact Hp|]. intros fin -> Hf Ht.
      apply get_normal_defined in Hf as [_ ->].
      eexists _, _, _. split; [reflexivity|]. split; [reflexivity|].
      unfold end_reason. rewrite Ht. simpl. repeat split.
    + simpl. split; [exact Hp|]. intros fin _ Hf _.
      apply loop_run_throw in Hr. apply get_normal_defined in Hf as [Hf _].
      congruence.
Qed.

End Counters.

(** The failing request of the sample remote engine adds one. *)
Lemma failure_counter_steps_witness :
  fetched (out (loop_body w_remote w_clock 0 w_failing)) = Some (w_remote 1)
  /\ rejected (w_remote 1) = true
  /\ consecutiveErrors (state (loop_body w_remote w_clock 0 w_failing))
     = consecutiveErrors w_failing + 1.
Proof.
  assert (fetched (out (loop_body w_remote w_clock 0 w_failing))
          = Some (w_remote 1)) as Hf by (vm_compute; reflexivity).
  split; [exact Hf|]. split; [reflexivity|].
  destruct (failure_counter_steps w_remote w_clock 0 w_failing)
    as (_ & _ & H & _).
  apply (H (w_remote 1) Hf eq_refl).
Defined.

(** A remote engine that never finishes: the run ends at the ceiling. *)
Lemma attempt_counter_steps_witness :
  exists r fin,
    pollWorkflow (fun _ => Response 200 w_running) w_clock w_url = Some r
    /\ pollCount (state r) = maxPolls
    /\ get finished (data (state r)) = Normal fin
    /\ truthy fin = false
    /\ exists t p res,
         out r = (t ++ [Sent "polling_ended" p])%list
         /\ completion r = Normal res
         /\ field "reason" p = JStr "max_polls_reached".
Proof.
  destruct (pollWorkflow_total (fun _ => Response 200 w_running) w_clock w_url)
    as [r Hr].
  assert (option_map (fun r => (pollCount (state r),
                                get finished (data (state r))))
            (pollWorkflow (fun _ => Response 200 w_running) w_clock w_url)
          = Some (maxPolls, Normal (JBool false))) as E
      by (vm_compute; reflexivity).
  rewrite Hr in E. cbn [option_map] in E. injection E as Hp Hf.
  exists r, (JBool false). split; [exact Hr|]. split; [exact Hp|].
  split; [exact Hf|]. split; [reflexivity|].
  destruct (attempt_counter_steps (fun _ => Response 200 w_running) w_clock)
    as (_ & H).
  destruct (H w_url r Hr) as (_ & H').
  destruct (H' (JBool false) Hp Hf eq_refl) as (t & p & res & A & B & C & _).
  exists t, p, res. repeat split; assumption.
Defined.

(** ** The error events *)

Section ErrorEvents.

Variable remote : nat -> FetchResult.
Variable clock : nat -> Z.

(** What a pass adds to the error events of a trace. *)
Lemma loop_body_error_events (startTime : Z) (s : PollState) :
  let b := loop_body remote clock startTime s in
  (forall tail,
      error_events_ok (workflowFailed (state b)) tail = true ->
      error_events_ok (workflowFailed s) (out b ++ tail) = true)
  /\ (count_flagged (out b) <= 1)%nat
  /\ workflowFailed (state b)
     = workflowFailed s || (0 <? count_flagged (out b))%nat
  /\ count_sent "n8n_error_detected" (out b)
     = (if workflowFailed s then 0 else count_flagged (out b))%nat
  /\ count_sent "error_persisting" (out b)
     = (if workflowFailed s then count_flagged (out b) else 0)%nat.
Proof.
  pass_cases remote clock startTime s; cbn [out state workflowFailed].
  1-3: repeat split; try (intros tail Ht; simpl; exact Ht);
       try (rewrite orb_false_r; reflexivity);
       unfold count_flagged, count_sent; simpl; destruct (workflowFailed s);
       auto.
  - pose proof (settle_not_classified _ _ H2) as Hcl.
    repeat split; try (intros tail Ht; simpl; rewrite Hcl; exact Ht);
      unfold count_flagged, count_sent; simpl; rewrite Hcl;
      try (rewrite orb_false_r; reflexivity);
      destruct (workflowFailed s); auto.
  - pose proof (settle_classified _ _ _ H2) as Hcl.
    rewrite (analysis_of_nullish body (get_throw_nullish _ _ _ H3)) in Hcl.
    repeat split; try (intros tail Ht; simpl; rewrite Hcl; exact Ht);
      unfold count_flagged, count_sent; simpl; rewrite Hcl;
      try (rewrite orb_false_r; reflexivity);
      destruct (workflowFailed s); auto.
  - pose proof (settle_classified _ _ _ H2) as Hcl.
    unfold error_event.
    destruct (isError (analysis_of body)), (workflowFailed s);
      repeat split; try (intros tail Ht; simpl; rewrite Hcl; exact Ht);
      unfold count_flagged, count_sent; simpl; rewrite Hcl; simpl; auto.
  - pose proof (settle_classified _ _ _ H2) as Hcl.
    unfold error_event.
    destruct (isError (analysis_of body)), (workflowFailed s);
      repeat split; try (intros tail Ht; simpl; rewrite Hcl; exact Ht);
      unfold count_flagged, count_sent; simpl; rewrite Hcl; simpl; auto.
Qed.

Lemma count_flagged_app (a b : list Obs) :
  count_flagged (a ++ b) = (count_flagged a + count_flagged b)%nat.
Proof. unfold count_flagged. rewrite filter_app, length_app. reflexivity. Qed.

Lemma loop_run_error_events (startTime : Z) (s s' : PollState) (t : list Obs)
    (c : Completion unit) :
  loop_run remote clock startTime s t c s' ->
  (forall tail,
      error_events_ok (workflowFailed s') tail = true ->
      error_events_ok (workflowFailed s) (t ++ tail) = true)
  /\ workflowFailed s' = workflowFailed s || (0 <? count_flagged t)%nat
  /\ count_sent "n8n_error_detected" t
     = (if workflowFailed s then 0
        else if (0 <? count_flagged t)%nat then 1 else 0)%nat
  /\ count_sent "error_persisting" t
     = (if workflowFailed s then count_flagged t
        else count_flagged t - 1)%nat.
Proof.
  induction 1 as [s e Hc|s Hc|s Hc Hb|s e Hc Hb|s t c s' Hc Hb Hr IH].
  1,2: repeat split; auto; try (rewrite orb_false_r; reflexivity);
       destruct (workflowFailed s); reflexivity.
  1,2: destruct (loop_body_error_events startTime s) as (A & B & C & D & E);
       repeat split; auto; rewrite ?D, ?E;
       destruct (workflowFailed s); auto;
       destruct (count_flagged (out (loop_body remote clock startTime s)))
         as [|[|n]] eqn:En; simpl; lia.
  destruct (loop_body_error_events startTime s) as (A & B & C & D & E).
  destruct IH as (A' & C' & D' & E').
  split; [intros tail Ht; rewrite <- app_assoc; auto|].
  rewrite count_flagged_app, !count_sent_app, D, E, D', E', C', C.
  clear A A' C C' D D' E E'.
  destruct (workflowFailed s);
    destruct (count_flagged (out (loop_body remote clock startTime s)))
      as [|[|n]] eqn:En;
    destruct (count_flagged t) as [|m]; simpl; repeat split; lia.
Qed.

(** A pass whose response is flagged completes as any other pass, after
    sending the event of the flag's state. *)
Lemma loop_body_continues (startTime : Z) (s : PollState) (a : FetchResult) :
  fetched (out (loop_body remote clock startTime s)) = Some a ->
  classified a = true ->
  completion (loop_body remote clock startTime s) = Normal Next
  /\ exists p,
       In (Sent (if workflowFailed s then "error_persisting"
                 else "n8n_error_detected") p)
          (out (loop_body remote clock startTime s))
       /\ (workflowFailed s = false -> field "willContinue" p = JBool true).
Proof.
  pass_cases remote clock startTime s; cbn [out state completion fetched];
    intros Hf Hc; try discriminate; injection Hf as <-.
  - rewrite (settle_not_classified _ _ H2) in Hc. discriminate.
  - rewrite (settle_classified _ _ _ H2) in Hc.
    rewrite (analysis_of_nullish body (get_throw_nullish _ _ _ H3)) in Hc.
    discriminate.
  - rewrite (settle_classified _ _ _ H2) in Hc.
    split; [reflexivity|]. unfold error_event. rewrite Hc.
    destruct (workflowFailed s); eexists; split;
      try (simpl; right; right; left; reflexivity); try discriminate;
      reflexivity.
  - rewrite (settle_classified _ _ _ H2) in Hc.
    split; [reflexivity|]. unfold error_event. rewrite Hc.
    destruct (workflowFailed s); eexists; split;
      try (simpl; right; right; left; reflexivity); try discriminate;
      reflexivity.
Qed.

Lemma pending_document (doc : JsValue) :
  pending doc = true ->
  nullish doc = false
  /\ truthy (prop executionUrl doc) = true
  /\ typeof (prop executionUrl doc) = "string"
  /\ truthy (prop finished doc) = false.
Proof.
  unfold pending. intros H.
  apply andb_prop in H as [H H4]. apply andb_prop in H as [H H3].
  apply andb_prop in H as [H1 H2].
  apply negb_true_iff in H1. apply negb_true_iff in H4.
  apply String.eqb_eq in H3. auto.
Qed.

Lemma url_path_of_string (u : JsValue) :
  typeof u = "string" -> exists path, url_path u = Normal path.
Proof.
  destruct u; simpl; intros H; try discriminate H. eexists. reflexivity.
Qed.

(** From locals that hold a document which is not finished and names a
    URL, the failure counter below its ceiling, the loop makes a request,
    unless the attempt ceiling is reached. *)
Lemma loop_run_goes_on (startTime : Z) (s s' : PollState) (t : list Obs)
    (c : Completion unit) :
  loop_run remote clock startTime s t c s' ->
  pending (data s) = true ->
  consecutiveErrors s < maxConsecutiveErrors ->
  (requests s < requests s')%nat \/ maxPolls <= pollCount s'.
Proof.
  intros Hr Hp Hce.
  apply pending_document in Hp as (Hn & Hu & Ht & Hf).
  destruct Hr as [s e Hc|s Hc|s Hc Hb|s e Hc Hb|s t c s' Hc Hb Hr].
  - rewrite (loop_condition_defined s Hn) in Hc. discriminate Hc.
  - rewrite (loop_condition_defined s Hn) in Hc. injection Hc as Hc.
    unfold continues in Hc. rewrite Hu, Hf in Hc. cbn [negb andb] in Hc.
    right. apply Z.ltb_ge. exact Hc.
  - pass_cases remote clock startTime s; cbn [out completion state] in *;
      try discriminate. lia.
  - pass_cases remote clock startTime s; cbn [out completion state] in *;
      try discriminate.
    + apply get_throw_nullish in H0. congruence.
    + left. cbn [requests]. lia.
  - pose proof (loop_run_requests _ _ _ _ _ _ _ Hr) as Hq.
    pass_cases remote clock startTime s; cbn [out completion state] in *;
      try discriminate; cbn [requests] in Hq; try (left; lia).
    exfalso. apply get_normal_defined in H0 as [_ ->].
    destruct (url_path_of_string _ Ht) as [path E]. congruence.
Qed.

(** The loop from locals that have made at most [k] requests, when
    request [k] is made and answered with a document that is not finished
    and names a URL: the loop makes the next request, unless the attempt
    ceiling is reached. *)
Lemma loop_run_after_pending (startTime : Z) (k : nat) (status : Z)
    (body : JsValue) :
  settle (remote k) = Normal (status, body) ->
  pending body = true ->
  forall s t c s',
    loop_run remote clock startTime s t c s' ->
    (requests s <= k)%nat ->
    (k < requests s')%nat ->
    (S k < requests s')%nat \/ maxPolls <= pollCount s'.
Proof.
  intros Hs Hp.
  pose proof (pending_document _ Hp) as (Hn & _ & _ & Hf).
  induction 1 as [s e Hc|s Hc|s Hc Hb|s e Hc Hb|s t c s' Hc Hb Hr IH];
    intros Hle Hlt.
  1,2: lia.
  - pass_cases remote clock startTime s; simpl in *; try discriminate; lia.
  - pass_cases remote clock startTime s; simpl in *; try discriminate; [lia|].
    assert (requests s = k) as Ek by lia. rewrite Ek in *.
    rewrite Hs in H2. injection H2 as <- <-.
    apply get_throw_nullish in H3. congruence.
  - revert IH Hr.
    pass_cases remote clock startTime s; simpl in *; try discriminate;
      intros IH Hr.
    + (* no request *)
      apply IH; lia.
    + (* rejected *)
      assert (requests s <> k) as Ne by (intros Ek; rewrite Ek in *; congruence).
      apply IH; lia.
    + (* pending *)
      destruct (Nat.eq_dec (requests s) k) as [Ek|Ne]; [|apply IH; lia].
      rewrite Ek in *. rewrite Hs in H2. injection H2 as <- <-.
      apply loop_run_goes_on in Hr; [exact Hr | exact Hp |].
      cbn [consecutiveErrors]. unfold maxConsecutiveErrors. lia.
    + (* finished *)
      destruct (Nat.eq_dec (requests s) k) as [Ek|Ne]; [|apply IH; lia].
      rewrite Ek in *. rewrite Hs in H2. injection H2 as <- <-. congruence.
Qed.

(** C6 (error events).  In every run, each response that the classifier
    flags is followed at once by its event: [n8n_error_detected] for the
    first flagged response of the run and [error_persisting] for every
    later one, and neither event is sent at any other point.  So a run with
    a flagged response sends [n8n_error_detected] exactly once and
    [error_persisting] once per further flagged response.  The pass of a
    flagged response completes like any other pass, so the loop goes on to
    test its condition.  And the polling continues: when the flagged
    response delivers a document that is not finished and names the URL to
    poll, the run makes the next request, unless the attempt ceiling of
    1000 passes is reached. *)
Theorem error_detected_once (url : JsValue) (r : Run PollResult) :
  pollWorkflow remote clock url = Some r ->
  error_events_ok false (out r) = true
  /\ count_sent "n8n_error_detected" (out r)
     = (if (0 <? count_flagged (out r))%nat then 1 else 0)%nat
  /\ count_sent "error_persisting" (out r) = (count_flagged (out r) - 1)%nat
  /\ (forall startTime s a,
       fetched (out (loop_body remote clock startTime s)) = Some a ->
       classified a = true ->
       completion (loop_body remote clock startTime s) = Normal Next
       /\ exists p,
            In (Sent (if workflowFailed s then "error_persisting"
                      else "n8n_error_detected") p)
               (out (loop_body remote clock startTime s))
            /\ (workflowFailed s = false ->
                field "willContinue" p = JBool true))
  /\ forall k a status body,
       nth_error (answers (out r)) k = Some a ->
       classified a = true ->
       settle a = Normal (status, body) ->
       pending body = true ->
       (S k < count_fetches (out r))%nat \/ maxPolls <= pollCount (state r).
Proof.
  intros H. pose proof H as Hrun.
  apply pollWorkflow_cases in H as (t & c & s' & Hr & H).
  destruct (loop_run_error_events _ _ _ _ _ Hr) as (A & _ & D & E).
  change (workflowFailed (start_state url)) with false in *.
  split; [|split; [|split; [|split; [apply loop_body_continues|]]]].
  - destruct H as [(_ & _ & ->)|(e & _ & ->)]; cbn [out].
    + apply A. unfold summary. reflexivity.
    + rewrite <- (app_nil_r t). apply A. reflexivity.
  - destruct H as [(_ & _ & ->)|(e & _ & ->)]; cbn [out].
    + rewrite count_sent_app, count_flagged_app, D.
      unfold summary, count_flagged, count_sent. simpl. rewrite !Nat.add_0_r.
      reflexivity.
    + exact D.
  - destruct H as [(_ & _ & ->)|(e & _ & ->)]; cbn [out].
    + rewrite count_sent_app, count_flagged_app, E.
      unfold summary, count_flagged, count_sent. simpl. rewrite !Nat.add_0_r.
      reflexivity.
    + exact E.
  - intros k a status body Hk _ Hs Hp.
    destruct (run_answer remote clock url r k a Hrun Hk) as [Hlt Ha].
    rewrite <- Ha in Hs.
    pose proof (loop_run_requests _ _ _ _ _ _ _ Hr) as Hq.
    change (requests (start_state url)) with 0%nat in Hq.
    assert (count_fetches (out r) = requests s'
            /\ pollCount (state r) = pollCount s') as [Ef Ep].
    { destruct H as [(_ & _ & ->)|(e & _ & ->)]; cbn [out state].
      - rewrite count_fetches_app, Hq. unfold summary.
        cbn [out state pollCount]. split; [|reflexivity].
        unfold count_fetches. cbn [filter is_fetch List.length]. lia.
      - split; [lia | reflexivity]. }
    rewrite Ef, Ep. rewrite Ef in Hlt.
    apply (loop_run_after_pending (clock 0) k status body Hs Hp _ _ _ _ Hr);
      [cbn; lia | exact Hlt].
Qed.

End ErrorEvents.

(** Two flagged documents: one event of each kind, and the request that
    follows the first flagged document. *)
Lemma error_detected_once_witness :
  exists r,
    pollWorkflow w_remote_errors w_clock w_url = Some r
    /\ count_flagged (out r) = 2%nat
    /\ count_sent "n8n_error_detected" (out r) = 1%nat
    /\ count_sent "error_persisting" (out r) = 1%nat
    /\ ((1 < count_fetches (out r))%nat \/ maxPolls <= pollCount (state r)).
Proof.
  destruct (pollWorkflow_total w_remote_errors w_clock w_url) as [r Hr].
  assert (option_map (fun r => (count_flagged (out r),
                                nth_error (answers (out r)) 0))
            (pollWorkflow w_remote_errors w_clock w_url)
          = Some (2%nat, Some (Response 200 w_failed_step))) as E
      by (vm_compute; reflexivity).
  rewrite Hr in E. cbn [option_map] in E. injection E as E E0.
  destruct (error_detected_once w_remote_errors w_clock w_url r Hr)
    as (_ & A & B & _ & C).
  rewrite E in A, B.
  exists r. split; [exact Hr|]. split; [exact E|]. split; [exact A|].
  split; [exact B|].
  apply (C 0%nat (Response 200 w_failed_step) 200 w_failed_step E0);
    reflexivity.
Defined.

(** ** The sticky flag *)

(** Membership in an explicit trace, by cases. *)
Ltac in_trace :=
  repeat match goal with
         | H : In _ (_ :: _) |- _ => destruct H as [H|H]
         | H : In _ (_ ++ _) |- _ => apply in_app_or in H; destruct H as [H|H]
         | H : In _ [] |- _ => destruct H
         | H : _ \/ _ |- _ => destruct H as [H|H]
         | H : False |- _ => destruct H
         | H : In _ (error_event _ _ _) |- _ =>
             unfold error_event in H;
             destruct (isError (analysis_of _)); [destruct (workflowFailed _)|]
         | H : Sent _ _ = Sent _ _ |- _ =>
             first [congruence | inversion H; subst; clear H]
         | H : Fetched _ _ = Sent _ _ |- _ => discriminate H
         | H : Slept _ = Sent _ _ |- _ => discriminate H
         end.

Section StickyFlag.

Variable remote : nat -> FetchResult.
Variable clock : nat -> Z.

(** A pass whose response is flagged leaves the flag set. *)
Lemma loop_body_sets_flag (startTime : Z) (s : PollState) (a : FetchResult) :
  fetched (out (loop_body remote clock startTime s)) = Some a ->
  classified a = true ->
  workflowFailed (state (loop_body remote clock startTime s)) = true.
Proof.
  pass_cases remote clock startTime s; simpl; intros Hf Hc;
    try discriminate; injection Hf as <-.
  - rewrite (settle_not_classified _ _ H2) in Hc. discriminate.
  - rewrite (settle_classified _ _ _ H2) in Hc.
    apply get_throw_nullish in H3. apply analysis_of_nullish in H3. congruence.
  - rewrite (settle_classified _ _ _ H2) in Hc. rewrite Hc. apply orb_true_r.
  - rewrite (settle_classified _ _ _ H2) in Hc. rewrite Hc. apply orb_true_r.
Qed.

(** A pass that starts with the flag set ends with it set, and says so in
    its [update] event. *)
Lemma loop_body_keeps_flag (startTime : Z) (s : PollState) :
  workflowFailed s = true ->
  workflowFailed (state (loop_body remote clock startTime s)) = true
  /\ forall p, In (Sent "update" p) (out (loop_body remote clock startTime s)) ->
               field "workflowFailed" p = JBool true.
Proof.
  intros Hw.
  pass_cases remote clock startTime s; simpl; rewrite ?Hw; split;
    try reflexivity; intros p Hp; in_trace; try discriminate;
    simpl; rewrite ?Hw; reflexivity.
Qed.

Lemma loop_run_keeps_flag (startTime : Z) (s s' : PollState) (t : list Obs)
    (c : Completion unit) :
  loop_run remote clock startTime s t c s' ->
  workflowFailed s = true ->
  workflowFailed s' = true
  /\ forall p, In (Sent "update" p) t -> field "workflowFailed" p = JBool true.
Proof.
  induction 1 as [s e Hc|s Hc|s Hc Hb|s e Hc Hb|s t c s' Hc Hb Hr IH];
    intros Hw.
  1,2: split; [exact Hw | intros p []].
  1,2: apply (loop_body_keeps_flag startTime s Hw).
  destruct (loop_body_keeps_flag startTime s Hw) as [Hw' Hu].
  destruct (IH Hw') as [Hw'' Hu'].
  split; [exact Hw''|].
  intros p Hp. apply in_app_or in Hp as [Hp|Hp]; auto.
Qed.

Lemma finish_keeps_flag (startTime : Z) (s : PollState) :
  workflowFailed (state (finish clock startTime s)) = workflowFailed s
  /\ forall p, In (Sent "polling_ended" p) (out (finish clock startTime s)) ->
               field "workflowFailed" p = JBool (workflowFailed s).
Proof.
  destruct s as [d pc ce wf rq rd]. unfold finish. exec.
  destruct (get finished d) as [fin|e]; exec; split; try reflexivity;
    intros p Hp; in_trace. reflexivity.
Qed.

(** Once a run has sent [n8n_error_detected] its flag is set at the end. *)
Lemma run_flag_after_detection (url : JsValue) (r : Run PollResult) :
  pollWorkflow remote clock url = Some r ->
  (0 < count_sent "n8n_error_detected" (out r))%nat ->
  workflowFailed (state r) = true
  /\ forall res, completion r = Normal res ->
                 field "failed" (meta res) = JBool true.
Proof.
  intros H Hpos.
  apply pollWorkflow_cases in H as (t & c & s' & Hr & H).
  destruct (loop_run_error_events _ _ _ _ _ _ _ Hr) as (_ & C & D & _).
  change (workflowFailed (start_state url)) with false in *.
  assert (count_sent "n8n_error_detected" (out r)
          = count_sent "n8n_error_detected" t) as Ht.
  { destruct H as [(_ & _ & ->)|(e & _ & ->)]; [|reflexivity].
    cbn [out]. rewrite count_sent_app. unfold summary. counts. }
  rewrite Ht, D in Hpos.
  destruct (0 <? count_flagged t)%nat; [|lia]. simpl in C.
  destruct H as [(_ & _ & ->)|(e & _ & ->)].
  - destruct s' as [d pc ce wf rq rd]. unfold summary. simpl in *. subst wf.
    split; [reflexivity|]. intros res Hres. injection Hres as <-. reflexivity.
  - simpl. split; [exact C | discriminate].
Qed.

(** C2 (sticky flag).  A pass of the loop whose response is classified as
    an error leaves [workflowFailed] set.  From locals in which the flag is
    set, it is still set after a pass of the loop, after the rest of the
    loop however it ends, and after the code that follows the loop; every
    [update] event sent from then on and the [polling_ended] event report
    it set.  So a run that has sent [n8n_error_detected] ends with the flag
    set and, when it returns, reports [failed] in the metadata block. *)
Theorem sticky_flag_stays_set :
  (forall startTime s,
      (forall a,
          fetched (out (loop_body remote clock startTime s)) = Some a ->
          classified a = true ->
          workflowFailed (state (loop_body remote clock startTime s)) = true)
      /\ (workflowFailed s = true ->
          workflowFailed (state (loop_body remote clock startTime s)) = true
          /\ (forall fuel r,
                 while_loop remote clock fuel startTime s = Some r ->
                 workflowFailed (state r) = true
                 /\ forall p, In (Sent "update" p) (out r) ->
                              field "workflowFailed" p = JBool true)
          /\ workflowFailed (state (finish clock startTime s)) = true
          /\ (forall p,
                 In (Sent "polling_ended" p) (out (finish clock startTime s)) ->
                 field "workflowFailed" p = JBool true)))
  /\ (forall url r,
         pollWorkflow remote clock url = Some r ->
         (0 < count_sent "n8n_error_detected" (out r))%nat ->
         workflowFailed (state r) = true
         /\ forall res, completion r = Normal res ->
                        field "failed" (meta res) = JBool true).
Proof.
  split; [|apply run_flag_after_detection].
  intros startTime s. split; [apply loop_body_sets_flag|].
  intros Hw. split; [apply (loop_body_keeps_flag startTime s Hw)|].
  split.
  - intros fuel r Hr. apply while_loop_run in Hr.
    apply (loop_run_keeps_flag _ _ _ _ _ Hr Hw).
  - destruct (finish_keeps_flag startTime s) as [A B].
    rewrite Hw in *. split; assumption.
Qed.

End StickyFlag.

(** The rest of the loop from locals with the flag set. *)
Lemma sticky_flag_stays_set_witness :
  workflowFailed w_flagged = true
  /\ exists r,
       while_loop w_remote w_clock 5 0 w_flagged = Some r
       /\ workflowFailed (state r) = true.
Proof.
  split; [reflexivity|].
  destruct (sticky_flag_stays_set w_remote w_clock) as (H & _).
  destruct (H 0 w_flagged) as (_ & H').
  destruct (H' eq_refl) as (_ & Hloop & _).
  assert (exists r, while_loop w_remote w_clock 5 0 w_flagged = Some r)
    as [r Hr] by (vm_compute; eexists; reflexivity).
  exists r. split; [exact Hr|]. apply (Hloop 5%nat r Hr).
Defined.

(** ** Runs that end without a finished document *)

(** The projections of explicit locals and runs, in the whole context. *)
Ltac fields :=
  cbn [out state completion data pollCount consecutiveErrors workflowFailed
       requests readings] in *.

Section Interruptions.

Variable remote : nat -> FetchResult.
Variable clock : nat -> Z.

(** Once the status URL of [data] is not a string no request is made. *)
Lemma loop_run_no_url (startTime : Z) (s s' : PollState) (t : list Obs)
    (c : Completion unit) :
  loop_run remote clock startTime s t c s' ->
  (forall path, url_path (prop executionUrl (data s)) <> Normal path) ->
  requests s' = requests s.
Proof.
  induction 1 as [s e Hc|s Hc|s Hc Hb|s e Hc Hb|s t c s' Hc Hb Hr IH];
    intros Hu; try reflexivity.
  1,2: pass_cases remote clock startTime s; simpl in *; try discriminate;
       try reflexivity;
       apply get_normal_defined in H0 as [_ ->]; congruence.
  revert IH Hr.
  pass_cases remote clock startTime s; simpl in *; try discriminate;
    intros IH Hr;
    try (apply get_normal_defined in H0 as [_ ->]; congruence).
  apply IH. exact Hu.
Qed.

(** The locals at the head of the loop when its condition holds. *)
Lemma loop_condition_true (s : PollState) :
  completion (loop_condition s) = Normal true ->
  nullish (data s) = false
  /\ truthy (prop executionUrl (data s)) = true
  /\ truthy (prop finished (data s)) = false
  /\ pollCount s < maxPolls.
Proof.
  intros Hc. apply loop_condition_normal in Hc as [Hn Hc].
  symmetry in Hc. apply continues_true in Hc. tauto.
Qed.

(** The loop from locals that have made at most [k] requests, one per
    pass, when the answer to request [k] is an unfinished document without
    a status URL and the loop gets to it. *)
Lemma loop_run_interrupted (startTime : Z) (k : nat) (status : Z)
    (doc : JsValue) :
  remote k = Response status doc ->
  validateStatus status = true ->
  nullish doc = false ->
  truthy (prop finished doc) = false ->
  truthy (prop executionUrl doc) = false ->
  forall s t c s',
    loop_run remote clock startTime s t c s' ->
    pollCount s = Z.of_nat (requests s) ->
    (requests s <= k)%nat ->
    (k < requests s')%nat ->
    requests s' = S k
    /\ c = Normal tt
    /\ data s' = doc
    /\ pollCount s' = Z.of_nat (S k)
    /\ consecutiveErrors s' = 0.
Proof.
  intros Hk Hv Hn Hf Hu.
  pose proof (settle_response status doc Hv) as Hs. rewrite <- Hk in Hs.
  induction 1 as [s e Hc|s Hc|s Hc Hb|s e Hc Hb|s t c s' Hc Hb Hr IH];
    intros Hp Hle Hlt.
  1,2: lia.
  - pass_cases remote clock startTime s; simpl in *; try discriminate; lia.
  - pass_cases remote clock startTime s; simpl in *; try discriminate; [lia|].
    assert (requests s = k) as Ek by lia. rewrite Ek in *.
    rewrite Hs in H2. injection H2 as <- <-.
    apply get_throw_nullish in H3. congruence.
  - revert IH Hr.
    pass_cases remote clock startTime s; simpl in *; try discriminate;
      intros IH Hr.
    + (* no request *)
      apply loop_run_no_url in Hr; simpl in *; [lia|].
      apply get_normal_defined in H0 as [_ ->]. congruence.
    + (* rejected *)
      assert (requests s <> k) as Ne by (intros Ek; rewrite Ek in *; congruence).
      apply IH; lia.
    + (* pending *)
      destruct (Nat.eq_dec (requests s) k) as [Ek|Ne]; [|apply IH; lia].
      rewrite Ek in *. rewrite Hs in H2. injection H2 as <- <-.
      apply loop_run_stops in Hr as (-> & -> & ->).
      * simpl. repeat split; lia.
      * rewrite loop_condition_defined by assumption. simpl.
        unfold continues. simpl. rewrite Hu. reflexivity.
    + (* finished *)
      apply loop_run_stops in Hr as (-> & -> & ->);
        [|apply finished_document_stops; assumption].
      simpl in *. assert (requests s = k) as Ek by lia. rewrite Ek in *.
      rewrite Hs in H2. injection H2 as <- <-. congruence.
Qed.

(** The document without a status URL, by the number of its request. *)
Lemma answer_without_url_interrupts (url : JsValue) (r : Run PollResult)
    (k : nat) (status : Z) (doc : JsValue) :
  pollWorkflow remote clock url = Some r ->
  (k < count_fetches (out r))%nat ->
  remote k = Response status doc ->
  validateStatus status = true ->
  get finished doc = Normal (JBool false) ->
  prop executionUrl doc = JUndefined \/ prop executionUrl doc = JStr "" ->
  Z.of_nat k + 1 < maxPolls ->
  count_fetches (out r) = S k
  /\ exists t p res,
       out r = (t ++ [Sent "polling_ended" p])%list
       /\ completion r = Normal res
       /\ spread res = doc
       /\ field "reason" p = JStr "interrupted"
       /\ field "finalStatus" p = JStr "interrupted"
       /\ field "success" p = JBool false
       /\ field "reason" (meta res) = JStr "interrupted"
       /\ field "success" (meta res) = JBool false
       /\ field "totalPolls" (meta res) = JNum (Z.of_nat k + 1).
Proof.
  intros H Hlt Hk Hv Hf Hu Hmax.
  apply get_normal_defined in Hf as [Hn Hf]. symmetry in Hf.
  assert (truthy (prop executionUrl doc) = false) as Hu'
      by (destruct Hu as [-> | ->]; reflexivity).
  assert (truthy (prop finished doc) = false) as Hf'
      by (rewrite Hf; reflexivity).
  apply pollWorkflow_cases in H as (t & c & s' & Hr & H).
  pose proof (loop_run_requests _ _ _ _ _ _ _ Hr) as Hq. simpl in Hq.
  assert (count_fetches (out r) = count_fetches t) as Hcf.
  { destruct H as [(_ & _ & ->)|(e & _ & ->)]; [|reflexivity].
    cbn [out]. rewrite count_fetches_app. unfold summary. counts. }
  rewrite Hcf in *.
  destruct (loop_run_interrupted _ k status doc Hk Hv Hn Hf' Hu' _ _ _ _ Hr)
    as (A & B & C & D & E); [reflexivity | simpl; lia | lia |].
  destruct H as [(_ & _ & ->)|(e & -> & _)]; [|discriminate].
  split; [lia|].
  destruct s' as [d pc ce wf rq rd]. unfold summary.
  cbn [data pollCount consecutiveErrors workflowFailed requests readings
       out completion state] in *.
  subst d ce.
  eexists _, _, _. split; [reflexivity|]. split; [reflexivity|].
  unfold end_reason. rewrite Hf.
  destruct (Z.leb_spec maxPolls pc) as [L|L]; [lia|].
  simpl. repeat split. f_equal. lia.
Qed.

Lemma ends_with_app (ty : string) (a t : list Obs) :
  (exists t0 p, t = (t0 ++ [Sent ty p])%list) ->
  exists t0 p, (a ++ t)%list = (t0 ++ [Sent ty p])%list.
Proof. intros (t0 & p & ->). exists (a ++ t0)%list, p. apply app_assoc. Qed.

(** The loop from locals that have made one request per pass, when the
    ten requests from number [k] on are made and all fail. *)
Lemma loop_run_ten_failures (startTime : Z) (k : nat) :
  (forall q, (k <= q < k + 10)%nat -> rejected (remote q) = true) ->
  Z.of_nat k + 10 <= 998 ->
  forall s t c s',
    loop_run remote clock startTime s t c s' ->
    pollCount s = Z.of_nat (requests s) ->
    0 <= consecutiveErrors s ->
    (requests s <= k + 10)%nat ->
    ((k <= requests s)%nat ->
     Z.of_nat (requests s - k) <= consecutiveErrors s) ->
    ((k < requests s)%nat ->
     nullish (data s) = false
     /\ truthy (prop executionUrl (data s)) = true
     /\ truthy (prop finished (data s)) = false) ->
    (k + 10 <= requests s')%nat ->
    requests s' = (k + 10)%nat
    /\ c = Normal tt
    /\ count_sent "too_many_errors" t = 1%nat
    /\ (exists t0 p, t = (t0 ++ [Sent "too_many_errors" p])%list)
    /\ pollCount s' = Z.of_nat k + 11
    /\ maxConsecutiveErrors <= consecutiveErrors s'
    /\ nullish (data s') = false
    /\ truthy (prop finished (data s')) = false.
Proof.
  intros Hfail Hmax. unfold maxConsecutiveErrors.
  induction 1 as [s e Hc|s Hc|s Hc Hb|s e Hc Hb|s t c s' Hc Hb Hr IH];
    intros Hp H0 Hle Hce Hd Hge.
  - destruct Hd as (Hn & _); [lia|].
    rewrite (loop_condition_defined s Hn) in Hc. discriminate.
  - destruct Hd as (Hn & Hu & Hf); [lia|].
    rewrite (loop_condition_defined s Hn) in Hc. simpl in Hc.
    unfold continues in Hc. rewrite Hu, Hf in Hc. simpl in Hc.
    injection Hc as Hc. apply Z.ltb_ge in Hc. unfold maxPolls in Hc. lia.
  - pass_cases remote clock startTime s; fields; try discriminate.
    destruct Hd as (Hn & Hu & Hf); [lia|].
    repeat split; try lia; try assumption.
    eexists [], _. reflexivity.
  - pass_cases remote clock startTime s; fields; try discriminate.
    + destruct Hd as (Hn & _); [lia|].
      apply get_throw_nullish in H1. congruence.
    + unfold maxConsecutiveErrors in *.
      assert (requests s = k + 9)%nat as Eq by lia.
      pose proof (Hfail (requests s)) as F.
      rewrite (settle_not_rejected _ _ _ H3) in F.
      assert (false = true) by (apply F; lia). discriminate.
  - apply loop_condition_true in Hc as (Hn & Hu & Hf & Hlt).
    revert IH Hr.
    pass_cases remote clock startTime s; fields; try discriminate;
      unfold maxConsecutiveErrors in *; intros IH Hr.
    + (* no request *)
      apply loop_run_no_url in Hr; fields; [lia|].
      apply get_normal_defined in H1 as [_ ->]. congruence.
    + (* rejected *)
      destruct IH as (A & B & C & D & E1 & E2 & E3 & E4);
        [lia | lia | lia | lia | intros _; repeat split; assumption | lia |].
      split; [exact A|]. split; [exact B|].
      split; [rewrite count_sent_app; counts|].
      split; [apply ends_with_app; exact D|].
      repeat split; assumption.
    + (* pending *)
      assert (requests s < k)%nat as Hlt'.
      { destruct (Nat.lt_ge_cases (requests s) k) as [L|L]; [exact L|].
        pose proof (Hfail (requests s)) as F.
        rewrite (settle_not_rejected _ _ _ H3) in F.
        assert (false = true) by (apply F; lia). discriminate. }
      destruct IH as (A & B & C & D & E1 & E2 & E3 & E4);
        [lia | lia | lia | lia | lia | lia |].
      split; [exact A|]. split; [exact B|].
      split; [rewrite count_sent_app; counts|].
      split; [apply ends_with_app; exact D|].
      repeat split; assumption.
    + (* finished *)
      assert (requests s < k)%nat as Hlt'.
      { destruct (Nat.lt_ge_cases (requests s) k) as [L|L]; [exact L|].
        pose proof (Hfail (requests s)) as F.
        rewrite (settle_not_rejected _ _ _ H3) in F.
        assert (false = true) by (apply F; lia). discriminate. }
      destruct IH as (A & B & C & D & E1 & E2 & E3 & E4);
        [lia | lia | lia | lia | lia | lia |].
      split; [exact A|]. split; [exact B|].
      split; [rewrite count_sent_app; counts|].
      split; [apply ends_with_app; exact D|].
      repeat split; assumption.
Qed.

(** The ten failures, by the numbers of their requests. *)
Lemma ten_rejections_stop_polling (url : JsValue) (r : Run PollResult)
    (k : nat) :
  pollWorkflow remote clock url = Some r ->
  (k + 10 <= count_fetches (out r))%nat ->
  (forall j, (j < 10)%nat -> rejected (remote (k + j)) = true) ->
  Z.of_nat k + 10 <= 998 ->
  count_fetches (out r) = (k + 10)%nat
  /\ count_sent "too_many_errors" (out r) = 1%nat
  /\ exists t p q res,
       out r = (t ++ [Sent "too_many_errors" p; Sent "polling_ended" q])%list
       /\ completion r = Normal res
       /\ field "reason" q = JStr "too_many_network_errors"
       /\ field "finalStatus" q = JStr "network_failure"
       /\ field "reason" (meta res) = JStr "too_many_network_errors".
Proof.
  intros H Hge Hfail Hmax.
  assert (forall q, (k <= q < k + 10)%nat -> rejected (remote q) = true)
    as Hfail'.
  { intros q Hq. replace q with (k + (q - k))%nat by lia. apply Hfail. lia. }
  apply pollWorkflow_cases in H as (t & c & s' & Hr & H).
  pose proof (loop_run_requests _ _ _ _ _ _ _ Hr) as Hq. simpl in Hq.
  assert (count_fetches (out r) = count_fetches t) as Hcf.
  { destruct H as [(_ & _ & ->)|(e & _ & ->)]; [|reflexivity].
    cbn [out]. rewrite count_fetches_app. unfold summary. counts. }
  rewrite Hcf in *.
  destruct (loop_run_ten_failures _ k Hfail' Hmax _ _ _ _ Hr)
    as (A & B & C & (t0 & p & D) & E1 & E2 & E3 & E4);
    [reflexivity | reflexivity | simpl; lia | simpl; lia | simpl; lia | lia |].
  destruct H as [(_ & _ & ->)|(e & -> & _)]; [|discriminate].
  split; [lia|].
  split; [cbn [out]; rewrite count_sent_app, C; unfold summary; counts|].
  destruct s' as [d pc ce wf rq rd]. unfold summary.
  cbn [data pollCount consecutiveErrors workflowFailed requests readings
       out completion state] in *.
  subst t. rewrite <- app_assoc.
  eexists _, _, _, _. split; [reflexivity|]. split; [reflexivity|].
  unfold end_reason. rewrite E4.
  destruct (Z.leb_spec maxPolls pc) as [L|L]; [unfold maxPolls in L; lia|].
  destruct (Z.leb_spec maxConsecutiveErrors ce) as [L'|L']; [|lia].
  simpl. repeat split.
Qed.

(** C10 (missing status URL).  In every run, if the answer to request
    number [k] (from 0), made before the attempt ceiling is reached
    ([k + 1 < 1000]: the ceiling not reached, as the claim has it; the
    failure ceiling cannot be, an answered request setting the failure
    counter to 0), is a delivered response whose document has
    [finished = false] and a missing or empty [executionUrl], then that
    request is the last one of the run, and the run returns that document:
    the [polling_ended] event and the metadata block report the reason
    [interrupted] and [success = false]. *)
Theorem missing_url_interrupts (url : JsValue) (r : Run PollResult)
    (k : nat) (status : Z) (doc : JsValue) :
  pollWorkflow remote clock url = Some r ->
  nth_error (answers (out r)) k = Some (Response status doc) ->
  validateStatus status = true ->
  get finished doc = Normal (JBool false) ->
  prop executionUrl doc = JUndefined \/ prop executionUrl doc = JStr "" ->
  Z.of_nat k + 1 < maxPolls ->
  count_fetches (out r) = S k
  /\ exists t p res,
       out r = (t ++ [Sent "polling_ended" p])%list
       /\ completion r = Normal res
       /\ spread res = doc
       /\ field "reason" p = JStr "interrupted"
       /\ field "finalStatus" p = JStr "interrupted"
       /\ field "success" p = JBool false
       /\ field "reason" (meta res) = JStr "interrupted"
       /\ field "success" (meta res) = JBool false
       /\ field "totalPolls" (meta res) = JNum (Z.of_nat k + 1).
Proof.
  intros H Hk Hv Hf Hu Hmax.
  destruct (run_answer remote clock url r k _ H Hk) as [Hlt Ha].
  exact (answer_without_url_interrupts url r k status doc H Hlt Ha Hv Hf Hu
           Hmax).
Qed.

(** C3, as the code has it.  In every run, if the ten requests from number
    [k] (from 0) on are made and all fail, the tenth of them on attempt 998
    or earlier ([k + 10 <= 998]), then the tenth is the last request of the
    run; the run sends exactly one [too_many_errors] event, and nothing
    after it but the [polling_ended] event; and it returns with the reason
    [too_many_network_errors] and the final status [network_failure]. *)
Theorem ten_failures_stop_polling (url : JsValue) (r : Run PollResult)
    (k : nat) :
  pollWorkflow remote clock url = Some r ->
  (forall j, (j < 10)%nat ->
     exists a, nth_error (answers (out r)) (k + j) = Some a
               /\ rejected a = true) ->
  Z.of_nat k + 10 <= 998 ->
  count_fetches (out r) = (k + 10)%nat
  /\ count_sent "too_many_errors" (out r) = 1%nat
  /\ exists t p q res,
       out r = (t ++ [Sent "too_many_errors" p; Sent "polling_ended" q])%list
       /\ completion r = Normal res
       /\ field "reason" q = JStr "too_many_network_errors"
       /\ field "finalStatus" q = JStr "network_failure"
       /\ field "reason" (meta res) = JStr "too_many_network_errors".
Proof.
  intros H Hfail Hmax.
  apply (ten_rejections_stop_polling url r k H); [| |exact Hmax].
  - destruct (Hfail 9%nat) as (a & Ha & _); [lia|].
    apply (run_answer remote clock url r _ _ H) in Ha as [Hlt _]. lia.
  - intros j Hj. destruct (Hfail j Hj) as (a & Ha & Hr).
    apply (run_answer remote clock url r _ _ H) in Ha as [_ ->]. exact Hr.
Qed.

End Interruptions.

(** A remote engine that goes down after its first answer. *)
Lemma ten_failures_stop_polling_witness :
  exists r,
    pollWorkflow w_remote_down w_clock w_url = Some r
    /\ forallb (fun j => match nth_error (answers (out r)) (1 + j) with
                         | Some a => rejected a
                         | None => false
                         end) (seq 0 10) = true
    /\ count_fetches (out r) = 11%nat
    /\ count_sent "too_many_errors" (out r) = 1%nat.
Proof.
  destruct (pollWorkflow_total w_remote_down w_clock w_url) as [r Hr].
  assert (option_map
            (fun r => forallb (fun j => match nth_error (answers (out r)) (1 + j) with
                                        | Some a => rejected a
                                        | None => false
                                        end) (seq 0 10))
            (pollWorkflow w_remote_down w_clock w_url) = Some true) as E
      by (vm_compute; reflexivity).
  rewrite Hr in E. cbn [option_map] in E.
  apply (f_equal (fun o => match o with Some b => b | None => false end)) in E.
  cbv beta iota in E.
  exists r. split; [exact Hr|]. split; [exact E|].
  destruct (ten_failures_stop_polling w_remote_down w_clock w_url r 1 Hr)
    as (A & B & _).
  - intros j Hj. rewrite forallb_forall in E.
    specialize (E j). rewrite in_seq in E.
    destruct (nth_error (answers (out r)) (1 + j)) as [a|].
    + exists a. split; [reflexivity|]. apply E. lia.
    + assert (false = true) by (apply E; lia). discriminate.
  - lia.
  - split; assumption.
Defined.

(** C3, as the claim states it, fails: the last ten requests of this run
    fail one after the other with no success in between, and the run sends
    no [too_many_errors] event and ends with the reason
    [max_polls_reached]. *)
Lemma ten_failures_at_ceiling_counterexample :
  exists r res,
    pollWorkflow c3_remote w_clock w_url = Some r
    /\ count_fetches (out r) = 1000%nat
    /\ forallb (fun j => match nth_error (answers (out r)) (990 + j) with
                         | Some a => rejected a
                         | None => false
                         end) (seq 0 10) = true
    /\ count_sent "too_many_errors" (out r) = 0%nat
    /\ completion r = Normal res
    /\ field "reason" (meta res) = JStr "max_polls_reached".
Proof.
  destruct (pollWorkflow_total c3_remote w_clock w_url) as [r Hr].
  assert (exists res,
             option_map
               (fun r =>
                  (count_fetches (out r),
                   forallb (fun j =>
                              match nth_error (answers (out r)) (990 + j) with
                              | Some a => rejected a
                              | None => false
                              end) (seq 0 10),
                   count_sent "too_many_errors" (out r),
                   completion r))
               (pollWorkflow c3_remote w_clock w_url)
             = Some (1000%nat, true, 0%nat, Normal res)
             /\ field "reason" (meta res) = JStr "max_polls_reached")
    as (res & E & Hres)
      by (vm_compute; eexists; split; reflexivity).
  rewrite Hr in E. cbn [option_map] in E. injection E as E1 E2 E3 E4.
  exists r, res.
  split; [exact Hr|]. split; [exact E1|]. split; [exact E2|].
  split; [exact E3|]. split; [exact E4 | exact Hres].
Qed.

(** The third answer names no status URL. *)
Lemma missing_url_interrupts_witness :
  exists r,
    pollWorkflow (remote_no_url 2) w_clock w_url = Some r
    /\ nth_error (answers (out r)) 2 = Some (Response 200 w_no_url)
    /\ count_fetches (out r) = 3%nat
    /\ exists t p res,
         out r = (t ++ [Sent "polling_ended" p])%list
         /\ completion r = Normal res
         /\ field "reason" p = JStr "interrupted".
Proof.
  destruct (pollWorkflow_total (remote_no_url 2) w_clock w_url) as [r Hr].
  assert (option_map (fun r => nth_error (answers (out r)) 2)
            (pollWorkflow (remote_no_url 2) w_clock w_url)
          = Some (Some (Response 200 w_no_url))) as E
      by (vm_compute; reflexivity).
  rewrite Hr in E. cbn [option_map] in E. injection E as E.
  exists r. split; [exact Hr|]. split; [exact E|].
  destruct (missing_url_interrupts (remote_no_url 2) w_clock w_url r 2 200
              w_no_url Hr E eq_refl eq_refl (or_introl eq_refl))
    as (A & t & p & res & B & C & _ & D & _).
  - unfold maxPolls. lia.
  - split; [exact A|]. exists t, p, res. repeat split; assumption.
Defined.

(** At the attempt ceiling, the case C10 sets aside, the reason is another
    one: request 999, the thousandth, is answered with an unfinished
    document that has no [executionUrl], and the run ends with the reason
    [max_polls_reached]. *)
Lemma missing_url_at_ceiling :
  exists r res,
    pollWorkflow (remote_no_url 999) w_clock w_url = Some r
    /\ nth_error (answers (out r)) 999 = Some (Response 200 w_no_url)
    /\ get finished w_no_url = Normal (JBool false)
    /\ prop executionUrl w_no_url = JUndefined
    /\ completion r = Normal res
    /\ spread res = w_no_url
    /\ field "reason" (meta res) = JStr "max_polls_reached"
    /\ field "reason" (meta res) <> JStr "interrupted".
Proof.
  destruct (pollWorkflow_total (remote_no_url 999) w_clock w_url) as [r Hr].
  assert (exists res,
             option_map (fun r => (nth_error (answers (out r)) 999,
                                   completion r))
               (pollWorkflow (remote_no_url 999) w_clock w_url)
             = Some (Some (Response 200 w_no_url), Normal res)
             /\ spread res = w_no_url
             /\ field "reason" (meta res) = JStr "max_polls_reached")
    as (res & E & Hs & Hres)
      by (vm_compute; eexists; repeat split; reflexivity).
  rewrite Hr in E. cbn [option_map] in E. injection E as E1 E2.
  exists r, res. rewrite Hres.
  split; [exact Hr|]. split; [exact E1|].
  split; [reflexivity|]. split; [reflexivity|]. split; [exact E2|].
  split; [exact Hs|]. split; [reflexivity | discriminate].
Qed.

(** ** The URL of a request *)

Lemma append_assoc (a b c : string) : (a ++ b) ++ c = a ++ (b ++ c).
Proof. induction a as [|x a IH]; simpl; [|rewrite IH]; reflexivity. Qed.

Lemma append_nil_r (a : string) : a ++ "" = a.
Proof. induction a as [|x a IH]; simpl; [|rewrite IH]; reflexivity. Qed.

Lemma prefix_append (a b : string) : prefix a (a ++ b) = true.
Proof.
  induction a as [|x a IH]; simpl; [destruct b; reflexivity|].
  destruct (ascii_dec x x) as [_|N]; [exact IH | contradiction].
Qed.

Lemma split_from_cons (cur s : string) :
  exists x l, split_from cur s = x :: l.
Proof.
  revert cur. induction s as [|c s IH]; intros cur; simpl.
  - eexists _, _. reflexivity.
  - destruct (c =? "/")%char; [eexists _, _; reflexivity | apply IH].
Qed.

(** Joining the segments gives the string back. *)
Lemma join_split_from (cur s : string) :
  join "/" (split_from cur s) = cur ++ s.
Proof.
  revert cur. induction s as [|c s IH]; intros cur; simpl.
  - rewrite append_nil_r. reflexivity.
  - destruct (Ascii.eqb_spec c "/") as [->|N].
    + pose proof (IH "") as J.
      destruct (split_from_cons "" s) as (x & l & E). rewrite E in *.
      change (join "/" (cur :: x :: l))
        with (cur ++ "/" ++ join "/" (x :: l)).
      rewrite J. reflexivity.
    + rewrite IH, append_assoc. reflexivity.
Qed.

Lemma includes_slash_cons (c : ascii) (s : string) :
  includes "/" (String c s) = false ->
  (c =? "/")%char = false /\ includes "/" s = false.
Proof.
  change (includes "/" (String c s))
    with (if (if ascii_dec "/" c then prefix "" s else false)
          then true else includes "/" s).
  destruct (ascii_dec "/" c) as [E|N].
  - destruct s; discriminate.
  - intros H. split; [|exact H].
    apply Ascii.eqb_neq. congruence.
Qed.

(** A segment without [/] that is followed by a [/] is split off. *)
Lemma split_from_segment (a cur rest : string) :
  includes "/" a = false ->
  split_from cur (a ++ String "/" rest) = (cur ++ a) :: split_from "" rest.
Proof.
  revert cur. induction a as [|c a IH]; intros cur H.
  - simpl. rewrite append_nil_r. reflexivity.
  - apply includes_slash_cons in H as [Hc H].
    simpl. rewrite Hc, (IH _ H), append_assoc. reflexivity.
Qed.

Lemma split_from_last (a cur : string) :
  includes "/" a = false -> split_from cur a = [cur ++ a].
Proof.
  revert cur. induction a as [|c a IH]; intros cur H.
  - simpl. rewrite append_nil_r. reflexivity.
  - apply includes_slash_cons in H as [Hc H].
    simpl. rewrite Hc, (IH _ H), append_assoc. reflexivity.
Qed.

Lemma url_path_absolute (scheme host path : string) :
  includes "/" scheme = false ->
  includes "/" host = false ->
  url_path (JStr (scheme ++ "//" ++ host ++ "/" ++ path)) = Normal path.
Proof.
  intros Hs Hh. unfold url_path, split_slash.
  change (scheme ++ "//" ++ host ++ "/" ++ path)
    with (scheme ++ String "/" (String "/" (host ++ String "/" path))).
  rewrite (split_from_segment scheme "" _ Hs).
  change (split_from "" (String "/" (host ++ String "/" path)))
    with ("" :: split_from "" (host ++ String "/" path)).
  rewrite (split_from_segment host "" _ Hh).
  cbn [skipn]. rewrite join_split_from. reflexivity.
Qed.

(** Of an absolute URL, [scheme//host/path] with no [/] inside the scheme
    and the host, the engine keeps exactly the path, whatever it contains,
    and drops the scheme and the host; of a URL that stops after the host it
    keeps the empty path, so that the request goes to the base URL
    itself. *)
Theorem url_path_of_absolute_url (scheme host path : string) :
  includes "/" scheme = false ->
  includes "/" host = false ->
  url_path (JStr (scheme ++ "//" ++ host ++ "/" ++ path)) = Normal path
  /\ url_path (JStr (scheme ++ "//" ++ host)) = Normal "".
Proof.
  intros Hs Hh. split; [exact (url_path_absolute scheme host path Hs Hh)|].
  unfold url_path, split_slash.
  change (scheme ++ "//" ++ host)
    with (scheme ++ String "/" (String "/" host)).
  rewrite (split_from_segment scheme "" _ Hs).
  change (split_from "" (String "/" host)) with ("" :: split_from "" host).
  rewrite (split_from_last host "" Hh). reflexivity.
Qed.

Lemma url_path_of_absolute_url_witness :
  url_path (JStr "http://localhost:5678/webhook/run/7?x=a/b")
  = Normal "webhook/run/7?x=a/b"
  /\ url_path (JStr "http://localhost:5678") = Normal "".
Proof.
  apply (url_path_of_absolute_url "http:" "localhost:5678"
           "webhook/run/7?x=a/b"); reflexivity.
Defined.

(** The URL the engine requests is stable: the path of the rewritten URL,
    the base URL followed by a path, is this path again, so that a document
    which carries the URL just requested is polled at the same URL. *)
Theorem url_path_of_rewritten_url (path : string) :
  url_path (JStr (N8N_WEBHOOK_URL ++ path)) = Normal path.
Proof.
  apply (url_path_absolute "https:" "n8n.srv903010.hstgr.cloud" path);
    reflexivity.
Qed.

(** ** Where and when the requests go *)

Lemma urls_app (a b : list Obs) : urls (a ++ b) = (urls a ++ urls b)%list.
Proof.
  induction a as [|[ty p|u x|ms] a IH]; simpl; rewrite ?IH; reflexivity.
Qed.

Lemma urls_error_event (wf : bool) (pc : Z) (body : JsValue) :
  urls (error_event wf pc body) = [].
Proof.
  unfold error_event.
  destruct (isError (analysis_of body)); destruct wf; reflexivity.
Qed.

Lemma paced_ready (t : list Obs) :
  paced false t = true -> paced true t = true.
Proof.
  induction t as [|[ty p|u x|ms] t IH]; cbn [paced andb orb]; auto.
  - discriminate.
  - destruct (3000 <=? ms); auto.
Qed.

Lemma paced_error_event (b wf : bool) (pc : Z) (body : JsValue)
    (t : list Obs) :
  paced b (error_event wf pc body ++ t) = paced b t.
Proof.
  unfold error_event.
  destruct (isError (analysis_of body)); destruct wf; reflexivity.
Qed.

Lemma polling_interval_min (pc : Z) (e : bool) :
  (3000 <=? getPollingInterval pc e) = true.
Proof.
  unfold getPollingInterval.
  destruct e; [reflexivity|].
  destruct (pc <? 5); [reflexivity|].
  destruct (pc <? 20); [reflexivity|].
  destruct (pc <? 60); [reflexivity|].
  destruct (pc <? 120); reflexivity.
Qed.

Section Requests.

Variable remote : nat -> FetchResult.
Variable clock : nat -> Z.

Lemma loop_run_urls (startTime : Z) (s s' : PollState) (t : list Obs)
    (c : Completion unit) :
  loop_run remote clock startTime s t c s' ->
  Forall (fun u => prefix N8N_WEBHOOK_URL u = true) (urls t).
Proof.
  induction 1 as [s e Hc|s Hc|s Hc Hb|s e Hc Hb|s t c s' Hc Hb Hr IH].
  1,2: constructor.
  1,2: pass_cases remote clock startTime s; cbn [out completion] in *;
       try discriminate; repeat constructor; apply prefix_append.
  rewrite urls_app. apply Forall_app. split; [|exact IH]. clear IH Hr.
  pass_cases remote clock startTime s; cbn [out completion] in *;
    try discriminate; cbn [urls app];
    rewrite ?urls_app, ?urls_error_event; cbn [urls app];
    repeat constructor; apply prefix_append.
Qed.

(** Whatever URL the engine is given and whatever URLs the documents
    it polls carry, every request it makes goes to the configured base URL:
    the URL requested starts with [N8N_WEBHOOK_URL]. *)
Theorem requests_go_to_base_url (url : JsValue) (r : Run PollResult) :
  pollWorkflow remote clock url = Some r ->
  Forall (fun u => prefix N8N_WEBHOOK_URL u = true) (urls (out r)).
Proof.
  intros H. apply pollWorkflow_cases in H as (t & c & s' & Hr & H).
  apply loop_run_urls in Hr.
  destruct H as [(_ & _ & ->)|(e & _ & ->)]; cbn [out]; [|exact Hr].
  rewrite urls_app. apply Forall_app. split; [exact Hr|].
  unfold summary. cbn [out urls]. constructor.
Qed.

Lemma loop_run_paced (startTime : Z) (s s' : PollState) (t : list Obs)
    (c : Completion unit) :
  loop_run remote clock startTime s t c s' ->
  forall tail, paced false tail = true -> paced true (t ++ tail) = true.
Proof.
  induction 1 as [s e Hc|s Hc|s Hc Hb|s e Hc Hb|s t c s' Hc Hb Hr IH];
    intros tail Ht.
  1,2: apply paced_ready; exact Ht.
  1,2: pass_cases remote clock startTime s; cbn [out completion] in *;
       try discriminate; cbn [app paced andb];
       first [exact Ht | apply paced_ready; exact Ht].
  rewrite <- app_assoc.
  pass_cases remote clock startTime s; cbn [out completion state] in *;
    try discriminate; rewrite <- ?app_assoc; cbn [app paced andb orb];
    rewrite ?paced_error_event; cbn [app paced andb orb];
    rewrite ?polling_interval_min; try (apply IH; exact Ht).
  apply loop_run_stops in Hr as (-> & _ & _);
    [exact Ht | apply finished_document_stops; assumption].
Qed.

(** The engine never sends two requests back to back: between a
    request and the next one it always waits, 3000 ms at least. *)
Theorem requests_are_paced (url : JsValue) (r : Run PollResult) :
  pollWorkflow remote clock url = Some r ->
  paced true (out r) = true.
Proof.
  intros H. apply pollWorkflow_cases in H as (t & c & s' & Hr & H).
  destruct H as [(_ & _ & ->)|(e & _ & ->)]; cbn [out].
  - apply (loop_run_paced _ _ _ _ _ Hr). reflexivity.
  - rewrite <- (app_nil_r t). apply (loop_run_paced _ _ _ _ _ Hr). reflexivity.
Qed.

End Requests.

Lemma requests_go_to_base_url_witness :
  exists r,
    pollWorkflow w_remote w_clock w_url = Some r
    /\ Forall (fun u => prefix N8N_WEBHOOK_URL u = true) (urls (out r)).
Proof.
  destruct (pollWorkflow_total w_remote w_clock w_url) as [r Hr].
  exists r. split; [exact Hr|].
  apply (requests_go_to_base_url w_remote w_clock w_url r Hr).
Defined.

Lemma requests_are_paced_witness :
  exists r,
    pollWorkflow w_remote w_clock w_url = Some r
    /\ paced true (out r) = true.
Proof.
  destruct (pollWorkflow_total w_remote w_clock w_url) as [r Hr].
  exists r. split; [exact Hr|].
  apply (requests_are_paced w_remote w_clock w_url r Hr).
Defined.
(** ** A run that has nothing to poll *)

Lemma url_path_string (u : JsValue) (path : string) :
  url_path u = Normal path -> typeof u = "string".
Proof. destruct u; simpl; intros H; try discriminate; reflexivity. Qed.

Lemma slept_app (a b : list Obs) : slept (a ++ b) = slept a + slept b.
Proof.
  induction a as [|[ty p|u x|ms] a IH]; simpl; rewrite ?IH; lia.
Qed.

Section NothingToPoll.

Variable remote : nat -> FetchResult.
Variable clock : nat -> Z.

(** Given no URL ([undefined], [null], the empty string, [0] or
    [false]) the engine does not enter its loop: it makes no request and
    sends the summary event only, and it returns the initial document with
    the reason [interrupted], no attempt and no success. *)
Theorem no_locator_no_polling (url : JsValue) :
  truthy url = false ->
  exists p res s,
    pollWorkflow remote clock url
    = Some (mkRun [Sent "polling_ended" p] (Normal res) s)
    /\ field "reason" p = JStr "interrupted"
    /\ field "totalPolls" p = JNum 0
    /\ spread res = JObj [("executionUrl", url); ("finished", JBool false)]
    /\ field "reason" (meta res) = JStr "interrupted"
    /\ field "success" (meta res) = JBool false
    /\ field "failed" (meta res) = JBool false
    /\ field "totalPolls" (meta res) = JNum 0.
Proof.
  intros Hu. rewrite pollWorkflow_unfold, while_loop_step.
  rewrite (loop_condition_defined (start_state url)) by reflexivity.
  assert (continues (start_state url) = false) as ->.
  { unfold continues. cbn. rewrite Hu. reflexivity. }
  cbn [completion]. rewrite finish_defined by reflexivity.
  unfold summary. cbn.
  eexists _, _, _. split; [reflexivity|]. repeat split.
Qed.

(** The loop from a document whose URL is not a string. *)
Lemma loop_run_bad_locator (startTime : Z) (s s' : PollState) (t : list Obs)
    (c : Completion unit) :
  loop_run remote clock startTime s t c s' ->
  nullish (data s) = false ->
  truthy (prop executionUrl (data s)) = true ->
  typeof (prop executionUrl (data s)) <> "string" ->
  truthy (prop finished (data s)) = false ->
  0 <= consecutiveErrors s <= 10 ->
  pollCount s + (10 - consecutiveErrors s) < maxPolls ->
  c = Normal tt
  /\ count_fetches t = 0%nat
  /\ count_sent "polling_error" t = Z.to_nat (10 - consecutiveErrors s)
  /\ count_sent "too_many_errors" t = 1%nat
  /\ slept t = 15000 * (10 - consecutiveErrors s)
  /\ data s' = data s
  /\ consecutiveErrors s' = 10
  /\ workflowFailed s' = workflowFailed s
  /\ pollCount s' = pollCount s + (10 - consecutiveErrors s) + 1.
Proof.
  induction 1 as [s e Hc|s Hc|s Hc Hb|s e Hc Hb|s t c s' Hc Hb Hr IH];
    intros Hn Hu Ht Hf Hce Hpc.
  - rewrite (loop_condition_defined s Hn) in Hc. discriminate.
  - rewrite (loop_condition_defined s Hn) in Hc. injection Hc as Hc.
    unfold continues in Hc. rewrite Hu, Hf in Hc. simpl in Hc.
    apply Z.ltb_ge in Hc. unfold maxPolls in *. lia.
  - pass_cases remote clock startTime s; cbn [out completion state] in *;
      try discriminate.
    unfold maxConsecutiveErrors in *. fields.
    assert (consecutiveErrors s = 10) as E by lia. rewrite E.
    repeat split; try reflexivity; lia.
  - exfalso.
    pass_cases remote clock startTime s; cbn [out completion state] in *;
      try discriminate.
    + apply get_throw_nullish in H0. congruence.
    + apply get_normal_defined in H0 as [_ ->].
      apply url_path_string in H1. contradiction.
  - pass_cases remote clock startTime s; cbn [out completion state] in *;
      try discriminate;
      try (exfalso; apply get_normal_defined in H0 as [_ ->];
           apply url_path_string in H1; contradiction).
    unfold maxConsecutiveErrors in *. fields.
    destruct IH as (-> & F & P & T & Sl & D & C & W & N);
      [assumption .. | lia | lia |].
    rewrite count_fetches_app, !count_sent_app, slept_app, F, P, T, Sl.
    split; [reflexivity|]. split; [reflexivity|].
    split; [change (count_sent "polling_error" [Sent "polling_error" ?p; Slept 15000])
              with 1%nat; lia|].
    split; [reflexivity|].
    split; [cbn [slept]; lia|].
    split; [exact D|]. split; [exact C|]. split; [exact W|]. lia.
Qed.

(** Given a URL that is not a string (a number, [true], an array or an
    object) the engine never makes a request: ten passes in a row fail at
    the URL, each followed by a [polling_error] event and a wait of 15 s;
    the eleventh pass sends [too_many_errors] and the run returns with the
    reason [too_many_network_errors] after 11 attempts. *)
Theorem bad_locator_is_never_requested (url : JsValue) (r : Run PollResult) :
  truthy url = true ->
  typeof url <> "string" ->
  pollWorkflow remote clock url = Some r ->
  count_fetches (out r) = 0%nat
  /\ count_sent "polling_error" (out r) = 10%nat
  /\ count_sent "too_many_errors" (out r) = 1%nat
  /\ slept (out r) = 150000
  /\ exists res,
       completion r = Normal res
       /\ field "reason" (meta res) = JStr "too_many_network_errors"
       /\ field "success" (meta res) = JBool false
       /\ field "totalPolls" (meta res) = JNum 11.
Proof.
  intros Hu Ht H. apply pollWorkflow_cases in H as (t & c & s' & Hr & H).
  apply loop_run_bad_locator in Hr
    as (-> & F & P & T & Sl & D & C & W & N);
    try assumption; try reflexivity; [|cbn; lia].
  destruct H as [(_ & _ & ->)|(e & He & _)]; [|discriminate He].
  destruct s' as [d pc ce wf rq rd]. cbn in D, C, W, N. subst.
  unfold summary. cbn [out completion data pollCount consecutiveErrors
                         workflowFailed readings].
  rewrite count_fetches_app, !count_sent_app, slept_app, F, P, T, Sl.
  repeat split.
  eexists. split; [reflexivity|]. cbn. repeat split.
Qed.

End NothingToPoll.

Lemma bad_locator_is_never_requested_witness :
  exists r,
    pollWorkflow w_remote w_clock (JNum 7) = Some r
    /\ count_fetches (out r) = 0%nat
    /\ count_sent "too_many_errors" (out r) = 1%nat.
Proof.
  destruct (pollWorkflow_total w_remote w_clock (JNum 7)) as [r Hr].
  exists r. split; [exact Hr|].
  destruct (bad_locator_is_never_requested w_remote w_clock (JNum 7) r)
    as (F & _ & T & _); [reflexivity | discriminate | exact Hr |].
  split; assumption.
Defined.

Lemma no_locator_no_polling_witness :
  exists p res s,
    pollWorkflow w_remote w_clock (JStr "")
    = Some (mkRun [Sent "polling_ended" p] (Normal res) s)
    /\ field "reason" (meta res) = JStr "interrupted".
Proof.
  destruct (no_locator_no_polling w_remote w_clock (JStr ""))
    as (p & res & s & H & _ & _ & _ & R & _); [reflexivity|].
  exists p, res, s. split; assumption.
Defined.
(** ** Requests and their [step] events *)

Lemma announced_error_event (wf : bool) (pc : Z) (body : JsValue)
    (t : list Obs) :
  announced (error_event wf pc body ++ t) = announced t.
Proof.
  unfold error_event.
  destruct (isError (analysis_of body)); destruct wf; reflexivity.
Qed.

Lemma announced_step (p : JsValue) (u : string) (a : FetchResult)
    (t : list Obs) :
  field "executionUrl" p = JStr u ->
  announced (Sent "step" p :: Fetched u a :: t) = announced t.
Proof.
  intros H. cbn [announced String.eqb Ascii.eqb Bool.eqb]. cbv iota.
  rewrite H, String.eqb_refl. reflexivity.
Qed.

Section Announced.

Variable remote : nat -> FetchResult.
Variable clock : nat -> Z.

Lemma loop_run_announced (startTime : Z) (s s' : PollState) (t : list Obs)
    (c : Completion unit) :
  loop_run remote clock startTime s t c s' ->
  forall tail,
    announced tail = true ->
    announced (t ++ tail) = true
    /\ count_sent "step" t = count_fetches t.
Proof.
  induction 1 as [s e Hc|s Hc|s Hc Hb|s e Hc Hb|s t c s' Hc Hb Hr IH];
    intros tail Ht.
  1,2: split; [exact Ht | reflexivity].
  1,2: pass_cases remote clock startTime s; cbn [out completion] in *;
       try discriminate; cbn [app];
       rewrite ?announced_step by reflexivity;
       (split; [exact Ht | reflexivity]).
  destruct (IH tail Ht) as [A B].
  rewrite <- app_assoc, count_sent_app, count_fetches_app, B.
  clear IH Hr.
  pass_cases remote clock startTime s; cbn [out completion] in *;
    try discriminate; rewrite <- ?app_assoc; cbn [app];
    rewrite ?announced_step by reflexivity;
    rewrite ?announced_error_event; cbn [announced String.eqb Ascii.eqb Bool.eqb];
    (split; [exact A | counts]).
Qed.

(** The client is told of every request: each request of a run comes
    right after a [step] event that carries the URL requested, and each
    [step] event is followed at once by its request, so that a run sends as
    many [step] events as it makes requests. *)
Theorem requests_are_announced (url : JsValue) (r : Run PollResult) :
  pollWorkflow remote clock url = Some r ->
  announced (out r) = true
  /\ count_sent "step" (out r) = count_fetches (out r).
Proof.
  intros H. apply pollWorkflow_cases in H as (t & c & s' & Hr & H).
  destruct H as [(_ & _ & ->)|(e & _ & ->)]; cbn [out].
  - destruct (loop_run_announced _ _ _ _ _ Hr
                (out (summary clock (clock 0) s')) eq_refl) as [A B].
    split; [exact A|].
    rewrite count_sent_app, count_fetches_app, B. reflexivity.
  - destruct (loop_run_announced _ _ _ _ _ Hr [] eq_refl) as [A B].
    rewrite app_nil_r in A. split; assumption.
Qed.

End Announced.

Lemma requests_are_announced_witness :
  exists r,
    pollWorkflow w_remote w_clock w_url = Some r
    /\ announced (out r) = true.
Proof.
  destruct (pollWorkflow_total w_remote w_clock w_url) as [r Hr].
  exists r. split; [exact Hr|].
  apply (requests_are_announced w_remote w_clock w_url r Hr).
Defined.
(** ** The event sink *)

Lemma JsValue_nested_ind (P : JsValue -> Prop) :
  P JUndefined -> P JNull -> (forall b, P (JBool b)) ->
  (forall n, P (JNum n)) -> (forall s, P (JStr s)) ->
  (forall items, Forall P items -> P (JArr items)) ->
  (forall props, Forall (fun kv => P (snd kv)) props -> P (JObj props)) ->
  forall v, P v.
Proof.
  intros Hu Hn Hb Hz Hs Ha Ho. fix IH 1.
  intros [| |b|n|s|items|props];
    [exact Hu | exact Hn | apply Hb | apply Hz | apply Hs | |].
  - apply Ha. induction items as [|x items IHl]; constructor;
      [apply IH | exact IHl].
  - apply Ho. induction props as [|[k x] props IHl]; constructor;
      [apply IH | exact IHl].
Qed.

Lemma no_c0_append (a b : string) : no_c0 (a ++ b) = no_c0 a && no_c0 b.
Proof.
  induction a as [|c a IH]; simpl; [|rewrite IH, andb_assoc]; reflexivity.
Qed.

Lemma no_c0_quote_char (c : ascii) : no_c0 (quote_char c) = true.
Proof. destruct c as [[] [] [] [] [] [] [] []]; reflexivity. Qed.

Lemma no_c0_quote (s : string) : no_c0 (quote s) = true.
Proof.
  unfold quote. cbn [no_c0]. rewrite no_c0_append.
  assert (no_c0 (quote_chars s) = true) as ->.
  { induction s as [|c s IH]; simpl; [reflexivity|].
    rewrite no_c0_append, no_c0_quote_char, IH. reflexivity. }
  reflexivity.
Qed.

Lemma no_c0_uint (d : Decimal.uint) :
  no_c0 (NilEmpty.string_of_uint d) = true.
Proof. induction d; simpl; auto. Qed.

Lemma no_c0_show (n : Z) : no_c0 (show n) = true.
Proof.
  unfold show, NilZero.string_of_int, NilZero.string_of_uint.
  destruct (Z.to_int n) as [d|d]; destruct d;
    cbn [no_c0 not_c0]; rewrite ?no_c0_uint; try reflexivity;
    simpl; rewrite ?no_c0_uint; reflexivity.
Qed.

Lemma no_c0_join (l : list string) :
  Forall (fun s => no_c0 s = true) l -> no_c0 (join "," l) = true.
Proof.
  induction 1 as [|s l Hs Hl IH]; [reflexivity|].
  destruct l as [|s' l]; [exact Hs|].
  change (join "," (s :: s' :: l)) with (s ++ "," ++ join "," (s' :: l)).
  rewrite !no_c0_append, Hs, IH. reflexivity.
Qed.

(** The text [JSON.stringify] gives holds no byte below 32. *)
Lemma no_c0_stringify (v : JsValue) :
  forall s, JSON_stringify v = Some s -> no_c0 s = true.
Proof.
  induction v as [| |b|n|x|items IH|props IH] using JsValue_nested_ind;
    intros s H; cbn [JSON_stringify] in H; try discriminate.
  - injection H as <-. reflexivity.
  - destruct b; injection H as <-; reflexivity.
  - injection H as <-. apply no_c0_show.
  - injection H as <-. apply no_c0_quote.
  - injection H as <-. cbn [no_c0]. rewrite !no_c0_append, no_c0_join; [reflexivity|].
    induction IH as [|x items Hx _ IHl]; constructor; [|exact IHl].
    cbv beta. destruct (JSON_stringify x) as [sx|]; [apply Hx|]; reflexivity.
  - injection H as <-. cbn [no_c0]. rewrite !no_c0_append, no_c0_join; [reflexivity|].
    induction IH as [|[k x] props Hx _ IHl]; [constructor|].
    cbn [flat_map fst snd] in *.
    destruct (JSON_stringify x) as [sx|]; [|exact IHl].
    cbn [app]. constructor; [|exact IHl].
    change (no_c0 (quote k ++ ":" ++ sx) = true). rewrite !no_c0_append, no_c0_quote, (Hx sx eq_refl). reflexivity.
Qed.

Lemma no_c0_occurrences (c : ascii) (s : string) :
  not_c0 c = false -> no_c0 s = true -> occurrences c s = 0%nat.
Proof.
  intros Hc. induction s as [|x s IH]; simpl; [reflexivity|].
  intros H. apply andb_prop in H as [Hx Hs].
  destruct (Ascii.eqb_spec x c) as [->|N]; [congruence|].
  rewrite (IH Hs). reflexivity.
Qed.

Lemma occurrences_append (c : ascii) (a b : string) :
  occurrences c (a ++ b) = (occurrences c a + occurrences c b)%nat.
Proof.
  induction a as [|x a IH]; simpl; [|rewrite IH, Nat.add_assoc]; reflexivity.
Qed.

(** The text of an event, which is that of an object, is defined. *)
Lemma event_data_line (requestId : JsValue) (timestamp : string)
    (data : JsValue) :
  exists line,
    JSON_stringify (event_data requestId timestamp data) = Some line
    /\ no_c0 line = true.
Proof.
  destruct (JSON_stringify (event_data requestId timestamp data))
    as [line|] eqn:E; [|discriminate E].
  exists line. split; [reflexivity|]. exact (no_c0_stringify _ _ E).
Qed.

(** Whatever the payload of an event holds (line breaks in the strings
    of a polled document, say), the sink writes it on one line: the second
    chunk of the event is [data: ] followed by a text that holds no line
    feed and no carriage return, and by the two line feeds that end the
    event.  The text holds no byte below 32 at all; the character U+007F
    and the characters from U+0080 on stay as the payload has them. *)
Theorem event_data_on_one_line (requestId : JsValue)
    (timestamp eventType : string) (data : JsValue) :
  exists line,
    sse_writes requestId timestamp eventType data
    = ["event: " ++ eventType ++ String LF "";
       "data: " ++ line ++ String LF (String LF "")]
    /\ no_c0 line = true
    /\ occurrences LF line = 0%nat
    /\ occurrences CR line = 0%nat.
Proof.
  destruct (event_data_line requestId timestamp data) as (line & E & C).
  exists line. unfold sse_writes. rewrite E.
  split; [reflexivity|]. split; [exact C|].
  split; apply no_c0_occurrences; try exact C; reflexivity.
Qed.

Lemma lookup_set_prop (k : string) (v : JsValue)
    (props : list (string * JsValue)) :
  lookup k (set_prop k v props) = v.
Proof.
  induction props as [|[k' v'] props IH]; simpl.
  - rewrite String.eqb_refl. reflexivity.
  - destruct (k =? k')%string eqn:E; simpl; rewrite ?E, ?String.eqb_refl;
      auto.
Qed.

Lemma lookup_set_prop_other (k k' : string) (v : JsValue)
    (props : list (string * JsValue)) :
  (k' =? k)%string = false ->
  lookup k' (set_prop k v props) = lookup k' props.
Proof.
  intros N. induction props as [|[k0 v0] props IH]; simpl.
  - rewrite N. reflexivity.
  - destruct (k =? k0)%string eqn:E; simpl.
    + apply String.eqb_eq in E. subst k0. rewrite N. reflexivity.
    + rewrite IH. reflexivity.
Qed.

(** The sink stamps every event: in what it sends the properties
    [timestamp] and [requestId] are its own, also when the payload has
    properties of these names, and every other property is the one of
    the payload. *)
Theorem sink_stamps_event (requestId : JsValue) (timestamp : string)
    (data : JsValue) :
  field "timestamp" (event_data requestId timestamp data) = JStr timestamp
  /\ field "requestId" (event_data requestId timestamp data) = requestId
  /\ forall k,
       (k =? "timestamp")%string = false ->
       (k =? "requestId")%string = false ->
       field k (event_data requestId timestamp data)
       = lookup k (own_props data).
Proof.
  unfold event_data, field. split; [|split].
  - rewrite lookup_set_prop_other by reflexivity. apply lookup_set_prop.
  - apply lookup_set_prop.
  - intros k H1 H2. rewrite !lookup_set_prop_other by assumption. reflexivity.
Qed.
(** ** The events of a run on the wire *)

Lemma event_types_app (a b : list Obs) :
  event_types (a ++ b) = (event_types a ++ event_types b)%list.
Proof.
  induction a as [|[ty p|u x|ms] a IH]; simpl; rewrite ?IH; reflexivity.
Qed.

Lemma known_error_event (wf : bool) (pc : Z) (body : JsValue) :
  forallb known_event (event_types (error_event wf pc body)) = true.
Proof.
  unfold error_event.
  destruct (isError (analysis_of body)); destruct wf; reflexivity.
Qed.

Section Vocabulary.

Variable remote : nat -> FetchResult.
Variable clock : nat -> Z.

Lemma loop_run_event_types (startTime : Z) (s s' : PollState) (t : list Obs)
    (c : Completion unit) :
  loop_run remote clock startTime s t c s' ->
  forallb known_event (event_types t) = true.
Proof.
  induction 1 as [s e Hc|s Hc|s Hc Hb|s e Hc Hb|s t c s' Hc Hb Hr IH].
  1,2: reflexivity.
  1,2: pass_cases remote clock startTime s; cbn [out completion] in *;
       try discriminate; reflexivity.
  rewrite event_types_app, forallb_app, IH, andb_true_r. clear IH Hr.
  pass_cases remote clock startTime s; cbn [out completion] in *;
    try discriminate;
    rewrite ?event_types_app, ?forallb_app, ?known_error_event;
    reflexivity.
Qed.

Lemma run_event_types (url : JsValue) (r : Run PollResult) :
  pollWorkflow remote clock url = Some r ->
  forallb known_event (event_types (out r)) = true.
Proof.
  intros H. apply pollWorkflow_cases in H as (t & c & s' & Hr & H).
  apply loop_run_event_types in Hr.
  destruct H as [(_ & _ & ->)|(e & _ & ->)]; cbn [out]; [|exact Hr].
  rewrite event_types_app, forallb_app, Hr. reflexivity.
Qed.

(** The events of a run of the engine are of eight types only:
    [step], [n8n_error_detected], [error_persisting], [update],
    [workflow_completed], [polling_error], [too_many_errors] and
    [polling_ended]. *)
Theorem events_of_a_run (url : JsValue) (r : Run PollResult) :
  pollWorkflow remote clock url = Some r ->
  forallb known_event (event_types (out r)) = true.
Proof.
  intros H. apply pollWorkflow_cases in H as (t & c & s' & Hr & H).
  apply loop_run_event_types in Hr.
  destruct H as [(_ & _ & ->)|(e & _ & ->)]; cbn [out]; [|exact Hr].
  rewrite event_types_app, forallb_app, Hr. reflexivity.
Qed.

End Vocabulary.

Lemma events_of_a_run_witness :
  exists r,
    pollWorkflow w_remote w_clock w_url = Some r
    /\ forallb known_event (event_types (out r)) = true.
Proof.
  destruct (pollWorkflow_total w_remote w_clock w_url) as [r Hr].
  exists r. split; [exact Hr|].
  apply (events_of_a_run w_remote w_clock w_url r Hr).
Defined.

Lemma known_event_no_c0 (ty : string) :
  known_event ty = true -> no_c0 ty = true.
Proof.
  unfold known_event, polling_events. cbn [existsb].
  intros H. repeat (apply orb_prop in H as [H|H]);
    try (apply String.eqb_eq in H; subst ty; reflexivity).
  discriminate H.
Qed.

Lemma frame_line_feeds (requestId : JsValue) (timestamp eventType : string)
    (data : JsValue) :
  no_c0 eventType = true ->
  occurrences LF (String.concat "" (sse_writes requestId timestamp eventType data))
  = 3%nat.
Proof.
  intros Hty.
  destruct (event_data_line requestId timestamp data) as (line & E & C).
  unfold sse_writes. rewrite E. cbn [String.concat interpolate].
  rewrite !occurrences_append.
  rewrite (no_c0_occurrences LF eventType), (no_c0_occurrences LF line)
    by (reflexivity || assumption).
  reflexivity.
Qed.

Lemma concat_cons (x : string) (l : list string) :
  String.concat "" (x :: l) = x ++ String.concat "" l.
Proof.
  destruct l as [|y l]; [|reflexivity].
  simpl. rewrite append_nil_r. reflexivity.
Qed.

Lemma concat_app (a b : list string) :
  String.concat "" (a ++ b) = String.concat "" a ++ String.concat "" b.
Proof.
  induction a as [|x a IH]; [reflexivity|].
  rewrite <- app_comm_cons, !concat_cons, IH, append_assoc. reflexivity.
Qed.

Lemma stream_line_feeds (requestId : JsValue) (stamps : nat -> string)
    (t : list Obs) :
  forall k,
    forallb known_event (event_types t) = true ->
    occurrences LF (String.concat "" (sse_stream requestId stamps k t))
    = (3 * List.length (event_types t))%nat.
Proof.
  induction t as [|[ty p|u x|ms] t IH]; intros k H; cbn [sse_stream event_types];
    [reflexivity | | apply IH; exact H | apply IH; exact H].
  cbn [event_types forallb] in H. apply andb_prop in H as [Hty H].
  rewrite concat_app, occurrences_append, (IH _ H),
    (frame_line_feeds _ _ _ _ (known_event_no_c0 _ Hty)).
  cbn [List.length]. lia.
Qed.

(** On the wire every event of a run takes three lines: the line of
    its type, the line of its data and the empty line that ends it.  The
    stream of a run holds three line feeds for each of its events, whatever
    the polled documents contain, so that the client finds as many events
    as were sent. *)
Theorem one_frame_per_event (remote : nat -> FetchResult) (clock : nat -> Z)
    (url : JsValue) (r : Run PollResult) (requestId : JsValue)
    (stamps : nat -> string) :
  pollWorkflow remote clock url = Some r ->
  occurrences LF (String.concat "" (sse_stream requestId stamps 0 (out r)))
  = (3 * List.length (event_types (out r)))%nat.
Proof.
  intros H. apply stream_line_feeds.
  exact (run_event_types remote clock url r H).
Qed.

Lemma one_frame_per_event_witness :
  exists r,
    pollWorkflow w_remote w_clock w_url = Some r
    /\ occurrences LF
         (String.concat ""
            (sse_stream (JStr "req_1") (fun _ => "2025-01-01T00:00:00.000Z")
                        0 (out r)))
       = (3 * List.length (event_types (out r)))%nat.
Proof.
  destruct (pollWorkflow_total w_remote w_clock w_url) as [r Hr].
  exists r. split; [exact Hr|].
  apply (one_frame_per_event w_remote w_clock w_url r _ _ Hr).
Defined.
(** ** The job launchers *)

Lemma numeric_uint (d : Decimal.uint) :
  numeric (NilEmpty.string_of_uint d) = true.
Proof. induction d; simpl; auto. Qed.

Lemma numeric_show (n : Z) : numeric (show n) = true.
Proof.
  unfold show, NilZero.string_of_int, NilZero.string_of_uint.
  destruct (Z.to_int n) as [d|d]; destruct d;
    cbn [numeric digit_or_minus]; rewrite ?numeric_uint; try reflexivity;
    simpl; rewrite ?numeric_uint; reflexivity.
Qed.

(** A name that is no index is no property of an array or of a string. *)
Lemma lookup_indexed (k : string) (items : list JsValue) :
  numeric k = false ->
  forall i, lookup k (indexed i items) = JUndefined.
Proof.
  intros Hk. induction items as [|x items IH]; intros i; [reflexivity|].
  cbn [indexed lookup].
  destruct (String.eqb_spec k (show (Z.of_nat i))) as [E|_]; [|apply IH].
  rewrite E, numeric_show in Hk. discriminate Hk.
Qed.

Lemma lookup_own_props (k : string) (v : JsValue) :
  numeric k = false -> lookup k (own_props v) = field k v.
Proof.
  intros Hk. destruct v; try reflexivity; apply lookup_indexed; exact Hk.
Qed.

Lemma is_true_value_truthy (v : JsValue) :
  is_true_value v = true -> truthy v = true.
Proof. destruct v as [| |[|]| | | |]; simpl; intros H; discriminate || reflexivity. Qed.

Lemma to_string_number (n : Z) : to_string (JNum n) = Normal (show n).
Proof. reflexivity. Qed.

(** The final event for the document [pollWorkflow] returns. *)
Lemma final_event_of_result (d : JsValue) (wf : bool) (reason : string)
    (pc total : Z) :
  let res := mkResult d (meta_block (prop finished d) wf reason pc total) in
  exists p,
    final_event (result_value res)
    = Normal (Sent (if truthy (prop finished d) && negb wf then "completed"
                    else if truthy (prop finished d) && wf
                         then "completed_with_errors"
                    else "interrupted") p)
    /\ field "result" p = result_value res
    /\ (truthy (prop finished d) && negb wf = false ->
        field "reason" p = JStr reason).
Proof.
  intros res. unfold final_event, result_value. subst res.
  cbn [spread meta member and_also].
  rewrite !lookup_set_prop.
  rewrite lookup_set_prop_other by reflexivity.
  rewrite lookup_own_props by reflexivity.
  change (field "finished" d) with (prop finished d).
  set (m := meta_block (prop finished d) wf reason pc total).
  set (R := JObj (set_prop "_meta" m (own_props d))).
  change (opt_member "success" m) with (JBool (is_true_value (prop finished d))).
  change (opt_member "failed" m) with (JBool wf).
  change (opt_member "reason" m) with (JStr reason).
  change (opt_member "totalTime" m) with (JNum (round_div total 1000)).
  change (total_time m)
    with (Normal (show (round_div total 1000) ++ "s ("
                    ++ show (round_div total 60000) ++ "min)")).
  unfold or_else. cbn [truthy].
  pose proof (is_true_value_truthy (prop finished d)) as Ht.
  destruct (is_true_value (prop finished d)); cbn [and_also truthy].
  - rewrite Ht by reflexivity.
    destruct wf; cbn [andb negb and_also truthy]; eexists;
      (split; [reflexivity|]); split; try reflexivity;
      intros H; try discriminate H; reflexivity.
  - destruct (truthy (prop finished d)); destruct wf;
      cbn [andb negb and_also truthy];
      try (destruct (negb (round_div total 1000 =? 0)); cbn [and_also]);
      eexists; (split; [reflexivity|]); split; try reflexivity;
      intros H; try discriminate H; reflexivity.
Qed.

Lemma final_event_types (data : JsValue) (ev : Obs) :
  final_event data = Normal ev ->
  exists ty p,
    ev = Sent ty p
    /\ (ty = "completed" \/ ty = "completed_with_errors"
        \/ ty = "interrupted").
Proof.
  unfold final_event.
  destruct (member "_meta" data) as [m|e]; cbn [and_also]; [|discriminate].
  destruct (or_else (opt_member "success" m) (member "finished" data))
    as [success|e]; cbn [and_also]; [|discriminate].
  destruct (truthy success && negb _).
  - destruct (total_time m); cbn [and_also]; intros H; [|discriminate H].
    injection H as <-. eauto.
  - destruct (truthy success && truthy _).
    + destruct (total_time m); cbn [and_also]; intros H; [|discriminate H].
      injection H as <-. eexists _, _. eauto.
    + destruct (if truthy (opt_member "totalTime" m) then total_time m
                else Normal "N/A");
        cbn [and_also]; intros H; [|discriminate H].
      injection H as <-. eexists _, _. eauto.
Qed.

Lemma in_progress_engine (t : list Obs) :
  forallb known_event (event_types t) = true ->
  forallb in_progress (map Did t) = true.
Proof.
  induction t as [|[ty p|u x|ms] t IH]; cbn [event_types map forallb];
    intros H; auto.
  apply andb_prop in H as [Hty H]. rewrite (IH H), andb_true_r.
  unfold known_event, polling_events in Hty. cbn [existsb] in Hty.
  cbn [in_progress].
  repeat (apply orb_prop in Hty as [Hty|Hty]);
    try (apply String.eqb_eq in Hty; subst ty; reflexivity).
  discriminate Hty.
Qed.

Section LauncherFacts.

Variable trigger : Completion (Z * JsValue).
Variable remote : nat -> FetchResult.
Variable clock : nat -> Z.

(** Whatever the trigger request, the remote engine and the clock
    do, [/webhook/enrichir/contacte] ends the response, once and as the last
    thing it does, right after one final event: [completed],
    [completed_with_errors], [interrupted] or [error]; nothing it did
    before is a final event, and it counts an error exactly when the final
    event is [error]. *)
Theorem enrichir_always_concludes (id : JsValue) :
  exists before ty p n,
    enrichir_contacte trigger remote clock id
    = Some (mkHandled (before ++ [Did (Sent ty p); Ended]) n)
    /\ existsb (String.eqb ty) final_events = true
    /\ forallb in_progress before = true
    /\ n = (if (ty =? "error")%string then 1 else 0).
Proof.
  unfold enrichir_contacte. cbv zeta.
  assert (forall before data,
             forallb in_progress before = true ->
             exists before' ty p n,
               match final_event data with
               | Normal ev => mkHandled (before ++ [Did ev; Ended]) 0
               | Throw e => enrichir_failed before e
               end = mkHandled (before' ++ [Did (Sent ty p); Ended]) n
               /\ existsb (String.eqb ty) final_events = true
               /\ forallb in_progress before' = true
               /\ n = (if (ty =? "error")%string then 1 else 0)) as Hc.
  { intros before data Hb.
    destruct (final_event data) as [ev|e] eqn:E.
    - apply final_event_types in E as (ty & p & -> & [ -> | [ -> | -> ] ]);
        eexists _, _, _, _; (split; [reflexivity|]); auto.
    - unfold enrichir_failed. eexists _, _, _, _.
      split; [reflexivity|]. auto. }
  destruct trigger as [[status data]|e].
  2:{ unfold enrichir_failed. eexists _, _, _, _.
      split; [reflexivity|]. auto. }
  destruct (get executionUrl data) as [u|e].
  2:{ unfold enrichir_failed. eexists _, _, _, _.
      split; [reflexivity|]. auto. }
  destruct (truthy u).
  2:{ edestruct Hc as (before' & ty & p & n & E & H);
        [|rewrite E; eexists _, _, _, _; split; [reflexivity|exact H]].
      reflexivity. }
  destruct (pollWorkflow_total remote (later clock) u) as [r Hr].
  pose proof (run_event_types _ _ _ _ Hr) as Hk.
  apply in_progress_engine in Hk.
  rewrite Hr. destruct r as [o [res|e] s]; cbn [out] in Hk.
  - edestruct Hc as (before' & ty & p & n & E & H);
      [|rewrite E; eexists _, _, _, _; split; [reflexivity|exact H]].
    rewrite forallb_app, Hk. reflexivity.
  - unfold enrichir_failed. eexists _, _, _, _.
    split; [reflexivity|]. rewrite forallb_app, Hk. auto.
Qed.

End LauncherFacts.

Section EngineDown.

Variable remote : nat -> FetchResult.
Variable clock : nat -> Z.

Hypothesis down : forall q, rejected (remote q) = true.

(** The loop when no request is answered. *)
Lemma loop_run_down (startTime : Z) (s s' : PollState) (t : list Obs)
    (c : Completion unit) :
  loop_run remote clock startTime s t c s' ->
  nullish (data s) = false ->
  truthy (prop executionUrl (data s)) = true ->
  typeof (prop executionUrl (data s)) = "string" ->
  truthy (prop finished (data s)) = false ->
  0 <= consecutiveErrors s <= 10 ->
  pollCount s + (10 - consecutiveErrors s) < maxPolls ->
  c = Normal tt
  /\ count_fetches t = Z.to_nat (10 - consecutiveErrors s)
  /\ slept t = 15000 * (10 - consecutiveErrors s)
  /\ data s' = data s
  /\ consecutiveErrors s' = 10
  /\ workflowFailed s' = workflowFailed s
  /\ pollCount s' = pollCount s + (10 - consecutiveErrors s) + 1.
Proof.
  induction 1 as [s e Hc|s Hc|s Hc Hb|s e Hc Hb|s t c s' Hc Hb Hr IH];
    intros Hn Hu Ht Hf Hce Hpc.
  - rewrite (loop_condition_defined s Hn) in Hc. discriminate.
  - rewrite (loop_condition_defined s Hn) in Hc. injection Hc as Hc.
    unfold continues in Hc. rewrite Hu, Hf in Hc. simpl in Hc.
    apply Z.ltb_ge in Hc. unfold maxPolls in *. lia.
  - pass_cases remote clock startTime s; cbn [out completion state] in *;
      try discriminate.
    unfold maxConsecutiveErrors in *. fields.
    assert (consecutiveErrors s = 10) as E by lia. rewrite E.
    repeat split; try reflexivity; lia.
  - exfalso.
    pass_cases remote clock startTime s; cbn [out completion state] in *;
      try discriminate.
    + apply get_throw_nullish in H0. congruence.
    + apply settle_not_rejected in H2. rewrite down in H2. discriminate H2.
  - pass_cases remote clock startTime s; cbn [out completion state] in *;
      try discriminate;
      try (exfalso; apply settle_not_rejected in H2; rewrite down in H2;
           discriminate H2).
    + exfalso. apply get_normal_defined in H0 as [_ ->].
      destruct (url_path_of_string _ Ht) as [path E]. congruence.
    + unfold maxConsecutiveErrors in *. fields.
      destruct IH as (-> & F & Sl & D & C & W & N);
        [assumption .. | lia | lia |].
      rewrite count_fetches_app, slept_app, F, Sl.
      split; [reflexivity|].
      split; [change (count_fetches [Sent "step" ?a; Fetched ?b ?c;
                                     Sent "polling_error" ?d; Slept 15000])
                with 1%nat; lia|].
      split; [cbn [slept]; lia|].
      split; [exact D|]. split; [exact C|]. split; [exact W|]. lia.
Qed.

(** When no request is answered the engine makes ten requests, 15 s
    apart, and returns the initial document with the reason
    [too_many_network_errors]. *)
Lemma run_down (u : string) (r : Run PollResult) :
  u <> "" ->
  pollWorkflow remote clock (JStr u) = Some r ->
  count_fetches (out r) = 10%nat
  /\ slept (out r) = 150000
  /\ exists total,
       completion r
       = Normal (mkResult
                   (JObj [("executionUrl", JStr u); ("finished", JBool false)])
                   (meta_block (JBool false) false "too_many_network_errors"
                               11 total)).
Proof.
  intros Hu H. apply pollWorkflow_cases in H as (t & c & s' & Hr & H).
  apply loop_run_down in Hr as (-> & F & Sl & D & C & W & N);
    try reflexivity; [| |cbn; lia].
  2:{ cbn. apply negb_true_iff, String.eqb_neq. exact Hu. }
  destruct H as [(_ & _ & ->)|(e & He & _)]; [|discriminate He].
  destruct s' as [d pc ce wf rq rd]. cbn in D, C, W, N. subst.
  unfold summary. cbn [out completion data pollCount consecutiveErrors
                         workflowFailed readings].
  rewrite count_fetches_app, slept_app, F, Sl.
  split; [reflexivity|]. split; [reflexivity|].
  eexists. reflexivity.
Qed.

End EngineDown.

Lemma count_fetches_map_did (t : list Obs) :
  List.length (filter (fun a => match a with
                                | Did (Fetched _ _) => true
                                | _ => false
                                end) (map Did t))
  = count_fetches t.
Proof.
  unfold count_fetches.
  induction t as [|[ty p|u x|ms] t IH]; simpl; rewrite ?IH; reflexivity.
Qed.

Section LauncherOutcomes.

Variable trigger : Completion (Z * JsValue).
Variable remote : nat -> FetchResult.
Variable clock : nat -> Z.

(** When the trigger response names a status URL,
    [/webhook/enrichir/contacte] polls it and its final event tells how the
    polling ended: [completed] for the reason [completed],
    [completed_with_errors] for [completed_with_errors], [interrupted] for
    the three other reasons, with the document returned by the engine as its
    [result]; when the engine rejects, the final event is [error], with the
    message of the exception, and one error is counted. *)
Theorem enrichir_reports_polling_outcome (id : JsValue) (status : Z)
    (body u : JsValue) (r : Run PollResult) :
  trigger = Normal (status, body) ->
  get executionUrl body = Normal u ->
  truthy u = true ->
  pollWorkflow remote (later clock) u = Some r ->
  exists before ty p n,
    enrichir_contacte trigger remote clock id
    = Some (mkHandled (before ++ map Did (out r) ++ [Did (Sent ty p); Ended])
                      n)
    /\ match completion r with
       | Normal res =>
           exists reason,
             field "reason" (meta res) = JStr reason
             /\ ty = (if (reason =? "completed")%string then "completed"
                      else if (reason =? "completed_with_errors")%string
                           then "completed_with_errors"
                      else "interrupted")
             /\ field "result" p = result_value res
             /\ field "_meta" (result_value res) = meta res
             /\ (ty <> "completed" -> field "reason" p = JStr reason)
             /\ n = 0
       | Throw e =>
           ty = "error" /\ field "error" p = JStr (error_message e) /\ n = 1
       end.
Proof.
  intros Ht Hg Hu Hr. unfold enrichir_contacte. cbv zeta.
  rewrite Ht, Hg, Hu, Hr.
  pose proof Hr as Hc.
  apply pollWorkflow_cases in Hc as (t & c & s' & _ & Hc).
  destruct r as [o cr sr]. cbn [out completion].
  destruct Hc as [(_ & _ & Hc)|(e & _ & Hc)]; injection Hc as -> -> ->.
  - unfold summary. cbn [completion out state]. cbv iota.
    set (fin := prop finished (data s')).
    set (wf := workflowFailed s').
    set (ends := end_reason fin wf (pollCount s') (consecutiveErrors s')).
    destruct (final_event_of_result (data s') wf (fst ends) (pollCount s')
                (later clock (readings s') - later clock 0))
      as (p & E & R & Q).
    fold fin in E, Q. cbv zeta in E. rewrite E.
    rewrite <- app_assoc.
    eexists _, _, p, 0. split; [reflexivity|].
    exists (fst ends). split; [reflexivity|].
    assert ((if truthy fin && negb wf then "completed"
             else if truthy fin && wf then "completed_with_errors"
                  else "interrupted")
            = (if (fst ends =? "completed")%string then "completed"
               else if (fst ends =? "completed_with_errors")%string
                    then "completed_with_errors"
                    else "interrupted")) as Ety.
    { subst ends. unfold end_reason.
      destruct (truthy fin); destruct wf; cbn [andb negb fst];
        try reflexivity;
        destruct (maxPolls <=? pollCount s');
        destruct (maxConsecutiveErrors <=? consecutiveErrors s');
        reflexivity. }
    split; [exact Ety|]. split; [exact R|].
    split; [unfold result_value, field; cbn [meta]; apply lookup_set_prop|].
    split; [|reflexivity].
    intros N. apply Q.
    destruct (truthy fin && negb wf); [|reflexivity].
    contradiction N. reflexivity.
  - unfold enrichir_failed. rewrite <- app_assoc.
    eexists _, _, _, _. split; [reflexivity|]. repeat split.
Qed.

(** [/webhook/generer/messages] does not look at how the polling
    ended.  When the remote engine answers none of the status requests, the
    engine gives up after ten requests and returns a document marked
    [success: false] with the reason [too_many_network_errors]; the
    launcher then sends [completed], with the message of success, and
    counts no error. *)
Theorem generer_completed_when_engine_is_down (id mode : JsValue)
    (status : Z) (data : JsValue) (u : string) :
  trigger = Normal (status, data) ->
  get executionUrl data = Normal (JStr u) ->
  u <> "" ->
  (forall q, rejected (remote q) = true) ->
  exists before p result,
    generer_messages trigger remote clock id mode
    = Some (mkHandled (before ++ [Did (Sent "completed" p); Ended]) 0)
    /\ List.length (filter (fun a => match a with
                                     | Did (Fetched _ _) => true
                                     | _ => false
                                     end) before) = 10%nat
    /\ field "message" p = JStr "Messages générés avec succès"
    /\ field "result" p = result
    /\ field "success" (field "_meta" result) = JBool false
    /\ field "reason" (field "_meta" result) = JStr "too_many_network_errors".
Proof.
  intros Ht Hg Hu Hd. unfold generer_messages. cbv zeta.
  rewrite Ht, Hg.
  apply get_normal_defined in Hg as [Hn _].
  rewrite (stringify_length_defined _ Hn).
  assert (truthy (JStr u) = true) as ->.
  { cbn. apply negb_true_iff, String.eqb_neq. exact Hu. }
  destruct (pollWorkflow_total remote (later clock) (JStr u)) as [r Hr].
  rewrite Hr.
  destruct (run_down remote (later clock) Hd u r Hu Hr)
    as (F & _ & total & C).
  destruct r as [o c s]. cbn [out completion] in *. subst c.
  eexists _, _,
    (result_value
       (mkResult (JObj [("executionUrl", JStr u); ("finished", JBool false)])
          (meta_block (JBool false) false "too_many_network_errors" 11
                      total))).
  split; [reflexivity|].
  split.
  { rewrite !filter_app, !length_app, count_fetches_map_did, F.
    reflexivity. }
  split; [reflexivity|]. split; [reflexivity|].
  split; reflexivity.
Qed.

End LauncherOutcomes.

Lemma enrichir_reports_polling_outcome_witness :
  exists r before ty p n,
    pollWorkflow w_remote (later w_clock) w_url = Some r
    /\ enrichir_contacte (Normal (200, JObj [("executionUrl", w_url)]))
         w_remote w_clock (JStr "42")
       = Some (mkHandled
                 (before ++ map Did (out r) ++ [Did (Sent ty p); Ended]) n).
Proof.
  destruct (pollWorkflow_total w_remote (later w_clock) w_url) as [r Hr].
  destruct (enrichir_reports_polling_outcome
              (Normal (200, JObj [("executionUrl", w_url)]))
              w_remote w_clock (JStr "42") 200
              (JObj [("executionUrl", w_url)]) w_url r
              eq_refl eq_refl eq_refl Hr)
    as (before & ty & p & n & E & _).
  exists r, before, ty, p, n. split; assumption.
Defined.

Lemma generer_completed_when_engine_is_down_witness :
  exists before p,
    generer_messages
      (Normal (200, JObj [("executionUrl", JStr "https://n8n.example/run/7")]))
      (fun _ => Failure "connect ECONNREFUSED" (JStr "ECONNREFUSED"))
      w_clock (JStr "42") JUndefined
    = Some (mkHandled (before ++ [Did (Sent "completed" p); Ended]) 0).
Proof.
  destruct (generer_completed_when_engine_is_down
              (Normal (200, JObj [("executionUrl",
                                   JStr "https://n8n.example/run/7")]))
              (fun _ => Failure "connect ECONNREFUSED" (JStr "ECONNREFUSED"))
              w_clock (JStr "42") JUndefined 200
              (JObj [("executionUrl", JStr "https://n8n.example/run/7")])
              "https://n8n.example/run/7" eq_refl eq_refl)
    as (before & p & result & E & _).
  - discriminate.
  - reflexivity.
  - exists before, p. exact E.
Defined.

Section LauncherWithoutUrl.

Variable trigger : Completion (Z * JsValue).
Variable remote : nat -> FetchResult.
Variable clock : nat -> Z.

(** When the trigger response is an object that names no status URL and
    has no [_meta], [/webhook/enrichir/contacte] makes no status request
    and decides on the [finished] of the response alone: truthy, the final
    event is [completed], whose [totalTime] is the text made of two
    [undefined]; otherwise it is [interrupted], without a reason and with
    the [totalTime] [N/A]. *)
Theorem enrichir_without_status_url (id : JsValue) (status : Z)
    (props : list (string * JsValue)) :
  trigger = Normal (status, JObj props) ->
  truthy (lookup "executionUrl" props) = false ->
  lookup "_meta" props = JUndefined ->
  exists started progress p,
    enrichir_contacte trigger remote clock id
    = Some (mkHandled
              [Did (Sent "start" started);
               Posted "https://n8n.srv903010.hstgr.cloud/webhook/enrichir/contacte"
                      (JObj [("id", id)]) trigger;
               Did (Sent "progress" progress);
               Did (Sent (if truthy (lookup "finished" props)
                          then "completed" else "interrupted") p);
               Ended]
              0)
    /\ field "data" progress = JObj props
    /\ field "result" p = JObj props
    /\ field "success" p = JBool (truthy (lookup "finished" props))
    /\ field "totalTime" p
       = JStr (if truthy (lookup "finished" props)
               then "undefineds (undefinedmin)" else "N/A")
    /\ field "reason" p = JUndefined.
Proof.
  intros Ht Hu Hm. unfold enrichir_contacte. cbv zeta.
  change (get executionUrl (JObj props))
    with (Normal (lookup "executionUrl" props)).
  rewrite Ht.
  change (get executionUrl (JObj props))
    with (Normal (lookup "executionUrl" props)).
  cbv iota beta. rewrite Hu.
  unfold final_event. cbn [member and_also]. rewrite Hm.
  cbn [opt_member truthy or_else and_also andb negb].
  unfold or_else. cbn [truthy and_also].
  destruct (truthy (lookup "finished" props));
    cbn [andb negb and_also total_time opt_member to_string];
    eexists _, _, _; (split; [reflexivity|]); repeat split.
Qed.

End LauncherWithoutUrl.

Lemma enrichir_without_status_url_witness :
  exists acts,
    enrichir_contacte (Normal (200, JObj [("finished", JBool true)]))
                      w_remote w_clock (JStr "42")
    = Some (mkHandled acts 0)
    /\ List.length acts = 5%nat.
Proof.
  destruct (enrichir_without_status_url
              (Normal (200, JObj [("finished", JBool true)]))
              w_remote w_clock (JStr "42") 200 [("finished", JBool true)]
              eq_refl eq_refl eq_refl)
    as (started & progress & p & E & _).
  eexists. split; [exact E | reflexivity].
Defined.
(** ** The monitoring counters *)

Lemma map_has_In (k : string) (m : list (string * Z)) :
  map_has k m = true <-> In k (map fst m).
Proof.
  induction m as [|[k' v'] m IH]; simpl; [intuition discriminate|].
  rewrite orb_true_iff, IH, String.eqb_eq. split; intros [H|H]; auto.
Qed.

Lemma map_delete_notin (k : string) (v : Z) (kept rest : list (string * Z)) :
  ~ In k (map fst kept) ->
  map_delete k (kept ++ (k, v) :: rest) = (kept ++ rest)%list.
Proof.
  induction kept as [|[k' v'] kept IH]; simpl; intros N.
  - rewrite String.eqb_refl. reflexivity.
  - destruct (String.eqb_spec k k') as [E|_]; [subst; tauto|].
    rewrite IH by tauto. reflexivity.
Qed.

Lemma filter_young_keys (now : Z) (m : list (string * Z)) (k : string) :
  In k (map fst (filter (young now) m)) -> In k (map fst m).
Proof.
  rewrite !in_map_iff. intros ((k', v) & E & H).
  apply filter_In in H as [H _]. eauto.
Qed.

Lemma max_zero_step (a n : Z) :
  0 <= n ->
  Z.max 0 ((if n =? 0 then a else Z.max 0 (a - n)) - 1) = Z.max 0 (a - (n + 1)).
Proof. intros Hn. destruct (Z.eqb_spec n 0); lia. Qed.

(** The loop, from a map whose entries visited so far are [kept]. *)
Lemma cleanup_loop_spec (now : Z) (entries : list (string * Z)) :
  forall kept st n,
    connectionStartTimes st = (kept ++ entries)%list ->
    NoDup (map fst (kept ++ entries)) ->
    0 <= n ->
    let st' := fst (cleanup_loop now entries st n) in
    let cleaned := snd (cleanup_loop now entries st n) in
    connectionStartTimes st' = (kept ++ filter (young now) entries)%list
    /\ cleaned
       = n + Z.of_nat (List.length entries)
           - Z.of_nat (List.length (filter (young now) entries))
    /\ activeConnections st'
       = (if cleaned - n =? 0 then activeConnections st
          else Z.max 0 (activeConnections st - (cleaned - n)))
    /\ totalRequests st' = totalRequests st
    /\ totalErrors st' = totalErrors st
    /\ requestsByEndpoint st' = requestsByEndpoint st.
Proof.
  induction entries as [|[k v] entries IH]; intros kept st n Hm Hd Hn;
    cbn [cleanup_loop filter].
  - cbn [fst snd List.length]. rewrite Z.sub_0_r, Z.add_0_r, Z.sub_diag.
    repeat split. exact Hm.
  - change (young now (k, v)) with (negb (maxAge <? now - v)).
    destruct (maxAge <? now - v) eqn:Eo; cbn [negb].
    + assert (~ In k (map fst kept)) as Nk.
      { rewrite map_app in Hd. apply NoDup_remove_2 in Hd.
        intros H. apply Hd. apply in_or_app. left. exact H. }
      assert (NoDup (map fst (kept ++ entries))) as Hd'.
      { rewrite map_app in *. apply NoDup_remove_1 in Hd. exact Hd. }
      rewrite Hm, (map_delete_notin k v kept entries Nk).
      specialize (IH kept
                    (mkStats (Z.max 0 (activeConnections st - 1))
                       (totalRequests st) (totalErrors st)
                       (requestsByEndpoint st)
                       (kept ++ entries)%list)
                    (n + 1)).
      cbn [connectionStartTimes activeConnections totalRequests totalErrors
             requestsByEndpoint] in IH.
      destruct (IH eq_refl Hd' ltac:(lia)) as (A & B & C & D & E & F).
      split; [exact A|]. split; [cbn [List.length]; lia|].
      split; [|auto].
      rewrite C, B. cbn [List.length].
      pose proof (filter_length_le (young now) entries) as L.
      destruct (Z.eqb_spec
                  (n + 1 + Z.of_nat (List.length entries)
                   - Z.of_nat (List.length (filter (young now) entries))
                   - (n + 1)) 0) as [Z0|Z0];
      destruct (Z.eqb_spec
                  (n + 1 + Z.of_nat (List.length entries)
                   - Z.of_nat (List.length (filter (young now) entries))
                   - n) 0) as [Z1|Z1]; lia.
    + assert (kept ++ (k, v) :: entries = (kept ++ [(k, v)]) ++ entries)%list
        as Ea by (rewrite <- app_assoc; reflexivity).
      rewrite Ea in Hm, Hd.
      destruct (IH (kept ++ [(k, v)])%list st n Hm Hd Hn)
        as (A & B & C & D & E & F).
      split; [rewrite A, <- app_assoc; reflexivity|].
      split; [cbn [List.length]; lia|].
      split; [|auto]. exact C.
Qed.

(** The cleaning of [/debug/cleanup] removes from the map of the
    start times exactly the connections that are more than five minutes
    old, and keeps the others in their order; the number it reports is the
    number of connections removed; [activeConnections] goes down by this
    number but not below zero, and the other counters are left alone. *)
Theorem cleanup_drops_old_connections (now : Z) (st : Stats) :
  NoDup (map fst (connectionStartTimes st)) ->
  let st' := fst (cleanup now st) in
  let cleaned := snd (cleanup now st) in
  connectionStartTimes st' = filter (young now) (connectionStartTimes st)
  /\ cleaned
     = Z.of_nat (List.length (connectionStartTimes st))
       - Z.of_nat (List.length (connectionStartTimes st'))
  /\ activeConnections st'
     = (if cleaned =? 0 then activeConnections st
        else Z.max 0 (activeConnections st - cleaned))
  /\ totalRequests st' = totalRequests st
  /\ totalErrors st' = totalErrors st
  /\ requestsByEndpoint st' = requestsByEndpoint st.
Proof.
  intros Hd. unfold cleanup.
  destruct (cleanup_loop_spec now (connectionStartTimes st) [] st 0
              eq_refl Hd ltac:(lia)) as (A & B & C & D).
  cbv zeta. rewrite Z.sub_0_r in C. cbn [app] in A.
  split; [exact A|]. split; [rewrite A; lia|]. split; [exact C|exact D].
Qed.

Lemma cleanup_drops_old_connections_witness :
  connectionStartTimes
    (fst (cleanup 400000
            (mkStats 2 2 0 [("/health", 2)] [("req_a", 1000); ("req_b", 350000)])))
  = [("req_b", 350000)].
Proof.
  apply (cleanup_drops_old_connections 400000
           (mkStats 2 2 0 [("/health", 2)] [("req_a", 1000); ("req_b", 350000)])).
  repeat constructor; simpl; intuition discriminate.
Defined.

Lemma sum_counts_bump (path : string) (counts : list (string * Z)) :
  sum_counts (bump path counts) = sum_counts counts + 1.
Proof.
  induction counts as [|[p n] counts IH]; [reflexivity|].
  cbn [bump]. destruct (path =? p)%string.
  - unfold sum_counts. cbn [fold_right snd].
    destruct (Z.eqb_spec n 0); lia.
  - unfold sum_counts in *. cbn [fold_right snd]. rewrite IH. lia.
Qed.

Lemma cleanup_loop_counters (now : Z) (entries : list (string * Z)) :
  forall st n,
    totalRequests (fst (cleanup_loop now entries st n)) = totalRequests st
    /\ totalErrors (fst (cleanup_loop now entries st n)) = totalErrors st
    /\ requestsByEndpoint (fst (cleanup_loop now entries st n))
       = requestsByEndpoint st.
Proof.
  induction entries as [|[k v] entries IH]; intros st n; cbn [cleanup_loop].
  - auto.
  - destruct (maxAge <? now - v); [|apply IH].
    destruct (IH (mkStats (Z.max 0 (activeConnections st - 1))
                    (totalRequests st) (totalErrors st)
                    (requestsByEndpoint st)
                    (map_delete k (connectionStartTimes st))) (n + 1))
      as (A & B & C).
    auto.
Qed.

Lemma fold_requests (ops : list Op) :
  forall st,
    totalRequests st = sum_counts (requestsByEndpoint st) ->
    let st' := fold_left apply_op ops st in
    totalRequests st' = sum_counts (requestsByEndpoint st')
    /\ totalRequests st'
       = totalRequests st + Z.of_nat (List.length (filter is_start ops)).
Proof.
  induction ops as [|op ops IH]; intros st Hst; cbn [fold_left filter].
  - cbn [List.length]. split; [exact Hst|lia].
  - destruct (IH (apply_op st op)) as [A B].
    + destruct op as [id path t0|id| |now]; cbn [apply_op];
        try exact Hst.
      * cbn [request_start totalRequests requestsByEndpoint].
        rewrite sum_counts_bump, Hst. reflexivity.
      * destruct (cleanup_loop_counters now (connectionStartTimes st) st 0)
          as (R & _ & C).
        unfold cleanup. rewrite R, C. exact Hst.
    + split; [exact A|]. rewrite B.
      destruct op as [id path t0|id| |now];
        cbn [apply_op is_start List.length request_start request_end
               request_failed totalRequests]; try lia.
      destruct (cleanup_loop_counters now (connectionStartTimes st) st 0)
        as (R & _ & _).
      unfold cleanup. rewrite R. lia.
Qed.

(** Whatever requests come in, end and fail, and whenever the
    cleaning runs, [totalRequests] is the number of requests that came in,
    and it is the sum of the counts of [requestsByEndpoint]. *)
Theorem request_counters_agree (ops : list Op) :
  totalRequests (run_ops ops) = Z.of_nat (List.length (filter is_start ops))
  /\ sum_counts (requestsByEndpoint (run_ops ops)) = totalRequests (run_ops ops).
Proof.
  destruct (fold_requests ops initial_stats eq_refl) as [A B].
  unfold run_ops. split; [exact B | symmetry; exact A].
Qed.

Lemma map_set_fresh (k : string) (v : Z) (m : list (string * Z)) :
  map_has k m = false -> map_set k v m = (m ++ [(k, v)])%list.
Proof.
  induction m as [|[k' v'] m IH]; cbn [map_has map_set app]; intros H;
    [reflexivity|].
  apply orb_false_elim in H as [H1 H2]. rewrite H1, (IH H2). reflexivity.
Qed.

Lemma map_delete_absent (k : string) (m : list (string * Z)) :
  map_has k m = false -> map_delete k m = m.
Proof.
  induction m as [|[k' v'] m IH]; cbn [map_has map_delete]; intros H;
    [reflexivity|].
  apply orb_false_elim in H as [H1 H2]. rewrite H1, (IH H2). reflexivity.
Qed.

Lemma map_delete_tracked (k : string) (m : list (string * Z)) :
  map_has k m = true ->
  NoDup (map fst m) ->
  S (List.length (map_delete k m)) = List.length m
  /\ NoDup (map fst (map_delete k m)).
Proof.
  induction m as [|[k' v'] m IH]; cbn [map_has map_delete]; intros H Hd;
    [discriminate H|].
  cbn [map fst] in Hd. apply NoDup_cons_iff in Hd as [Hn Hd].
  destruct (k =? k')%string eqn:E; cbn [orb] in H.
  - split; [reflexivity | exact Hd].
  - destruct (IH H Hd) as [A B]. cbn [List.length map fst].
    split; [rewrite A; reflexivity|].
    constructor; [|exact B].
    intros Hi. apply Hn. clear - Hi.
    induction m as [|[k0 v0] m IHm]; cbn [map_delete map fst] in *; [exact Hi|].
    destruct (k =? k0)%string; cbn [map fst] in *.
    + right. exact Hi.
    + destruct Hi as [Hi|Hi]; [left; exact Hi | right; apply IHm; exact Hi].
Qed.

Lemma NoDup_filter_keys (f : string * Z -> bool) (m : list (string * Z)) :
  NoDup (map fst m) -> NoDup (map fst (filter f m)).
Proof.
  induction m as [|[k v] m IH]; cbn [map fst filter]; intros Hd; [exact Hd|].
  apply NoDup_cons_iff in Hd as [Hn Hd].
  destruct (f (k, v)); [|exact (IH Hd)].
  cbn [map fst]. constructor; [|exact (IH Hd)].
  intros Hi. apply Hn. rewrite in_map_iff in *.
  destruct Hi as (e & E & Hi). apply filter_In in Hi as [Hi _]. eauto.
Qed.

(** The counters agree with the map: [activeConnections] is the number of
    its entries, which have different keys. *)
Lemma cleanup_consistent (now : Z) (st : Stats) :
  activeConnections st = Z.of_nat (List.length (connectionStartTimes st)) ->
  NoDup (map fst (connectionStartTimes st)) ->
  activeConnections (fst (cleanup now st))
  = Z.of_nat (List.length (connectionStartTimes (fst (cleanup now st))))
  /\ NoDup (map fst (connectionStartTimes (fst (cleanup now st)))).
Proof.
  intros Ha Hd.
  destruct (cleanup_loop_spec now (connectionStartTimes st) [] st 0
              eq_refl Hd ltac:(lia)) as (A & B & C & _).
  fold (cleanup now st) in A, B, C. cbn [app] in A.
  rewrite Z.sub_0_r in C. rewrite Z.add_0_l in B.
  pose proof (filter_length_le (young now) (connectionStartTimes st)) as L.
  split.
  - rewrite C, A, B, Ha.
    destruct (Z.eqb_spec
                (Z.of_nat (List.length (connectionStartTimes st))
                 - Z.of_nat
                     (List.length
                        (filter (young now) (connectionStartTimes st)))) 0);
      lia.
  - rewrite A. apply NoDup_filter_keys. exact Hd.
Qed.

Lemma fold_consistent (ops : list Op) :
  forall st,
    activeConnections st = Z.of_nat (List.length (connectionStartTimes st)) ->
    NoDup (map fst (connectionStartTimes st)) ->
    orderly st ops = true ->
    let st' := fold_left apply_op ops st in
    activeConnections st' = Z.of_nat (List.length (connectionStartTimes st'))
    /\ NoDup (map fst (connectionStartTimes st')).
Proof.
  induction ops as [|op ops IH]; intros st Ha Hd Ho; cbn [fold_left].
  - auto.
  - cbn [orderly] in Ho. apply andb_prop in Ho as [Hop Ho].
    apply IH; [| |exact Ho]; clear IH Ho;
      destruct op as [id path t0|id| |now]; cbn [apply_op];
      try assumption;
      try (apply cleanup_consistent; assumption).
    + apply negb_true_iff in Hop.
      cbn [request_start activeConnections connectionStartTimes].
      rewrite (map_set_fresh _ _ _ Hop), length_app, Ha. cbn [List.length]. lia.
    + cbn [request_end activeConnections connectionStartTimes].
      destruct (map_delete_tracked _ _ Hop Hd) as [L _]. lia.
    + apply negb_true_iff in Hop.
      cbn [request_start connectionStartTimes].
      rewrite (map_set_fresh _ _ _ Hop), map_app. cbn [map fst].
      apply NoDup_app; [exact Hd | repeat constructor; intros [] |].
      intros k Hk [<-|[]].
      apply map_has_In in Hk. congruence.
    + cbn [request_end connectionStartTimes].
      apply (map_delete_tracked _ _ Hop Hd).
Qed.

(** As long as every request has an identifier of its own and ends
    once, while it is tracked, [activeConnections] is the number of entries
    of the map of the start times, through the cleanings too. *)
Theorem active_connections_are_tracked (ops : list Op) :
  orderly initial_stats ops = true ->
  activeConnections (run_ops ops)
  = Z.of_nat (List.length (connectionStartTimes (run_ops ops))).
Proof.
  intros Ho.
  apply (fold_consistent ops initial_stats eq_refl (NoDup_nil _) Ho).
Qed.

Lemma active_connections_are_tracked_witness :
  activeConnections
    (run_ops [Start "req_a" "/health" 1000; Start "req_b" "/health" 2000;
              Cleanup 400000; Start "req_c" "/debug/stats" 400001;
              End_ "req_c"])
  = Z.of_nat
      (List.length
         (connectionStartTimes
            (run_ops [Start "req_a" "/health" 1000;
                      Start "req_b" "/health" 2000;
                      Cleanup 400000; Start "req_c" "/debug/stats" 400001;
                      End_ "req_c"]))).
Proof.
  apply (active_connections_are_tracked
           [Start "req_a" "/health" 1000; Start "req_b" "/health" 2000;
            Cleanup 400000; Start "req_c" "/debug/stats" 400001;
            End_ "req_c"]).
  reflexivity.
Defined.

Lemma old_entry_dropped (now : Z) (k : string) (m : list (string * Z)) :
  NoDup (map fst m) ->
  forall t0, In (k, t0) m -> maxAge < now - t0 ->
  map_has k (filter (young now) m) = false.
Proof.
  intros Hd t0 Hi Ho.
  destruct (map_has k (filter (young now) m)) eqn:E; [|reflexivity].
  apply map_has_In in E. rewrite in_map_iff in E.
  destruct E as ((k', t1) & Ek & Hf). cbn [fst] in Ek. subst k'.
  apply filter_In in Hf as [Hi' Hy].
  assert (t1 = t0) as ->.
  { clear - Hd Hi Hi'. induction m as [|[k0 v0] m IH]; [destruct Hi|].
    cbn [map fst] in Hd. apply NoDup_cons_iff in Hd as [Hn Hd].
    destruct Hi as [Hi|Hi]; destruct Hi' as [Hi'|Hi'].
    - congruence.
    - injection Hi as -> ->. exfalso. apply Hn.
      apply in_map_iff. exists (k, t1). auto.
    - injection Hi' as -> ->. exfalso. apply Hn.
      apply in_map_iff. exists (k, t0). auto.
    - apply IH; assumption. }
  unfold young in Hy. cbn [snd] in Hy.
  apply negb_true_iff, Z.ltb_ge in Hy. lia.
Qed.

(** A request that the cleaning has removed as too old is counted
    out a second time when it ends: from counters that agree with the map,
    once the cleaning has dropped the request and the request then ends,
    [activeConnections] is one less than the number of connections that are
    tracked. *)
Theorem cleaned_request_is_counted_twice (now : Z) (st : Stats)
    (requestId : string) (startTime : Z) :
  activeConnections st = Z.of_nat (List.length (connectionStartTimes st)) ->
  NoDup (map fst (connectionStartTimes st)) ->
  In (requestId, startTime) (connectionStartTimes st) ->
  maxAge < now - startTime ->
  let st' := request_end requestId (fst (cleanup now st)) in
  connectionStartTimes st' = filter (young now) (connectionStartTimes st)
  /\ activeConnections st'
     = Z.of_nat (List.length (connectionStartTimes st')) - 1.
Proof.
  intros Ha Hd Hi Ho.
  destruct (cleanup_consistent now st Ha Hd) as [C _].
  destruct (cleanup_loop_spec now (connectionStartTimes st) [] st 0
              eq_refl Hd ltac:(lia)) as (A & _).
  fold (cleanup now st) in A. cbn [app] in A.
  cbv zeta. cbn [request_end connectionStartTimes activeConnections].
  rewrite A in *.
  rewrite (map_delete_absent _ _ (old_entry_dropped now _ _ Hd _ Hi Ho)).
  split; [reflexivity|]. rewrite C. reflexivity.
Qed.

Lemma cleaned_request_is_counted_twice_witness :
  activeConnections
    (request_end "req_a"
       (fst (cleanup 400000 (mkStats 1 1 0 [("/health", 1)] [("req_a", 1000)]))))
  = -1.
Proof.
  apply (cleaned_request_is_counted_twice 400000
           (mkStats 1 1 0 [("/health", 1)] [("req_a", 1000)]) "req_a" 1000).
  - reflexivity.
  - repeat constructor. intros [].
  - left. reflexivity.
  - reflexivity.
Defined.

Lemma cleanup_loop_young (now : Z) (entries : list (string * Z)) :
  forall st n,
    forallb (young now) entries = true ->
    cleanup_loop now entries st n = (st, n).
Proof.
  induction entries as [|[k v] entries IH]; intros st n H; [reflexivity|].
  cbn [forallb] in H. apply andb_prop in H as [Hy H].
  unfold young in Hy. cbn [snd] in Hy. apply negb_true_iff in Hy.
  cbn [cleanup_loop]. rewrite Hy. apply IH. exact H.
Qed.

Lemma forallb_filter_same {A} (f : A -> bool) (l : list A) :
  forallb f (filter f l) = true.
Proof.
  induction l as [|x l IH]; [reflexivity|].
  cbn [filter]. destruct (f x) eqn:E; [|exact IH].
  cbn [forallb]. rewrite E, IH. reflexivity.
Qed.

(** Cleaning is idempotent: a second cleaning at the same time removes
    nothing, reports no connection cleaned and leaves every counter as the
    first cleaning left it. *)
Theorem cleanup_twice (now : Z) (st : Stats) :
  NoDup (map fst (connectionStartTimes st)) ->
  cleanup now (fst (cleanup now st)) = (fst (cleanup now st), 0).
Proof.
  intros Hd.
  destruct (cleanup_loop_spec now (connectionStartTimes st) [] st 0
              eq_refl Hd ltac:(lia)) as (A & _).
  fold (cleanup now st) in A. cbn [app] in A.
  unfold cleanup at 1. apply cleanup_loop_young.
  rewrite A. apply forallb_filter_same.
Qed.

Lemma cleanup_twice_witness :
  cleanup 400000
    (fst (cleanup 400000
            (mkStats 2 2 0 [("/health", 2)]
                     [("req_a", 1000); ("req_b", 350000)])))
  = (fst (cleanup 400000
            (mkStats 2 2 0 [("/health", 2)]
                     [("req_a", 1000); ("req_b", 350000)])), 0).
Proof.
  apply (cleanup_twice 400000
           (mkStats 2 2 0 [("/health", 2)]
                    [("req_a", 1000); ("req_b", 350000)])).
  repeat constructor; simpl; intuition discriminate.
Defined.
(** ** The first version of the server *)

Section FirstVersionFacts.

Variable replies : nat -> Completion (Z * JsValue).

(** A pass that lets the loop go on leaves a document in [data]. *)
Lemma simple_pass_again (data : JsValue) (k : nat) :
  again (simple_pass replies data k) = true ->
  nullish (held (simple_pass replies data k)) = false
  /\ count_emitted "error" (performed (simple_pass replies data k)) = 0%nat.
Proof.
  unfold simple_pass.
  destruct (and_also (get executionUrl data) url_path) as [path|e];
    [|discriminate].
  destruct (replies k) as [[status body]|e]; [|discriminate].
  destruct (get finished body) as [f|e] eqn:Hf; [|discriminate].
  apply get_normal_defined in Hf as [Hn _].
  destruct (negb (truthy f)); cbn [again held performed]; intros _;
    split; try exact Hn; reflexivity.
Qed.

(** A pass that ends the loop ends with the [error] event, its only one. *)
Lemma simple_pass_break (data : JsValue) (k : nat) :
  again (simple_pass replies data k) = false ->
  exists o p,
    performed (simple_pass replies data k) = (o ++ [Emitted "error" p])%list
    /\ count_emitted "error" o = 0%nat.
Proof.
  unfold simple_pass, simple_catch.
  destruct (and_also (get executionUrl data) url_path) as [path|e].
  2:{ intros _. exists [], (JObj [("error", JStr (error_message e))]).
      split; reflexivity. }
  destruct (replies k) as [[status body]|e].
  2:{ intros _. eexists _, _. split; reflexivity. }
  destruct (get finished body) as [f|e].
  - destruct (negb (truthy f)); discriminate.
  - intros _. eexists _, _. cbn [performed]. split; reflexivity.
Qed.

Lemma count_emitted_app (ty : string) (a b : list Out) :
  count_emitted ty (a ++ b) = (count_emitted ty a + count_emitted ty b)%nat.
Proof. unfold count_emitted. rewrite filter_app, length_app. reflexivity. Qed.

Lemma simple_loop_ends (fuel : nat) :
  forall data k o c,
    nullish data = false ->
    simple_loop replies fuel data k = Some (o, c) ->
    (exists d, c = Normal d)
    /\ (count_emitted "error" o = 0%nat
        \/ exists o' p,
             o = (o' ++ [Emitted "error" p])%list
             /\ count_emitted "error" o' = 0%nat).
Proof.
  induction fuel as [|fuel IH]; intros data k o c Hn H; [discriminate H|].
  cbn [simple_loop] in H. rewrite !(get_defined _ _ Hn) in H.
  destruct (truthy (prop executionUrl data)).
  2:{ injection H as <- <-. split; [eauto | left; reflexivity]. }
  destruct (negb (truthy (prop finished data))).
  2:{ injection H as <- <-. split; [eauto | left; reflexivity]. }
  destruct (again (simple_pass replies data k)) eqn:Ha.
  - apply simple_pass_again in Ha as [Hl Hz].
    destruct (simple_loop replies fuel (held (simple_pass replies data k))
                (asked (simple_pass replies data k))) as [[o1 c1]|] eqn:Hr;
      [|discriminate H].
    injection H as <- <-.
    destruct (IH _ _ _ _ Hl Hr) as [Hc [Hz1|(o' & p & -> & Hz1)]].
    + split; [exact Hc|]. left. rewrite count_emitted_app, Hz, Hz1.
      reflexivity.
    + split; [exact Hc|]. right. exists (performed (simple_pass replies data k) ++ o')%list, p.
      split; [rewrite app_assoc; reflexivity|].
      rewrite count_emitted_app, Hz, Hz1. reflexivity.
  - apply simple_pass_break in Ha as (o' & p & E & Hz).
    injection H as <- <-. split; [eauto|]. right. eauto.
Qed.

(** The poller of [webhook_server.js] never rejects: whatever the
    remote engine answers, a run that ends returns a value; and it stops at
    the first failure: it sends at most one [error] event, and when it
    sends one this is the last thing it does. *)
Theorem simple_poll_stops_at_first_error (fuel : nat) (url : JsValue)
    (o : list Out) (c : Completion JsValue) :
  simple_pollWorkflow replies fuel url = Some (o, c) ->
  (exists d, c = Normal d)
  /\ (count_emitted "error" o = 0%nat
      \/ exists o' p,
           o = (o' ++ [Emitted "error" p])%list
           /\ count_emitted "error" o' = 0%nat).
Proof.
  unfold simple_pollWorkflow. apply simple_loop_ends. reflexivity.
Qed.

Hypothesis running :
  forall k, exists status body,
    replies k = Normal (status, body) /\ pending body = true.

Lemma simple_loop_runs_on (fuel : nat) :
  forall data k,
    pending data = true -> simple_loop replies fuel data k = None.
Proof.
  induction fuel as [|fuel IH]; intros data k Hp; [reflexivity|].
  apply pending_document in Hp as (Hn & Hu & Ht & Hf).
  cbn [simple_loop]. rewrite !(get_defined _ _ Hn), Hu, Hf. cbn [negb].
  unfold simple_pass. rewrite (get_defined _ _ Hn). cbn [and_also].
  destruct (url_path_of_string _ Ht) as [path ->].
  destruct (running k) as (status & body & -> & Hb).
  pose proof (pending_document _ Hb) as (Hn' & _ & _ & Hf').
  rewrite (get_defined _ _ Hn'), Hf'. cbn [negb again held asked].
  rewrite (IH _ _ Hb). reflexivity.
Qed.

(** The poller of [webhook_server.js] has no bound on its attempts:
    as long as the remote engine answers with documents that are not
    finished and name a URL to poll, it goes on polling, and it never
    returns. *)
Theorem simple_poll_has_no_ceiling (fuel : nat) (u : string) :
  u <> "" ->
  simple_pollWorkflow replies fuel (JStr u) = None.
Proof.
  intros Hu. unfold simple_pollWorkflow. apply simple_loop_runs_on.
  unfold pending. cbn.
  destruct (String.eqb_spec u ""); [contradiction|reflexivity].
Qed.

End FirstVersionFacts.

Lemma simple_poll_stops_at_first_error_witness :
  exists o c,
    simple_pollWorkflow (fun _ => Throw (AxiosError "socket hang up" JUndefined))
                        3 w_url = Some (o, c)
    /\ exists d, c = Normal d.
Proof.
  eexists _, _. split; [reflexivity|].
  eapply (simple_poll_stops_at_first_error
            (fun _ => Throw (AxiosError "socket hang up" JUndefined)) 3 w_url).
  reflexivity.
Defined.

Lemma simple_poll_has_no_ceiling_witness :
  simple_pollWorkflow (fun _ => Normal (200, w_running)) 5000
                      (JStr "https://n8n.example/run/7") = None.
Proof.
  apply (simple_poll_has_no_ceiling (fun _ => Normal (200, w_running))).
  - intros k. exists 200, w_running. split; reflexivity.
  - discriminate.
Defined.

Section FirstVersionLauncher.

Variable replies : nat -> Completion (Z * JsValue).

(** In [webhook_server.js] a failure of the polling does not change
    how [/webhook/generer/messages] ends: whenever the trigger response
    names a status URL, the last event of the launcher is [completed], with
    the message of success, then the response ends; when the first status
    request fails, the client has received the [error] event of the poller
    before it, and no other status request was made. *)
Theorem simple_launcher_completes_after_error (fuel : nat)
    (trigger : Completion (Z * JsValue)) (id mode : JsValue) (status : Z)
    (body u : JsValue) (acts : list Out) :
  trigger = Normal (status, body) ->
  get executionUrl body = Normal u ->
  truthy u = true ->
  simple_generer_messages replies fuel trigger id mode = Some acts ->
  exists before p,
    acts = (before ++ [Emitted "completed" p; Closed])%list
    /\ field "message" p = JStr "Messages générés avec succès"
    /\ forall e,
         typeof u = "string" ->
         replies 0%nat = Throw e ->
         count_emitted "error" before = 1%nat
         /\ List.length (filter is_got before) = 1%nat.
Proof.
  intros Ht Hg Hu. unfold simple_generer_messages. cbv zeta.
  rewrite Ht, Hg, Hu.
  destruct (simple_pollWorkflow replies fuel u) as [[o c]|] eqn:Hp;
    [|discriminate].
  pose proof Hp as Hd. unfold simple_pollWorkflow in Hd.
  apply simple_loop_ends in Hd as [[d ->] _]; [|reflexivity].
  intros H.
  apply (f_equal (fun x => match x with Some y => y | None => [] end)) in H.
  cbv beta iota in H. subst acts.
  eexists _, _. split; [reflexivity|]. split; [reflexivity|].
  intros e Hs He.
  destruct fuel as [|fuel]; [discriminate Hp|].
  unfold simple_pollWorkflow in Hp. cbn [simple_loop get lookup field_name
    String.eqb Ascii.eqb Bool.eqb truthy negb] in Hp.
  rewrite Hu in Hp. unfold simple_pass in Hp.
  cbn [get lookup field_name String.eqb Ascii.eqb Bool.eqb and_also] in Hp.
  destruct (url_path_of_string _ Hs) as [path Epath].
  rewrite Epath, He in Hp. cbn [simple_catch again performed held] in Hp.
  injection Hp as <- _.
  rewrite count_emitted_app. unfold count_emitted.
  rewrite !filter_app, !length_app. split; reflexivity.
Qed.

End FirstVersionLauncher.

Lemma simple_launcher_completes_after_error_witness :
  exists before p,
    simple_generer_messages
      (fun _ => Throw (AxiosError "socket hang up" JUndefined)) 3
      (Normal (200, w_running)) (JStr "42") JUndefined
    = Some (before ++ [Emitted "completed" p; Closed])%list
    /\ count_emitted "error" before = 1%nat.
Proof.
  destruct (simple_launcher_completes_after_error
              (fun _ => Throw (AxiosError "socket hang up" JUndefined)) 3
              (Normal (200, w_running)) (JStr "42") JUndefined 200 w_running
              w_url _ eq_refl eq_refl eq_refl eq_refl)
    as (before & p & E & _ & H).
  exists before, p. split; [rewrite <- E; reflexivity|].
  apply (H (AxiosError "socket hang up" JUndefined)); reflexivity.
Defined.
